(** * erecommender: the HTTP endpoints of [recommender/api/titles.py]

    A shallow embedding of the request handlers of the document-recommendation
    training pipeline (download, title mapping, text extraction, vectorisation,
    train/validation split, chunked upload, estimator creation), and the
    properties of the specification settled against it.

    Python values decoded from JSON are the inductive [Py.pyval]; a handler
    that may raise returns [Py.res]; handlers that write to the database, the
    book folder or the bucket thread an explicit state.  Calls into services
    that are not part of the file (boto3, SageMaker, the content service, the
    JSON text extractor) are arguments of the handler: what the call returned
    or raised in the run under study. *)

From Stdlib Require Import ZArith List String Ascii Bool Lia Permutation.
From Stdlib Require Import DecimalString SpecFloat PrimFloat FloatOps.
From Stdlib Require Uint63.
Import ListNotations.

Set Warnings "-inexact-float,-register-all".
Local Open Scope string_scope.
Local Open Scope list_scope.
Local Open Scope Z_scope.

(** ** Python values, exceptions and results *)
Module Py.

(** The exception classes that occur in the handlers, with the part of the
    built-in hierarchy that [except] clauses of the file look at. *)
Inductive exn_class : Type :=
| BaseException
| KeyboardInterrupt
| SystemExit
| Exception
| ValueError
| JSONDecodeError
| LookupError
| KeyError
| IndexError
| TypeError
| AttributeError
| NameError
| UnboundLocalError
| ArithmeticError
| ZeroDivisionError
| OverflowError
| RuntimeError
| NotImplementedError
| MemoryError
| OSError
| ClientError.

Definition exn_class_eqb (c d : exn_class) : bool :=
  match c, d with
  | BaseException, BaseException | KeyboardInterrupt, KeyboardInterrupt
  | SystemExit, SystemExit | Exception, Exception | ValueError, ValueError
  | JSONDecodeError, JSONDecodeError | LookupError, LookupError
  | KeyError, KeyError | IndexError, IndexError | TypeError, TypeError
  | AttributeError, AttributeError | NameError, NameError
  | UnboundLocalError, UnboundLocalError | ArithmeticError, ArithmeticError
  | ZeroDivisionError, ZeroDivisionError | OverflowError, OverflowError
  | RuntimeError, RuntimeError | NotImplementedError, NotImplementedError
  | MemoryError, MemoryError | OSError, OSError | ClientError, ClientError => true
  | _, _ => false
  end.

(** The direct base class ([None] for the root). *)
Definition base (c : exn_class) : option exn_class :=
  match c with
  | BaseException => None
  | KeyboardInterrupt | SystemExit | Exception => Some BaseException
  | ValueError | LookupError | TypeError | AttributeError | NameError
  | ArithmeticError | RuntimeError | MemoryError | OSError | ClientError => Some Exception
  | JSONDecodeError => Some ValueError
  | KeyError | IndexError => Some LookupError
  | UnboundLocalError => Some NameError
  | ZeroDivisionError | OverflowError => Some ArithmeticError
  | NotImplementedError => Some RuntimeError
  end.

(** [issubclass c d]: the hierarchy above is at most four levels deep. *)
Fixpoint subclass_upto (fuel : nat) (c d : exn_class) : bool :=
  exn_class_eqb c d ||
  match fuel, base c with
  | S k, Some b => subclass_upto k b d
  | _, _ => false
  end.

Definition issubclass (c d : exn_class) : bool := subclass_upto 4 c d.

(** JSON-decoded Python values (and the values handlers put in a response).
    JSON objects keep their keys in order. *)
Inductive pyval : Type :=
| PNone
| PBool (b : bool)
| PInt (n : Z)
| PFloat (x : spec_float)
| PStr (s : string)
| PList (l : list pyval)
| PDict (d : list (string * pyval)).

(** A raised exception: its class and its [args] tuple. *)
Record exn : Type := Exn { exn_cls : exn_class; exn_args : list pyval }.

Inductive res (A : Type) : Type :=
| Ok (a : A)
| Raise (e : exn).
Arguments Ok {A} a.
Arguments Raise {A} e.

Definition bind {A B : Type} (m : res A) (k : A -> res B) : res B :=
  match m with
  | Ok a => k a
  | Raise e => Raise e
  end.

Definition raise {A : Type} (c : exn_class) (msg : string) : res A :=
  Raise (Exn c [PStr msg]).

(** Truth value testing ([if x:]). *)
Definition truthy (v : pyval) : bool :=
  match v with
  | PNone => false
  | PBool b => b
  | PInt n => negb (n =? 0)
  | PFloat x => match x with S754_zero _ => false | _ => true end
  | PStr s => negb (String.eqb s "")
  | PList l => match l with [] => false | _ => true end
  | PDict d => match d with [] => false | _ => true end
  end.

Fixpoint assoc {A : Type} (k : string) (d : list (string * A)) : option A :=
  match d with
  | [] => None
  | (k', v) :: d' => if String.eqb k k' then Some v else assoc k d'
  end.

(** [v[key]] for a string key. *)
Definition getitem (v : pyval) (key : string) : res pyval :=
  match v with
  | PDict d => match assoc key d with
               | Some x => Ok x
               | None => Raise (Exn KeyError [PStr key])
               end
  | PStr _ => raise TypeError "string indices must be integers"
  | PList _ => raise TypeError "list indices must be integers or slices, not str"
  | _ => raise TypeError "object is not subscriptable"
  end.

(** [v[0]]. *)
Definition getitem0 (v : pyval) : res pyval :=
  match v with
  | PList (x :: _) => Ok x
  | PList [] => raise IndexError "list index out of range"
  | PStr (String c _) => Ok (PStr (String c ""))
  | PStr EmptyString => raise IndexError "string index out of range"
  | PDict _ => Raise (Exn KeyError [PInt 0])
  | _ => raise TypeError "object is not subscriptable"
  end.

(** [v.get(key, default)]: only dictionaries have the method. *)
Definition get (v : pyval) (key : string) (default : pyval) : res pyval :=
  match v with
  | PDict d => Ok (match assoc key d with Some x => x | None => default end)
  | _ => raise AttributeError "object has no attribute 'get'"
  end.

(** The items a [for] loop over [v] visits. *)
Definition iter (v : pyval) : res (list pyval) :=
  match v with
  | PList l => Ok l
  | PDict d => Ok (map (fun kv => PStr (fst kv)) d)
  | PStr s => Ok (map (fun c => PStr (String c "")) (list_ascii_of_string s))
  | _ => raise TypeError "object is not iterable"
  end.

(** [len(v)]. *)
Definition len (v : pyval) : res Z :=
  match v with
  | PList l => Ok (Z.of_nat (List.length l))
  | PDict d => Ok (Z.of_nat (List.length d))
  | PStr s => Ok (Z.of_nat (String.length s))
  | _ => raise TypeError "object has no len()"
  end.

Definition float_eqb (x y : spec_float) : bool :=
  match x, y with
  | S754_zero s, S754_zero s' => Bool.eqb s s'
  | S754_infinity s, S754_infinity s' => Bool.eqb s s'
  | S754_nan, S754_nan => true
  | S754_finite s m e, S754_finite s' m' e' => Bool.eqb s s' && Pos.eqb m m' && (e =? e')
  | _, _ => false
  end.

(** Structural equality of decoded values: the comparison a stored column
    value undergoes in a lookup such as [filter(identifier=v)]. *)
Fixpoint pyval_eqb (a b : pyval) {struct a} : bool :=
  match a, b with
  | PNone, PNone => true
  | PBool x, PBool y => Bool.eqb x y
  | PInt x, PInt y => x =? y
  | PFloat x, PFloat y => float_eqb x y
  | PStr x, PStr y => String.eqb x y
  | PList x, PList y =>
      (fix go (x y : list pyval) {struct x} : bool :=
         match x, y with
         | [], [] => true
         | u :: x', v :: y' => pyval_eqb u v && go x' y'
         | _, _ => false
         end) x y
  | PDict x, PDict y =>
      (fix go (x y : list (string * pyval)) {struct x} : bool :=
         match x, y with
         | [], [] => true
         | (k, u) :: x', (k', v) :: y' => String.eqb k k' && pyval_eqb u v && go x' y'
         | _, _ => false
         end) x y
  | _, _ => false
  end.

(** [int(x)] of a float: truncation towards zero; infinities and NaN raise. *)
Definition int_of_float (x : spec_float) : res Z :=
  match x with
  | S754_zero _ => Ok 0
  | S754_finite s m e =>
      let a := if 0 <=? e then Zpos m * 2 ^ e else Zpos m / 2 ^ (- e) in
      Ok (if s then - a else a)
  | S754_infinity _ => raise OverflowError "cannot convert float infinity to integer"
  | S754_nan => raise ValueError "cannot convert float NaN to integer"
  end.

(** [v > 0] for a decoded value. *)
Definition gt0 (v : pyval) : res bool :=
  match v with
  | PInt n => Ok (0 <? n)
  | PBool b => Ok b
  | PFloat x => Ok (SFltb (S754_zero false) x)
  | _ => raise TypeError "'>' not supported between instances"
  end.

(** [int(v)] for a number. *)
Definition int_of (v : pyval) : res Z :=
  match v with
  | PInt n => Ok n
  | PBool b => Ok (if b then 1 else 0)
  | PFloat x => int_of_float x
  | _ => raise TypeError "int() argument must be a number"
  end.

(** [os.path.join] of [posixpath], folded over the components. *)
Definition ends_with_sep (p : string) : bool :=
  match rev (list_ascii_of_string p) with
  | c :: _ => Ascii.eqb c "/"%char
  | [] => false
  end.

Definition starts_with_sep (p : string) : bool :=
  match p with
  | String c _ => Ascii.eqb c "/"%char
  | EmptyString => false
  end.

Definition join2 (path b : string) : string :=
  if starts_with_sep b then b
  else if String.eqb path "" || ends_with_sep path then (path ++ b)%string
  else (path ++ "/" ++ b)%string.

Definition path_join (a : string) (p : list string) : string :=
  fold_left join2 p a.

(** [str(i)] of an integer. *)
Definition str_of_int (i : Z) : string := NilZero.string_of_int (Z.to_int i).

(** The templates of [str.format] that [format1] below covers: literal text
    and automatically numbered fields [{}]; every brace belongs to such a
    field.  Escaped braces, numbered or named fields and format
    specifications are not covered. *)
Fixpoint plain_template (template : string) : bool :=
  match template with
  | EmptyString => true
  | String c rest =>
      if Ascii.eqb c "{"%char then
        match rest with
        | String d rest' => Ascii.eqb d "}"%char && plain_template rest'
        | EmptyString => false
        end
      else negb (Ascii.eqb c "}"%char) && plain_template rest
  end.

(** The number of [{}] fields of a plain template. *)
Fixpoint fields (template : string) : nat :=
  match template with
  | EmptyString => O
  | String c rest =>
      if Ascii.eqb c "{"%char then
        match rest with
        | String d rest' => if Ascii.eqb d "}"%char then S (fields rest') else fields rest
        | EmptyString => O
        end
      else fields rest
  end.

(** [template.format(arg)], one positional argument, on a plain template,
    read from its field number [n] on: a field takes the argument of its
    number, and there is only the argument of number 0. *)
Fixpoint format_from (n : nat) (template arg : string) : res string :=
  match template with
  | EmptyString => Ok EmptyString
  | String c rest =>
      let literal := bind (format_from n rest arg) (fun r => Ok (String c r)) in
      if Ascii.eqb c "{"%char then
        match rest with
        | String d rest' =>
            if Ascii.eqb d "}"%char then
              match n with
              | O => bind (format_from 1 rest' arg) (fun r => Ok (arg ++ r)%string)
              | S _ => raise IndexError
                         "Replacement index 1 out of range for positional args tuple"
              end
            else literal
        | EmptyString => literal
        end
      else literal
  end.

Definition format1 (template arg : string) : res string := format_from 0 template arg.

End Py.

Declare Scope py_scope.
Delimit Scope py_scope with py.
Notation "x <- m ;; k" := (Py.bind m (fun x => k))
  (at level 100, m at next level, right associativity) : py_scope.
Notation "m ;;; k" := (Py.bind m (fun _ => k))
  (at level 100, right associativity) : py_scope.

(** ** Binary64 arithmetic of the two float expressions of the file

    [int(0.8 * vectors.shape[0])] and scikit-learn's [max_df * n_doc] multiply
    a float literal by an integer.  The operations are those of the Standard
    Library's IEEE-754 reference ([SpecFloat]) at precision 53. *)
Module Float64.

Definition prec : Z := 53.
Definition emax : Z := 1024.

(** [float(n)]: the integer correctly rounded to binary64. *)
Definition of_int (n : Z) : spec_float := binary_normalize prec emax n 0 false.

Definition mul (x y : spec_float) : spec_float := SFmul prec emax x y.

(** The literals [0.8] and [0.95] as the parser of binary64 reads them. *)
Definition lit_0_8 : spec_float := S754_finite false 7205759403792794 (-53).
Definition lit_0_95 : spec_float := S754_finite false 8556839292003942 (-53).

Definition ltb (x y : spec_float) : bool := SFltb x y.
Definition leb (x y : spec_float) : bool := SFleb x y.

(** [int(0.8 * n)] for an integer [n]. *)
Definition int_0_8_times (n : Z) : Py.res Z :=
  Py.int_of_float (mul lit_0_8 (of_int n)).

(** Counts stored with [dtype=np.float32]. *)
Definition float32_of_count (c : nat) : spec_float :=
  binary_normalize 24 128 (Z.of_nat c) 0 false.

End Float64.

(** ** The REST framework's response *)
Module Rest.

Record Response : Type := { data : Py.pyval; status : Z }.

Definition HTTP_200_OK : Z := 200.
Definition HTTP_400_BAD_REQUEST : Z := 400.

End Rest.

(** ** Row-indexed matrices ([scipy.sparse] as the handlers use it)

    A matrix is its list of rows together with its number of columns, so that
    a matrix without rows still has a shape. *)
Module Sparse.

Record matrix (A : Type) : Type := { rows : list (list A); n_cols : nat }.
Arguments rows {A} m.
Arguments n_cols {A} m.

Definition shape {A : Type} (m : matrix A) : nat * nat :=
  (List.length (rows m), n_cols m).

Definition shape0 {A : Type} (m : matrix A) : Z := Z.of_nat (List.length (rows m)).

(** A slice bound brought into [0, len], as [slice.indices] does. *)
Definition norm_index (len i : Z) : Z :=
  if i <? 0 then Z.max 0 (i + len) else Z.min i len.

(** [m[start:stop]] over the rows; [None] is an omitted bound. *)
Definition slice_rows {A : Type} (m : matrix A) (start stop : option Z) : matrix A :=
  let len := shape0 m in
  let a := match start with Some i => norm_index len i | None => 0 end in
  let b := match stop with Some i => norm_index len i | None => len end in
  {| rows := firstn (Z.to_nat (b - a)) (skipn (Z.to_nat a) (rows m));
     n_cols := n_cols m |}.

(** [m[i]] for one row index. *)
Definition row_at {A : Type} (m : matrix A) (i : Z) : Py.res (list A) :=
  let len := shape0 m in
  let j := if i <? 0 then i + len else i in
  if (j <? 0) || (len <=? j) then Py.raise Py.IndexError "index out of bounds"
  else match nth_error (rows m) (Z.to_nat j) with
       | Some r => Py.Ok r
       | None => Py.raise Py.IndexError "index out of bounds"
       end.

Fixpoint rows_at {A : Type} (m : matrix A) (idx : list Z) : Py.res (list (list A)) :=
  match idx with
  | [] => Py.Ok []
  | i :: idx' =>
      match row_at m i with
      | Py.Ok r => match rows_at m idx' with
                   | Py.Ok rs => Py.Ok (r :: rs)
                   | Py.Raise e => Py.Raise e
                   end
      | Py.Raise e => Py.Raise e
      end
  end.

(** [m[index_array]]: the rows picked by an integer array. *)
Definition take_rows {A : Type} (m : matrix A) (idx : list Z) : Py.res (matrix A) :=
  match rows_at m idx with
  | Py.Ok rs => Py.Ok {| rows := rs; n_cols := n_cols m |}
  | Py.Raise e => Py.Raise e
  end.

(** The rows of index [lo] (included) to [hi] (excluded). *)
Definition rows_between {A : Type} (lo hi : Z) (l : list A) : list A :=
  firstn (Z.to_nat (hi - lo)) (skipn (Z.to_nat lo) l).

Definition map_entries {A B : Type} (f : A -> B) (m : matrix A) : matrix B :=
  {| rows := map (map f) (rows m); n_cols := n_cols m |}.

End Sparse.

(** ** Sorting, as [sorted] and [order_by] do it *)
Module Seq.

Section Sort.
Context {A : Type} (le : A -> A -> bool).

Fixpoint insert (x : A) (l : list A) : list A :=
  match l with
  | [] => [x]
  | y :: l' => if le x y then x :: l else y :: insert x l'
  end.

(** Stable: of two elements that compare equal, the earlier stays first. *)
Definition sort (l : list A) : list A := fold_right insert [] l.
End Sort.

(** [range(n)] *)
Definition range (n : Z) : list Z := map Z.of_nat (seq 0 (Z.to_nat n)).

End Seq.

(** ** scikit-learn's [CountVectorizer], as [PrepareTrainData] configures it

    [CountVectorizer(input="content", analyzer="word", stop_words=...,
    tokenizer=..., max_features=..., max_df=..., min_df=...)] and its
    [fit_transform]: build the vocabulary in order of first occurrence, sort
    it, prune it by document frequency, cap it at [max_features] terms by
    total count, and return one row of counts per document.  The tokenizer
    ([LTokenizer] of [recommender.utils]) and the stop words
    ([recommender._stop_words_sp]) are not part of the file under study and
    are arguments, as are [str.lower] and numpy's [argsort]. *)
Module Sklearn.

Definition mem (w : string) (l : list string) : bool := existsb (String.eqb w) l.

Definition count (feature : string) (tokens : list string) : nat :=
  List.length (filter (String.eqb feature) tokens).

(** The row of a document: its count of every term of the vocabulary. *)
Definition bag (vocabulary tokens : list string) : list nat :=
  map (fun t => count t tokens) vocabulary.

Section CountVectorizer.
Variable lower : string -> string.
Variable tokenizer : string -> list string.
Variable stop_words : list string.
Variable max_features : nat.
Variable max_df : spec_float.
Variable min_df : Z.
Variable argsort : list Z -> list nat.

(** [build_analyzer()]: preprocess, tokenize, drop the stop words. *)
Definition analyze (doc : string) : list string :=
  filter (fun w => negb (mem w stop_words)) (tokenizer (lower doc)).

(** [vocabulary[feature]] on a [defaultdict] whose factory is its length. *)
Definition add_term (vocabulary : list string) (feature : string) : list string :=
  if mem feature vocabulary then vocabulary else vocabulary ++ [feature].

(** The features of one document, looked up in turn. *)
Definition add_terms (vocabulary tokens : list string) : list string :=
  fold_left add_term tokens vocabulary.

Definition _count_vocab (analyzed : list (list string)) : Py.res (list string) :=
  match fold_left add_terms analyzed [] with
  | [] => Py.raise Py.ValueError
            "empty vocabulary; perhaps the documents only contain stop words"
  | vocabulary => Py.Ok vocabulary
  end.

(** Number of documents a term occurs in, and its total count. *)
Definition document_frequency (analyzed : list (list string)) (t : string) : nat :=
  List.length (filter (mem t) analyzed).

Definition term_frequency (analyzed : list (list string)) (t : string) : nat :=
  list_sum (map (count t) analyzed).

(** [_limit_features(X, vocabulary, high, low, limit)] on the sorted
    vocabulary: the terms it keeps, in column order.  When more than [limit]
    terms pass the document-frequency bounds, the terms kept are those at the
    [limit] first positions of [(-tfs[mask]).argsort()]; numpy's [argsort] is
    an argument, since which of several terms of equal total count it puts
    first is not specified. *)
Definition _limit_features (analyzed : list (list string)) (vocabulary : list string)
    (high : spec_float) (low : Z) (limit : nat) : Py.res (list string) :=
  let mask :=
    filter (fun t =>
              let df := Z.of_nat (document_frequency analyzed t) in
              Float64.leb (Float64.of_int df) high && (low <=? df)) vocabulary in
  let mask :=
    if (limit <? List.length mask)%nat then
      let tfs := map (fun t => Z.of_nat (term_frequency analyzed t)) mask in
      let mask_inds := firstn limit (argsort (map Z.opp tfs)) in
      map snd (filter (fun it => existsb (Nat.eqb (fst it)) mask_inds)
                      (combine (seq 0 (List.length mask)) mask))
    else mask in
  match mask with
  | [] => Py.raise Py.ValueError
            "After pruning, no terms remain. Try a lower min_df or a higher max_df."
  | kept => Py.Ok kept
  end.

(** [fit_transform(raw_documents)]: the fitted vocabulary
    ([get_feature_names_out()]) and the count matrix. *)
Definition fit_transform (raw_documents : list string)
  : Py.res (list string * Sparse.matrix nat) :=
  let analyzed := map analyze raw_documents in
  match _count_vocab analyzed with
  | Py.Raise e => Py.Raise e
  | Py.Ok vocabulary =>
      let n_doc := Z.of_nat (List.length raw_documents) in
      let max_doc_count := Float64.mul max_df (Float64.of_int n_doc) in
      let min_doc_count := min_df in
      if Float64.ltb max_doc_count (Float64.of_int min_doc_count) then
        Py.raise Py.ValueError "max_df corresponds to < documents than min_df"
      else
        let sorted := Seq.sort String.leb vocabulary in
        match _limit_features analyzed sorted max_doc_count min_doc_count max_features with
        | Py.Raise e => Py.Raise e
        | Py.Ok kept =>
            Py.Ok (kept, {| Sparse.rows := map (bag kept) analyzed;
                            Sparse.n_cols := List.length kept |})
        end
  end.
End CountVectorizer.

End Sklearn.

(** ** The Title table *)
Module Db.

(** Modelled from the spec: the [Title] model of [recommender.models] is not
    part of the file under study.  A Title has an identifier, a publisher, a
    theme, a name, the full text and a reference to its stored feature vector;
    a new Title has no text and no vector.  [pk] is the primary key of the
    row.  The vector file is kept as its name and the row of counts written
    to it. *)
Record Title : Type := {
  pk : Z;
  identifier : Py.pyval;
  publisher : Py.pyval;
  theme : Py.pyval;
  name : Py.pyval;
  complete_text : string;
  vector_file : option (string * list nat)
}.

Definition set_complete_text (t : Title) (text : string) : Title :=
  {| pk := pk t; identifier := identifier t; publisher := publisher t;
     theme := theme t; name := name t;
     complete_text := text; vector_file := vector_file t |}.

Definition set_vector_file (t : Title) (f : string * list nat) : Title :=
  {| pk := pk t; identifier := identifier t; publisher := publisher t;
     theme := theme t; name := name t;
     complete_text := complete_text t; vector_file := Some f |}.

Definition table : Type := list Title.

Definition has_pk (k : Z) (db : table) : bool := existsb (fun r => pk r =? k) db.

Fixpoint update_row (t : Title) (db : table) : table :=
  match db with
  | [] => []
  | r :: db' => if pk r =? pk t then t :: db' else r :: update_row t db'
  end.

(** [instance.save()] of a loaded row: update it, or insert it when the row
    is gone. *)
Definition save (t : Title) (db : table) : table :=
  if has_pk (pk t) db then update_row t db else db ++ [t].

Definition next_pk (db : table) : Z := 1 + fold_right (fun r m => Z.max (pk r) m) 0 db.

(** [Title(identifier=..., publisher=..., theme=..., name=...).save()]:
    a new row under a fresh key. *)
Definition create (identifier publisher theme name : Py.pyval) (db : table) : table :=
  db ++ [ {| pk := next_pk db; identifier := identifier; publisher := publisher;
             theme := theme; name := name; complete_text := ""; vector_file := None |} ].

(** The stored row of primary key [k]. *)
Definition lookup (k : Z) (db : table) : option Title :=
  find (fun r => pk r =? k) db.

(** [.order_by("-pk")] *)
Definition order_by_desc_pk (q : list Title) : list Title :=
  Seq.sort (fun a b => pk b <=? pk a) q.

End Db.

(** ** [DownloadTitles] *)
Module DownloadTitles.
Import Py.

(** What the services answered in the run: [json.loads], the construction of
    [Boto3FileDownload], the [i]-th call of [service.download_file] (on the
    key it was given), and the elapsed time the handler measured. *)
Record env : Type := {
  json_loads : string -> res pyval;
  Boto3FileDownload : pyval -> pyval -> pyval -> res unit;
  download_file : nat -> pyval -> res unit;
  duration : spec_float
}.

(** The [for key in list_keys] loop with its [except ValueError]. *)
Fixpoint download_loop (E : env) (i : nat) (keys errors : list pyval)
  : res (list pyval) :=
  match keys with
  | [] => Ok errors
  | key :: rest =>
      match download_file E i key with
      | Ok _ => download_loop E (S i) rest errors
      | Raise e =>
          if issubclass (exn_cls e) ValueError
          then download_loop E (S i) rest (errors ++ [key])
          else Raise e
      end
  end.

Definition post (E : env) (request_body : string) : res Rest.Response :=
  (body <- json_loads E request_body ;;
   profile_name <- getitem body "profile_name" ;;
   bucket_name <- getitem body "bucket_name" ;;
   region_name <- getitem body "region_name" ;;
   list_keys <- getitem body "list_keys" ;;
   Boto3FileDownload E profile_name bucket_name region_name ;;;
   keys <- iter list_keys ;;
   errors <- download_loop E 0 keys [] ;;
   Ok {| Rest.data := PDict [("status", PStr "OK");
                             ("duration", PFloat (duration E));
                             ("errors", PInt (Z.of_nat (List.length errors)))];
         Rest.status := Rest.HTTP_200_OK |})%py.

(** The keys the loop visits: lines 54-59 and the start of the loop, up to
    the first download. *)
Definition request_keys (E : env) (request_body : string) : res (list pyval) :=
  (body <- json_loads E request_body ;;
   profile_name <- getitem body "profile_name" ;;
   bucket_name <- getitem body "bucket_name" ;;
   region_name <- getitem body "region_name" ;;
   list_keys <- getitem body "list_keys" ;;
   Boto3FileDownload E profile_name bucket_name region_name ;;;
   iter list_keys)%py.

(** Whether the [i]-th download, of [key], raised ValueError, or raised
    something that is not a ValueError. *)
Definition raised_ValueError (E : env) (i : nat) (key : pyval) : bool :=
  match download_file E i key with
  | Raise e => issubclass (exn_cls e) ValueError
  | Ok _ => false
  end.

Definition raised_other (E : env) (i : nat) (key : pyval) : bool :=
  match download_file E i key with
  | Raise e => negb (issubclass (exn_cls e) ValueError)
  | Ok _ => false
  end.

(** The keys with the number of their download. *)
Definition numbered (i0 : nat) (keys : list pyval) : list (nat * pyval) :=
  combine (seq i0 (List.length keys)) keys.

(** How many keys of the list had their download raise ValueError. *)
Definition count_ValueError (E : env) (keys : list pyval) : nat :=
  List.length (filter (fun ik => raised_ValueError E (fst ik) (snd ik)) (numbered 0 keys)).

End DownloadTitles.

(** ** [MapTitleInformation] *)
Module MapTitleInformation.
Import Py.

(** [json.loads], [get_service()] and the [i]-th call of
    [service.get_title(id=key)]. *)
Record env : Type := {
  json_loads : string -> res pyval;
  get_service : res unit;
  get_title : nat -> pyval -> res pyval
}.

Definition _create_title (item : pyval) : res unit :=
  raise NotImplementedError "Method not implemented yet".

(** [Title.objects.filter(identifier=v).exists()] *)
Definition exists_identifier (v : pyval) (db : Db.table) : bool :=
  existsb (fun r => pyval_eqb (Db.identifier r) v) db.

Definition _create_title_from_service (title : pyval) (db : Db.table)
  : Db.table * res unit :=
  match get title "sync_key" PNone with
  | Raise e => (db, Raise e)
  | Ok sync_key =>
      if exists_identifier sync_key db then (db, Ok tt)
      else
        match (th <- get title "theme" PNone ;;
               theme <- (if truthy th
                         then (th' <- get title "theme" PNone ;;
                               first <- getitem0 th' ;;
                               getitem first "name")
                         else Ok (PStr "")) ;;
               ident <- get title "sync_key" PNone ;;
               pub <- get title "publisher" PNone ;;
               pub_name <- getitem pub "name" ;;
               title_name <- get title "title_name" PNone ;;
               Ok (ident, pub_name, theme, title_name))%py with
        | Raise e => (db, Raise e)
        | Ok (ident, pub_name, theme, title_name) =>
            (Db.create ident pub_name theme title_name db, Ok tt)
        end
  end.

(** The [for key in list_keys] loop of the service branch. *)
Fixpoint service_loop (E : env) (i : nat) (keys : list pyval) (db : Db.table)
  : Db.table * res unit :=
  match keys with
  | [] => (db, Ok tt)
  | key :: rest =>
      match get_title E i key with
      | Raise e => (db, Raise e)
      | Ok title =>
          if truthy title then
            match _create_title_from_service title db with
            | (db', Ok _) => service_loop E (S i) rest db'
            | (db', Raise e) => (db', Raise e)
            end
          else service_loop E (S i) rest db
      end
  end.

(** The [for item in body["titles"]] loop: the first item raises. *)
Fixpoint bulk_loop (items : list pyval) : res unit :=
  match items with
  | [] => Ok tt
  | item :: rest => (_create_title item ;;; bulk_loop rest)%py
  end.

Definition ok_response : Rest.Response :=
  {| Rest.data := PDict [("status", PStr "OK")]; Rest.status := Rest.HTTP_200_OK |}.

Definition post (E : env) (request_body : string) (db : Db.table)
  : Db.table * res Rest.Response :=
  match (body <- json_loads E request_body ;;
         has_service <- getitem body "has_service" ;;
         list_keys <- get body "list_keys" PNone ;;
         Ok (body, has_service, list_keys))%py with
  | Raise e => (db, Raise e)
  | Ok (body, has_service, list_keys) =>
      if truthy has_service then
        match (get_service E ;;; iter list_keys)%py with
        | Raise e => (db, Raise e)
        | Ok keys =>
            match service_loop E 0 keys db with
            | (db', Ok _) => (db', Ok ok_response)
            | (db', Raise e) => (db', Raise e)
            end
        end
      else
        match (titles <- getitem body "titles" ;;
               items <- iter titles ;;
               bulk_loop items)%py with
        | Raise e => (db, Raise e)
        | Ok _ => (db, Ok ok_response)
        end
  end.

End MapTitleInformation.

(** ** [GetTextJSONFiles] *)
Module GetTextJSONFiles.
Import Py.

(** [json.loads], [settings.BOOK_PATH], the builtin [str] that the f-string
    applies, the construction of [MapTitleTextJSONFiles] and the [i]-th call
    of [map_service.process_json_file(folder=...)]. *)
Record env : Type := {
  json_loads : string -> res pyval;
  BOOK_PATH : string;
  str : pyval -> string;
  MapTitleTextJSONFiles : string -> res unit;
  process_json_file : nat -> string -> res string
}.

(** The [for title in queryset] loop. *)
Fixpoint text_loop (E : env) (file_path : pyval) (i : nat)
    (queryset : list Db.Title) (db : Db.table) : Db.table * res unit :=
  match queryset with
  | [] => (db, Ok tt)
  | title :: rest =>
      let folder := (str E file_path ++ "/" ++ str E (Db.identifier title))%string in
      match process_json_file E i folder with
      | Raise e => (db, Raise e)
      | Ok merged_text =>
          text_loop E file_path (S i) rest
            (Db.save (Db.set_complete_text title merged_text) db)
      end
  end.

Definition ok_response : Rest.Response :=
  {| Rest.data := PDict [("status", PStr "OK")]; Rest.status := Rest.HTTP_200_OK |}.

Definition post (E : env) (request_body : string) (db : Db.table)
  : Db.table * res Rest.Response :=
  match (body <- json_loads E request_body ;;
         file_path <- get body "file_path" (PStr (BOOK_PATH E)) ;;
         process_all <- get body "process_all" (PBool false) ;;
         MapTitleTextJSONFiles E (BOOK_PATH E) ;;;
         Ok (file_path, process_all))%py with
  | Raise e => (db, Raise e)
  | Ok (file_path, process_all) =>
      let queryset :=
        if truthy process_all then db
        else filter (fun t => String.eqb (Db.complete_text t) "") db in
      match text_loop E file_path 0 queryset db with
      | (db', Ok _) => (db', Ok ok_response)
      | (db', Raise e) => (db', Raise e)
      end
  end.

(** How a stored Title [t] may differ from what it has become, [t']: in its
    [complete_text] only, and not at all when it had text. *)
Definition text_only_changed (t t' : Db.Title) : Prop :=
  Db.pk t' = Db.pk t
  /\ Db.identifier t' = Db.identifier t
  /\ Db.publisher t' = Db.publisher t
  /\ Db.theme t' = Db.theme t
  /\ Db.name t' = Db.name t
  /\ Db.vector_file t' = Db.vector_file t
  /\ (Db.complete_text t <> "" -> t' = t).

End GetTextJSONFiles.

(** ** [PrepareTrainData] *)
Module PrepareTrainData.
Import Py.

Definition VOCAB_SIZE : nat := 2000.
Definition SAGEMAKER_BUCKET : string := "sagemaker-erecommender".
Definition PREFIX : string := "recommender".

(** What a file of the book folder holds. *)
Inductive file : Type :=
| FStrings (lines : list string)
| FInts (values : list Z)
| FCounts (values : list nat)
| FMatrix (m : Sparse.matrix nat).

(** An object put in a bucket: bucket name, key, and the rows serialized
    into it. *)
Record s3_object : Type := {
  s3_bucket : string;
  s3_key : string;
  s3_body : Sparse.matrix spec_float
}.

(** What the handler writes to: the Title table, and two logs, of the writes
    to the book folder and of the uploads to the bucket that returned, each in
    the order in which they were made.  A log is a history, not the content of
    the folder or of the bucket: a path or a key written twice is logged
    twice. *)
Record world : Type := {
  titles : Db.table;
  files : list (string * file);
  bucket : list s3_object
}.

(** [json.loads], [str.lower], [LTokenizer()] and the stop words of the
    vectorizer, numpy's [argsort], [settings.BOOK_PATH], the builtin [str],
    [np.random.permutation] and [self._get_boto_session()]; and what the
    calls that write did in the run: [np.savetxt] for the write that follows
    the [n] writes of the log, to the given path; [joblib.dump] to its path;
    [item.vector_file.save] (with the [open] before it) for the [i]-th title
    of the loop, which returns the name under which the storage kept the
    file; [upload_fileobj] for the upload that follows the [n] uploads of the
    log, to the given bucket and key. *)
Record env : Type := {
  json_loads : string -> res pyval;
  lower : string -> string;
  LTokenizer : string -> list string;
  spanish_words : list string;
  argsort : list Z -> list nat;
  BOOK_PATH : string;
  str : pyval -> string;
  np_savetxt : nat -> string -> res unit;
  permutation : list Z -> list Z;
  joblib_dump : string -> res unit;
  vector_file_save : nat -> Db.Title -> res string;
  _get_boto_session : res unit;
  upload_fileobj : nat -> string -> string -> res unit
}.

(** Computations over the stores that may raise. *)
Definition M (A : Type) : Type := world -> world * res A.

Definition ret {A : Type} (a : A) : M A := fun w => (w, Ok a).

Definition mbind {A B : Type} (m : M A) (k : A -> M B) : M B :=
  fun w => match m w with
           | (w', Ok a) => k a w'
           | (w', Raise e) => (w', Raise e)
           end.

Definition lift {A : Type} (r : res A) : M A := fun w => (w, r).

Definition gets {A : Type} (f : world -> A) : M A := fun w => (w, Ok (f w)).

(** A write to the book folder that did what [outcome] says: logged when it
    returned. *)
Definition write_file (outcome : res unit) (path : string) (f : file) : M unit :=
  fun w => match outcome with
           | Ok _ => ({| titles := titles w; files := files w ++ [(path, f)];
                         bucket := bucket w |}, Ok tt)
           | Raise e => (w, Raise e)
           end.

(** [np.savetxt(path, ...)] and [joblib.dump(..., path)]. *)
Definition savetxt (E : env) (path : string) (f : file) : M unit :=
  fun w => write_file (np_savetxt E (List.length (files w)) path) path f w.

Definition dump (E : env) (path : string) (f : file) : M unit :=
  write_file (joblib_dump E path) path f.

(** [bucket.Object(key).upload_fileobj(buf)]: logged when it returned. *)
Definition upload (E : env) (o : s3_object) : M unit :=
  fun w => match upload_fileobj E (List.length (bucket w)) (s3_bucket o) (s3_key o) with
           | Ok _ => ({| titles := titles w; files := files w; bucket := bucket w ++ [o] |},
                      Ok tt)
           | Raise e => (w, Raise e)
           end.

(** The row of a title written back to the table. *)
Definition save_title (t : Db.Title) : M unit :=
  fun w => ({| titles := Db.save t (titles w); files := files w; bucket := bucket w |},
            Ok tt).

Declare Scope st_scope.
Delimit Scope st_scope with st.
Notation "x <~ m ;; k" := (mbind m (fun x => k))
  (at level 100, m at next level, right associativity) : st_scope.
Notation "m ;;; k" := (mbind m (fun _ => k))
  (at level 100, right associativity) : st_scope.

(** The vectorizer of lines 144-152. *)
Definition fit_transform (E : env) (raw_documents : list string)
  : res (list string * Sparse.matrix nat) :=
  Sklearn.fit_transform (lower E) (LTokenizer E) (spanish_words E)
    VOCAB_SIZE Float64.lit_0_95 2 (argsort E) raw_documents.

Definition has_text (t : Db.Title) : bool := negb (String.eqb (Db.complete_text t) "").

Definition _get_title_queryset (book_limit list_keys theme_filter : pyval)
  : M (list Db.Title) :=
  (n <~ lift (len list_keys) ;;
   selected <~ (if 0 <? n then
                  keys <~ lift (iter list_keys) ;;
                  gets (fun w =>
                          filter (fun t => existsb (pyval_eqb (Db.identifier t)) keys)
                                 (titles w))
                else if truthy theme_filter then
                  gets (fun w =>
                          filter (fun t => pyval_eqb (Db.theme t) theme_filter) (titles w))
                else gets titles) ;;
   let ordered := Db.order_by_desc_pk (filter has_text selected) in
   limited <~ lift (gt0 book_limit) ;;
   if limited then
     k <~ lift (int_of book_limit) ;;
     ret (firstn (Z.to_nat k) ordered)
   else ret ordered)%st.

Definition _get_titles_text (queryset : list Db.Title) : list string :=
  map Db.complete_text (filter has_text queryset).

Definition vector_path (E : env) (item : Db.Title) : string :=
  (BOOK_PATH E ++ "/" ++ str E (Db.identifier item) ++ "/vector_file.csv")%string.

(** The [for item in queryset] loop of [_map_vectors_titles]: the row is
    written to the folder of the title, and the file is saved to the field
    [vector_file] of the title under the name the storage returns for
    [vector_file.csv]. *)
Fixpoint map_loop (E : env) (vectors : Sparse.matrix nat) (item_counter : Z)
    (queryset : list Db.Title) : M unit :=
  match queryset with
  | [] => ret tt
  | item :: rest =>
      (row <~ lift (Sparse.row_at vectors item_counter) ;;
       savetxt E (vector_path E item) (FCounts row) ;;;
       name <~ lift (vector_file_save E (Z.to_nat item_counter) item) ;;
       save_title (Db.set_vector_file item (name, row)) ;;;
       map_loop E vectors (item_counter + 1) rest)%st
  end.

Definition _map_vectors_titles (E : env) (vectors : Sparse.matrix nat)
    (queryset : list Db.Title) : M unit :=
  map_loop E vectors 0 queryset.

(** The rows [sparray[start:end]] of part [i]. *)
Definition part_of (sparray : Sparse.matrix spec_float) (n_parts chunk_size i : Z)
  : Sparse.matrix spec_float :=
  let start := i * chunk_size in
  let end_ := (i + 1) * chunk_size in
  let end_ := if i + 1 =? n_parts then Sparse.shape0 sparray else end_ in
  Sparse.slice_rows sparray (Some start) (Some end_).

(** One pass of the loop of [_split_convert_upload], up to the upload: the
    object to upload for part [i], its rows serialized and its key
    formatted. *)
Definition chunk_of (sparray : Sparse.matrix spec_float)
    (bucket_name prefix fname_template : string) (n_parts chunk_size i : Z)
  : res s3_object :=
  let body := part_of sparray n_parts chunk_size i in
  (name <- format1 fname_template (str_of_int i) ;;
   let fname := path_join prefix [name] in
   Ok {| s3_bucket := bucket_name; s3_key := fname; s3_body := body |})%py.

(** The [for i in range(n_parts)] loop. *)
Fixpoint upload_loop (E : env) (sparray : Sparse.matrix spec_float)
    (bucket_name prefix fname_template : string) (n_parts chunk_size : Z)
    (indices : list Z) : M unit :=
  match indices with
  | [] => ret tt
  | i :: rest =>
      (o <~ lift (chunk_of sparray bucket_name prefix fname_template n_parts chunk_size i) ;;
       upload E o ;;;
       upload_loop E sparray bucket_name prefix fname_template n_parts chunk_size rest)%st
  end.

Definition _split_convert_upload (E : env) (sparray : Sparse.matrix spec_float)
    (bucket_name prefix fname_template : string) (n_parts : Z) : M unit :=
  if n_parts =? 0 then
    lift (raise ZeroDivisionError "integer division or modulo by zero")
  else
    let chunk_size := Sparse.shape0 sparray / n_parts in
    (lift (_get_boto_session E) ;;;
     upload_loop E sparray bucket_name prefix fname_template n_parts chunk_size
       (Seq.range n_parts))%st.

Definition train_prefix : string := path_join PREFIX ["train"].
Definition val_prefix : string := path_join PREFIX ["val"].
Definition output_prefix : string := path_join PREFIX ["output"].
Definition s3_train_data : string := path_join "s3://" [SAGEMAKER_BUCKET; train_prefix].
Definition s3_val_data : string := path_join "s3://" [SAGEMAKER_BUCKET; val_prefix].
Definition output_path : string := path_join "s3://" [SAGEMAKER_BUCKET; output_prefix].

Definition response (E : env) : Rest.Response :=
  {| Rest.data :=
       PDict [("status", PStr "Ok");
              ("paths", PDict [("s3_train_data", PStr s3_train_data);
                               ("s3_val_data", PStr s3_val_data);
                               ("output_path", PStr output_path)]);
              ("vectors_path", PStr (BOOK_PATH E ++ "/vectors.joblib"));
              ("vocab_list", PStr (BOOK_PATH E ++ "/vocab_list.csv"));
              ("index", PStr (BOOK_PATH E ++ "/index.csv"));
              ("new_index", PStr (BOOK_PATH E ++ "/new_index.csv"))];
     Rest.status := Rest.HTTP_200_OK |}.

(** The split of lines 186-191: [n_train = int(0.8 * vectors.shape[0])],
    [vectors[:n_train, :]] and [vectors[n_train:, :]]. *)
Definition n_train {A : Type} (vectors : Sparse.matrix A) : res Z :=
  Float64.int_0_8_times (Sparse.shape0 vectors).

Definition train_val_split {A : Type} (vectors : Sparse.matrix A)
  : res (Sparse.matrix A * Sparse.matrix A) :=
  (n <- n_train vectors ;;
   Ok (Sparse.slice_rows vectors None (Some n),
       Sparse.slice_rows vectors (Some n) None))%py.

Definition post (E : env) (request_body : string) : M Rest.Response :=
  (body <~ lift (json_loads E request_body) ;;
   book_limit <~ lift (get body "book_limit" (PInt 0)) ;;
   list_keys <~ lift (get body "list_keys" (PList [])) ;;
   theme_filter <~ lift (get body "theme" PNone) ;;
   queryset <~ _get_title_queryset book_limit list_keys theme_filter ;;
   let titles := _get_titles_text queryset in
   fitted <~ lift (fit_transform E titles) ;;
   let vocab_list := fst fitted in
   let vectors := snd fitted in
   savetxt E (BOOK_PATH E ++ "/vocab_list.csv") (FStrings vocab_list) ;;;
   let index := Seq.range (Sparse.shape0 vectors) in
   savetxt E (BOOK_PATH E ++ "/index.csv") (FInts index) ;;;
   let new_index := permutation E index in
   savetxt E (BOOK_PATH E ++ "/new_index.csv") (FInts new_index) ;;;
   vectors <~ lift (Sparse.take_rows vectors new_index) ;;
   dump E (BOOK_PATH E ++ "/vectors.joblib") (FMatrix vectors) ;;;
   _map_vectors_titles E vectors queryset ;;;
   let vectors := Sparse.map_entries Float64.float32_of_count vectors in
   split <~ lift (train_val_split vectors) ;;
   let train_vectors := fst split in
   let val_vectors := snd split in
   _split_convert_upload E train_vectors SAGEMAKER_BUCKET train_prefix
     "train_part{}.pbr" 8 ;;;
   _split_convert_upload E val_vectors SAGEMAKER_BUCKET val_prefix
     "val_part{}.pbr" 1 ;;;
   ret (response E))%st.

End PrepareTrainData.

(** ** [CreateNTMEstimator] *)
Module CreateNTMEstimator.
Import Py.

(** What each call answered in the run.  The estimator calls take the values
    read from the request body; [deploy] returns the predictor, kept as its
    [__dict__]. *)
Record env : Type := {
  _get_profile_role : res unit;
  get_image_uri : res unit;
  json_loads : string -> res pyval;
  str : pyval -> string;
  Session : res unit;
  Estimator : pyval -> res unit;
  set_hyperparameters : res unit;
  s3_input : pyval -> res unit;
  fit : pyval -> res unit;
  deploy : res pyval;
  delete_endpoint : res unit
}.

(** The local [ntm_predictor]: unbound until [deploy] has returned. *)
Definition binding : Type := option pyval.

(** The statements of the [try] block that precede the assignment of
    [ntm_predictor]. *)
Definition before_deploy_returns (E : env) (body : pyval) : res pyval :=
  (Session E ;;;
   paths <- getitem body "paths" ;;
   output_path <- getitem paths "output_path" ;;
   Estimator E output_path ;;;
   set_hyperparameters E ;;;
   paths <- getitem body "paths" ;;
   s3_train_data <- getitem paths "s3_train_data" ;;
   s3_input E s3_train_data ;;;
   paths <- getitem body "paths" ;;
   s3_val_data <- getitem paths "s3_val_data" ;;
   fit E s3_val_data ;;;
   deploy E)%py.

(** The [try] block: the binding of [ntm_predictor] when it ends, and the
    endpoint or the exception it ends with. *)
Definition try_block (E : env) (body : pyval) : binding * res pyval :=
  match before_deploy_returns E body with
  | Raise e => (None, Raise e)
  | Ok ntm_predictor => (Some ntm_predictor, getitem ntm_predictor "endpoint")
  end.

(** The [except Exception as e] handler. *)
Definition handler (E : env) (ntm_predictor : binding) (e : exn) : res Rest.Response :=
  (first_arg <- match exn_args e with
                | a :: _ => Ok a
                | [] => raise IndexError "tuple index out of range"
                end ;;
   let response := PDict [("status", PStr "ERROR"); ("error", PStr (str E first_arg))] in
   let request_status := Rest.HTTP_400_BAD_REQUEST in
   match ntm_predictor with
   | None =>
       raise UnboundLocalError
         "cannot access local variable 'ntm_predictor' where it is not associated with a value"
   | Some _ =>
       delete_endpoint E ;;;
       Ok {| Rest.data := response; Rest.status := request_status |}
   end)%py.

Definition post (E : env) (request_body : string) : res Rest.Response :=
  (_get_profile_role E ;;;
   get_image_uri E ;;;
   body <- json_loads E request_body ;;
   match try_block E body with
   | (ntm_predictor, Raise e) =>
       if issubclass (exn_cls e) Exception then handler E ntm_predictor e
       else Raise e
   | (_, Ok endpoint) =>
       paths <- getitem body "paths" ;;
       vectors_path <- getitem body "vectors_path" ;;
       vocab_list <- getitem body "vocab_list" ;;
       index <- getitem body "index" ;;
       new_index <- getitem body "new_index" ;;
       Ok {| Rest.data := PDict [("status", PStr "Ok");
                                 ("predictor", endpoint);
                                 ("paths", paths);
                                 ("vectors_path", vectors_path);
                                 ("vocab_list", vocab_list);
                                 ("index", index);
                                 ("new_index", new_index)];
             Rest.status := Rest.HTTP_200_OK |}
   end)%py.

End CreateNTMEstimator.

(** ** [GetPredictorInformation] *)
Module GetPredictorInformation.
Import Py.

Definition post (json_loads : string -> res pyval) (request_body : string)
  : res Rest.Response :=
  (json_loads request_body ;;;
   Ok {| Rest.data := PDict [("status", PStr "Ok")]; Rest.status := Rest.HTTP_200_OK |})%py.

End GetPredictorInformation.

(** ** Frame conditions on the steps of [PrepareTrainData] *)

(** A step only adds to the log of the writes to the book folder. *)
Definition files_grow {A : Type} (m : PrepareTrainData.M A) : Prop :=
  forall w w' r, m w = (w', r) ->
                 exists more, PrepareTrainData.files w' = PrepareTrainData.files w ++ more.

(** A step leaves the Title table as it is. *)
Definition titles_kept {A : Type} (m : PrepareTrainData.M A) : Prop :=
  forall w w' r, m w = (w', r) -> PrepareTrainData.titles w' = PrepareTrainData.titles w.

(** ** Concrete runs

    Stand-ins for the services, used where a property is evaluated on a
    concrete run: a tokenizer that splits at blanks, the builtin [str] on the
    scalars the runs use, and a small Title table. *)
Module Sample.
Import Py.

Fixpoint split_from (s word : string) : list string :=
  match s with
  | EmptyString => if String.eqb word "" then [] else [word]
  | String c rest =>
      if Ascii.eqb c " "%char
      then (if String.eqb word "" then split_from rest ""
            else word :: split_from rest "")
      else split_from rest (word ++ String c "")
  end.

Definition split_blanks (s : string) : list string := split_from s "".

Definition str_scalar (v : pyval) : string :=
  match v with
  | PNone => "None"
  | PBool true => "True"
  | PBool false => "False"
  | PInt n => str_of_int n
  | PStr s => s
  | _ => "<object>"
  end.

Definition title (k : Z) (ident text : string) : Db.Title :=
  {| Db.pk := k; Db.identifier := PStr ident; Db.publisher := PStr "Editorial";
     Db.theme := PStr "Novela"; Db.name := PStr ident;
     Db.complete_text := text; Db.vector_file := None |}.

(** Three titles with text and one without. *)
Definition library : Db.table :=
  [title 1 "t1" "d"; title 2 "t2" "a c"; title 3 "t3" "a b"; title 4 "t4" ""].

(** A shuffle that exchanges the first two row numbers. *)
Definition swap_first_two (l : list Z) : list Z :=
  match l with
  | a :: b :: rest => b :: a :: rest
  | _ => l
  end.

(** An [argsort] that keeps the earlier of two equal keys first. *)
Definition stable_argsort (keys : list Z) : list nat :=
  map fst (Seq.sort (fun a b => snd a <=? snd b) (combine (seq 0 (List.length keys)) keys)).

(** A run of [PrepareTrainData] in which every write, save and upload
    returns and the storage keeps each file under the name it is given. *)
Definition prepare_env (body : pyval) (shuffle : list Z -> list Z)
  : PrepareTrainData.env :=
  {| PrepareTrainData.json_loads := fun _ => Ok body;
     PrepareTrainData.lower := fun s => s;
     PrepareTrainData.LTokenizer := split_blanks;
     PrepareTrainData.spanish_words := ["de"; "la"];
     PrepareTrainData.argsort := stable_argsort;
     PrepareTrainData.BOOK_PATH := "/books";
     PrepareTrainData.str := str_scalar;
     PrepareTrainData.np_savetxt := fun _ _ => Ok tt;
     PrepareTrainData.permutation := shuffle;
     PrepareTrainData.joblib_dump := fun _ => Ok tt;
     PrepareTrainData.vector_file_save := fun _ _ => Ok "vector_file.csv";
     PrepareTrainData._get_boto_session := Ok tt;
     PrepareTrainData.upload_fileobj := fun _ _ _ => Ok tt |}.

Definition start (db : Db.table) : PrepareTrainData.world :=
  {| PrepareTrainData.titles := db; PrepareTrainData.files := [];
     PrepareTrainData.bucket := [] |}.

(** A request body as [PrepareTrainData] answers it. *)
Definition estimator_body : pyval :=
  PDict [("paths", PDict [("s3_train_data", PStr "s3://sagemaker-erecommender/recommender/train");
                          ("s3_val_data", PStr "s3://sagemaker-erecommender/recommender/val");
                          ("output_path", PStr "s3://sagemaker-erecommender/recommender/output")]);
         ("vectors_path", PStr "/books/vectors.joblib");
         ("vocab_list", PStr "/books/vocab_list.csv");
         ("index", PStr "/books/index.csv");
         ("new_index", PStr "/books/new_index.csv")].

(** A run of [CreateNTMEstimator] in which every call returns, but for the
    three given: the session, the training job and the deployment. *)
Definition estimator_env (session fit_ : res unit) (deploy_ : res pyval)
  : CreateNTMEstimator.env :=
  {| CreateNTMEstimator._get_profile_role := Ok tt;
     CreateNTMEstimator.get_image_uri := Ok tt;
     CreateNTMEstimator.json_loads := fun _ => Ok estimator_body;
     CreateNTMEstimator.str := str_scalar;
     CreateNTMEstimator.Session := session;
     CreateNTMEstimator.Estimator := fun _ => Ok tt;
     CreateNTMEstimator.set_hyperparameters := Ok tt;
     CreateNTMEstimator.s3_input := fun _ => Ok tt;
     CreateNTMEstimator.fit := fun _ => fit_;
     CreateNTMEstimator.deploy := deploy_;
     CreateNTMEstimator.delete_endpoint := Ok tt |}.

(** A run of [DownloadTitles]: the body decoded, and what each download did. *)
Definition download_env (body : pyval) (downloads : nat -> pyval -> res unit)
  : DownloadTitles.env :=
  {| DownloadTitles.json_loads := fun _ => Ok body;
     DownloadTitles.Boto3FileDownload := fun _ _ _ => Ok tt;
     DownloadTitles.download_file := downloads;
     DownloadTitles.duration := S754_finite false 4503599627370496 (-52) |}.

Definition download_body (keys : list pyval) : pyval :=
  PDict [("profile_name", PStr "prod"); ("bucket_name", PStr "books");
         ("region_name", PStr "us-east-1"); ("list_keys", PList keys)].

(** A title as the content service returns it. *)
Definition service_title (sync_key : string) : pyval :=
  PDict [("sync_key", PStr sync_key);
         ("title_name", PStr "Un libro");
         ("publisher", PDict [("name", PStr "Editorial")]);
         ("theme", PList [PDict [("name", PStr "Novela")]])].

(** A run of [MapTitleInformation] in which the service knows every key. *)
Definition map_env (body : pyval) : MapTitleInformation.env :=
  {| MapTitleInformation.json_loads := fun _ => Ok body;
     MapTitleInformation.get_service := Ok tt;
     MapTitleInformation.get_title :=
       fun _ key => match key with
                    | PStr k => Ok (service_title k)
                    | _ => Ok PNone
                    end |}.

(** A run of [GetTextJSONFiles] in which every folder holds the same text. *)
Definition text_env (body : pyval) : GetTextJSONFiles.env :=
  {| GetTextJSONFiles.json_loads := fun _ => Ok body;
     GetTextJSONFiles.BOOK_PATH := "/books";
     GetTextJSONFiles.str := str_scalar;
     GetTextJSONFiles.MapTitleTextJSONFiles := fun _ => Ok tt;
     GetTextJSONFiles.process_json_file := fun _ folder => Ok ("texto de " ++ folder)%string |}.

End Sample.

(** ** Further concrete runs *)
Module Runs.
Import Py.



(** The extractor fails on the third folder it is given. *)
Definition failing_text_env : GetTextJSONFiles.env :=
  {| GetTextJSONFiles.json_loads := fun _ => Ok (PDict [("process_all", PBool true)]);
     GetTextJSONFiles.BOOK_PATH := "/books";
     GetTextJSONFiles.str := Sample.str_scalar;
     GetTextJSONFiles.MapTitleTextJSONFiles := fun _ => Ok tt;
     GetTextJSONFiles.process_json_file :=
       fun i folder => if Nat.eqb i 2
                       then raise OSError "unreadable"
                       else Ok ("texto de " ++ folder)%string |}.

End Runs.

(** ** Vocabulary of the further properties *)

(** The folder [GetTextJSONFiles] reads for a title: [f"{file_path}/{title.identifier}"]. *)
Definition text_folder (E : GetTextJSONFiles.env) (file_path : Py.pyval) (t : Db.Title)
  : string :=
  (GetTextJSONFiles.str E file_path ++ "/" ++ GetTextJSONFiles.str E (Db.identifier t))%string.

(** The titles [GetTextJSONFiles] selects: all of them, or those without text. *)
Definition text_queryset (process_all : Py.pyval) (db : Db.table) : list Db.Title :=
  if Py.truthy process_all then db
  else filter (fun t => String.eqb (Db.complete_text t) "") db.

(** Whether [_get_title_queryset] wants a title: by identifier when
    [list_keys] is not empty, else by theme when a theme is given, else
    always. *)
Definition wanted (list_keys theme_filter : Py.pyval) (t : Db.Title) : bool :=
  match Py.iter list_keys with
  | Py.Ok ((_ :: _) as keys) => existsb (Py.pyval_eqb (Db.identifier t)) keys
  | _ => if Py.truthy theme_filter then Py.pyval_eqb (Db.theme t) theme_filter else true
  end.

(** Primary keys in descending order. *)
Fixpoint descending_pk (q : list Db.Title) : Prop :=
  match q with
  | [] => True
  | t :: q' => Forall (fun u => Db.pk u <= Db.pk t) q' /\ descending_pk q'
  end.

(** How a stored Title [t] may differ from what [PrepareTrainData] leaves of
    it, [t']: in its [vector_file] only, and not at all when it has no
    text. *)
Definition vector_only_changed (t t' : Db.Title) : Prop :=
  Db.pk t' = Db.pk t
  /\ Db.identifier t' = Db.identifier t
  /\ Db.publisher t' = Db.publisher t
  /\ Db.theme t' = Db.theme t
  /\ Db.name t' = Db.name t
  /\ Db.complete_text t' = Db.complete_text t
  /\ (PrepareTrainData.has_text t = false -> t' = t).

(** ** Further runs of [PrepareTrainData] and [CreateNTMEstimator] *)
Module PrepareRuns.
Import Py.


(** A run of [CreateNTMEstimator] on the answer of [PrepareTrainData] at
    [Sample.prepare_env], in which every call returns. *)
Definition estimator_after_prepare : CreateNTMEstimator.env :=
  {| CreateNTMEstimator._get_profile_role := Ok tt;
     CreateNTMEstimator.get_image_uri := Ok tt;
     CreateNTMEstimator.json_loads :=
       fun _ => Ok (Rest.data (PrepareTrainData.response
                                 (Sample.prepare_env (PDict []) (@rev Z))));
     CreateNTMEstimator.str := Sample.str_scalar;
     CreateNTMEstimator.Session := Ok tt;
     CreateNTMEstimator.Estimator := fun _ => Ok tt;
     CreateNTMEstimator.set_hyperparameters := Ok tt;
     CreateNTMEstimator.s3_input := fun _ => Ok tt;
     CreateNTMEstimator.fit := fun _ => Ok tt;
     CreateNTMEstimator.deploy := Ok (PDict [("endpoint", PStr "ntm-endpoint")]);
     CreateNTMEstimator.delete_endpoint := Ok tt |}.


End PrepareRuns.

(** * Properties *)

(** ** Binary64: [int(0.8 * n)] is the floor of [4n/5]

    The reference operations are unfolded down to integer division: the
    number of digits, the alignment shift, the right shift with its round and
    sticky bits, and the rounding to nearest even. *)















(** The two literals are the binary64 values the kernel's floats read them
    as, and the product agrees with the processor's on a few row counts. *)
Example lit_0_8_is_the_literal : Prim2SF 0.8%float = Float64.lit_0_8.
Proof. reflexivity. Qed.

Example lit_0_95_is_the_literal : Prim2SF 0.95%float = Float64.lit_0_95.
Proof. reflexivity. Qed.

Example mul_agrees_with_the_processor :
  map (fun n => Prim2SF (0.8 * PrimFloat.of_uint63 (Uint63.of_Z n))%float)
      [1; 5; 7; 1000; 123456789]
  = map (fun n => Float64.mul Float64.lit_0_8 (Float64.of_int n))
      [1; 5; 7; 1000; 123456789].
Proof. vm_compute. reflexivity. Qed.

(** The bound on [n] is not for convenience: at about 2^51 rows the product
    is rounded up to the next integer. *)
Example int_0_8_times_rounds_up_far_out :
  Float64.int_0_8_times 2251799813685251 = Py.Ok (4 * 2251799813685251 / 5 + 1).
Proof. vm_compute. reflexivity. Qed.

(** ** The train/validation split *)





(** ** The chunked upload *)

Lemma range_in (n i : Z) : In i (Seq.range n) <-> 0 <= i < n.
Proof.
  unfold Seq.range. rewrite in_map_iff. split.
  - intros (k & <- & Hk). apply in_seq in Hk. lia.
  - intros Hi. exists (Z.to_nat i). split; [lia | apply in_seq; lia].
Qed.

Lemma range_length (n : Z) : List.length (Seq.range n) = Z.to_nat n.
Proof. unfold Seq.range. now rewrite length_map, length_seq. Qed.

Lemma firstn_add_skipn {A : Type} (a b : nat) (l : list A) :
  firstn (a + b) l = firstn a l ++ firstn b (skipn a l).
Proof.
  revert l. induction a as [| a IH]; intros l; [reflexivity |].
  destruct l as [| x l]; simpl.
  - now rewrite firstn_nil.
  - now rewrite IH.
Qed.

Lemma concat_chunks_prefix {A : Type} (l : list A) (c k : nat) :
  List.concat (map (fun i => firstn c (skipn (i * c) l)) (seq 0 k)) = firstn (k * c) l.
Proof.
  induction k as [| k IH]; [reflexivity |].
  rewrite seq_S, map_app, concat_app, IH. cbn [map List.concat Nat.add].
  rewrite app_nil_r.
  replace (S k * c)%nat with (k * c + c)%nat by lia.
  symmetry. apply firstn_add_skipn.
Qed.

Lemma slice_rows_between {A : Type} (m : Sparse.matrix A) (lo hi : Z) :
  0 <= lo <= hi -> hi <= Sparse.shape0 m ->
  Sparse.rows (Sparse.slice_rows m (Some lo) (Some hi))
  = Sparse.rows_between lo hi (Sparse.rows m).
Proof.
  intros Hlo Hhi. unfold Sparse.slice_rows, Sparse.norm_index, Sparse.rows_between.
  destruct (Z.ltb_spec lo 0); [lia |]. destruct (Z.ltb_spec hi 0); [lia |].
  rewrite !Z.min_l by lia. reflexivity.
Qed.

(** A plain template with at most one field can be formatted with one
    argument. *)
Lemma format_from_plain (arg t : string) :
  (forall n, Py.plain_template t = true -> (n + Py.fields t <= 1)%nat ->
             exists name, Py.format_from n t arg = Py.Ok name)
  /\ (forall c n, Py.plain_template (String c t) = true ->
                  (n + Py.fields (String c t) <= 1)%nat ->
                  exists name, Py.format_from n (String c t) arg = Py.Ok name).
Proof.
  induction t as [| a t [IH1 IH2]].
  - split; [intros; eexists; reflexivity |].
    intros c n Hp _. cbn in Hp |- *.
    destruct (Ascii.eqb c "{"); [discriminate | eexists; reflexivity].
  - split; [exact (IH2 a) |].
    intros c n Hp Hf.
    change (Py.plain_template (String c (String a t)))
      with (if Ascii.eqb c "{"%char then Ascii.eqb a "}"%char && Py.plain_template t
            else negb (Ascii.eqb c "}"%char) && Py.plain_template (String a t)) in Hp.
    change (Py.fields (String c (String a t)))
      with (if Ascii.eqb c "{"%char
            then (if Ascii.eqb a "}"%char then S (Py.fields t) else Py.fields (String a t))
            else Py.fields (String a t)) in Hf.
    change (Py.format_from n (String c (String a t)) arg)
      with (if Ascii.eqb c "{"%char
            then (if Ascii.eqb a "}"%char
                  then match n with
                       | O => Py.bind (Py.format_from 1 t arg)
                                (fun r => Py.Ok (arg ++ r)%string)
                       | S _ => Py.raise Py.IndexError
                                  "Replacement index 1 out of range for positional args tuple"
                       end
                  else Py.bind (Py.format_from n (String a t) arg)
                         (fun r => Py.Ok (String c r)))
            else Py.bind (Py.format_from n (String a t) arg)
                   (fun r => Py.Ok (String c r))).
    destruct (Ascii.eqb c "{").
    + destruct (Ascii.eqb a "}"); [| discriminate]. cbn [andb] in Hp.
      destruct n as [| n]; [| lia].
      destruct (IH1 1%nat Hp) as [r ->]; [lia |]. eexists. reflexivity.
    + apply andb_prop in Hp. destruct Hp as [_ Hp].
      destruct (IH2 a n Hp Hf) as [r ->]. eexists. reflexivity.
Qed.

Lemma format1_plain (template arg : string) :
  Py.plain_template template = true ->
  (Py.fields template <= 1)%nat ->
  exists name, Py.format1 template arg = Py.Ok name.
Proof.
  intros Hp Hf. unfold Py.format1.
  now apply (proj1 (format_from_plain arg template) 0%nat).
Qed.

Example format1_of_the_training_template :
  Py.format1 "train_part{}.pbr" (Py.str_of_int 3) = Py.Ok "train_part3.pbr".
Proof. reflexivity. Qed.

Example format1_with_two_fields :
  Py.format1 "a{}b{}" (Py.str_of_int 0)
  = Py.raise Py.IndexError "Replacement index 1 out of range for positional args tuple".
Proof. reflexivity. Qed.

(** With a template of two fields nothing is uploaded. *)
Example split_convert_upload_with_two_fields :
  PrepareTrainData._split_convert_upload
    (Sample.prepare_env (Py.PDict []) (fun l => l))
    {| Sparse.rows := [[S754_zero false]; [S754_zero false]]; Sparse.n_cols := 1 |}
    "b" "p" "a{}b{}" 2 (Sample.start [])
  = (Sample.start [],
     Py.raise Py.IndexError "Replacement index 1 out of range for positional args tuple").
Proof. reflexivity. Qed.

(** What [chunk_of] returns when it returns. *)
Lemma chunk_of_Ok (sparray : Sparse.matrix spec_float) (b p t : string) (n c i : Z)
    (o : PrepareTrainData.s3_object) :
  PrepareTrainData.chunk_of sparray b p t n c i = Py.Ok o ->
  PrepareTrainData.s3_bucket o = b
  /\ PrepareTrainData.s3_body o = PrepareTrainData.part_of sparray n c i
  /\ exists name,
      Py.format1 t (Py.str_of_int i) = Py.Ok name
      /\ PrepareTrainData.s3_key o = Py.path_join p [name].
Proof.
  unfold PrepareTrainData.chunk_of.
  destruct (Py.format1 t (Py.str_of_int i)) as [name |]; [| discriminate].
  cbn [Py.bind]. intros [= <-]. cbn. eauto.
Qed.

(** The loop, when it returns: one object logged per part, in order. *)
Lemma upload_loop_Ok (E : PrepareTrainData.env) (sparray : Sparse.matrix spec_float)
    (b p t : string) (n c : Z) (indices : list Z) :
  forall (w w' : PrepareTrainData.world) (u : unit),
    PrepareTrainData.upload_loop E sparray b p t n c indices w = (w', Py.Ok u) ->
    exists objects,
      w' = {| PrepareTrainData.titles := PrepareTrainData.titles w;
              PrepareTrainData.files := PrepareTrainData.files w;
              PrepareTrainData.bucket := PrepareTrainData.bucket w ++ objects |}
      /\ Forall2 (fun i o => PrepareTrainData.chunk_of sparray b p t n c i = Py.Ok o)
           indices objects.
Proof.
  induction indices as [| i rest IH]; intros w w' u H.
  - injection H as <- _. exists []. split; [| constructor].
    rewrite app_nil_r. now destruct w.
  - cbn [PrepareTrainData.upload_loop] in H.
    unfold PrepareTrainData.mbind at 1, PrepareTrainData.lift at 1 in H.
    destruct (PrepareTrainData.chunk_of sparray b p t n c i) as [o |] eqn:Ho;
      [| discriminate].
    unfold PrepareTrainData.mbind at 1, PrepareTrainData.upload at 1 in H.
    destruct (PrepareTrainData.upload_fileobj E _ _ _); [| discriminate].
    apply IH in H. destruct H as (objects & -> & Hall).
    exists (o :: objects). split; [| now constructor].
    cbn. now rewrite <- app_assoc.
Qed.

(** The loop returns when every key can be formatted and every upload
    returns. *)
Lemma upload_loop_returns (E : PrepareTrainData.env) (sparray : Sparse.matrix spec_float)
    (b p t : string) (n c : Z) (indices : list Z) :
  (forall k key, PrepareTrainData.upload_fileobj E k b key = Py.Ok tt) ->
  (forall i, In i indices ->
             exists o, PrepareTrainData.chunk_of sparray b p t n c i = Py.Ok o) ->
  forall w,
    exists w', PrepareTrainData.upload_loop E sparray b p t n c indices w = (w', Py.Ok tt).
Proof.
  intros Hupload. induction indices as [| i rest IH]; intros Hchunks w.
  - eexists. reflexivity.
  - cbn [PrepareTrainData.upload_loop].
    unfold PrepareTrainData.mbind at 1, PrepareTrainData.lift at 1.
    destruct (Hchunks i (or_introl eq_refl)) as [o Ho]. rewrite Ho.
    unfold PrepareTrainData.mbind at 1, PrepareTrainData.upload at 1.
    destruct (chunk_of_Ok _ _ _ _ _ _ _ _ Ho) as (-> & _).
    rewrite Hupload. apply IH. intros j Hj. apply Hchunks. now right.
Qed.

Lemma chunks_bodies (sparray : Sparse.matrix spec_float) (b p t : string) (n c : Z)
    (indices : list Z) (objects : list PrepareTrainData.s3_object) :
  Forall2 (fun i o => PrepareTrainData.chunk_of sparray b p t n c i = Py.Ok o)
    indices objects ->
  map PrepareTrainData.s3_body objects = map (PrepareTrainData.part_of sparray n c) indices.
Proof.
  induction 1 as [| i o indices objects Ho _ IH]; [reflexivity |].
  cbn [map]. destruct (chunk_of_Ok _ _ _ _ _ _ _ _ Ho) as (_ & -> & _). now rewrite IH.
Qed.

Lemma chunks_nth (sparray : Sparse.matrix spec_float) (b p t : string) (n c : Z)
    (indices : list Z) (objects : list PrepareTrainData.s3_object) :
  Forall2 (fun i o => PrepareTrainData.chunk_of sparray b p t n c i = Py.Ok o)
    indices objects ->
  forall k i,
    nth_error indices k = Some i ->
    exists o, nth_error objects k = Some o
              /\ PrepareTrainData.chunk_of sparray b p t n c i = Py.Ok o.
Proof.
  induction 1 as [| i0 o indices objects Ho _ IH]; intros k i Hk.
  - destruct k; discriminate.
  - destruct k as [| k]; cbn [nth_error] in *.
    + injection Hk as <-. now exists o.
    + now apply IH.
Qed.

Lemma chunk_bounds (N n i : Z) :
  0 <= N -> 1 <= n -> 0 <= i < n ->
  0 <= i * (N / n)
  /\ i * (N / n) <= (if i + 1 =? n then N else (i + 1) * (N / n))
  /\ (if i + 1 =? n then N else (i + 1) * (N / n)) <= N.
Proof.
  intros HN Hn Hi.
  assert (Hc : 0 <= N / n) by (apply Z.div_pos; lia).
  assert (Hnc : n * (N / n) <= N) by (apply Z.mul_div_le; lia).
  assert (Hi1 : (i + 1) * (N / n) <= n * (N / n))
    by (apply Z.mul_le_mono_nonneg_r; lia).
  assert (Hi0 : i * (N / n) <= (i + 1) * (N / n))
    by (apply Z.mul_le_mono_nonneg_r; lia).
  assert (0 <= i * (N / n)) by (apply Z.mul_nonneg_nonneg; lia).
  destruct (Z.eqb_spec (i + 1) n); lia.
Qed.

(** The rows of part [i], and the parts together. *)
Lemma part_of_rows (sparray : Sparse.matrix spec_float) (n i : Z) :
  1 <= n -> 0 <= i < n ->
  Sparse.rows (PrepareTrainData.part_of sparray n (Sparse.shape0 sparray / n) i)
  = Sparse.rows_between (i * (Sparse.shape0 sparray / n))
      (if i + 1 =? n then Sparse.shape0 sparray
       else (i + 1) * (Sparse.shape0 sparray / n))
      (Sparse.rows sparray).
Proof.
  intros Hn Hi.
  assert (HN : 0 <= Sparse.shape0 sparray) by (unfold Sparse.shape0; lia).
  destruct (chunk_bounds (Sparse.shape0 sparray) n i HN Hn Hi) as (B0 & B1 & B2).
  unfold PrepareTrainData.part_of.
  apply slice_rows_between; [split; assumption | assumption].
Qed.

Lemma parts_cover (sparray : Sparse.matrix spec_float) (n : Z) :
  1 <= n ->
  List.concat
    (map (fun i => Sparse.rows
                     (PrepareTrainData.part_of sparray n (Sparse.shape0 sparray / n) i))
       (Seq.range n))
  = Sparse.rows sparray.
Proof.
  intros Hn. set (N := Sparse.shape0 sparray). set (size := N / n).
  assert (HN : 0 <= N) by (subst N; unfold Sparse.shape0; lia).
  assert (Hsize : 0 <= size) by (apply Z.div_pos; lia).
  unfold Seq.range. rewrite map_map.
  destruct (Z.to_nat n) as [| m] eqn:Hm; [lia |].
  rewrite seq_S, map_app, concat_app. cbn [map List.concat Nat.add]. rewrite app_nil_r.
  rewrite (map_ext_in _ (fun i => firstn (Z.to_nat size)
                                    (skipn (i * Z.to_nat size) (Sparse.rows sparray)))).
  - rewrite concat_chunks_prefix. subst size N. rewrite part_of_rows by lia.
    replace (Z.of_nat m + 1 =? n) with true by (symmetry; apply Z.eqb_eq; lia).
    unfold Sparse.rows_between.
    rewrite Z2Nat.inj_mul, Nat2Z.id by lia.
    rewrite (firstn_all2 (n := Z.to_nat (Sparse.shape0 sparray
                                         - Z.of_nat m * (Sparse.shape0 sparray / n)))).
    + apply firstn_skipn.
    + rewrite length_skipn.
      assert (Hrows : Z.of_nat (List.length (Sparse.rows sparray)) = Sparse.shape0 sparray)
        by reflexivity.
      set (N := Sparse.shape0 sparray) in *. set (size := N / n) in *.
      clearbody size N. nia.
  - intros i Hi. apply in_seq in Hi. subst size N. rewrite part_of_rows by lia.
    destruct (Z.eqb_spec (Z.of_nat i + 1) n); [lia |].
    unfold Sparse.rows_between. rewrite Z2Nat.inj_mul, Nat2Z.id by lia.
    f_equal. f_equal. lia.
Qed.

(** What [_split_convert_upload] has done when it returns. *)
Lemma split_convert_upload_Ok (E : PrepareTrainData.env)
    (sparray : Sparse.matrix spec_float) (b p t : string) (n : Z)
    (w w' : PrepareTrainData.world) (u : unit) :
  PrepareTrainData._split_convert_upload E sparray b p t n w = (w', Py.Ok u) ->
  exists objects,
    w' = {| PrepareTrainData.titles := PrepareTrainData.titles w;
            PrepareTrainData.files := PrepareTrainData.files w;
            PrepareTrainData.bucket := PrepareTrainData.bucket w ++ objects |}
    /\ Forall2 (fun i o => PrepareTrainData.chunk_of sparray b p t n
                             (Sparse.shape0 sparray / n) i = Py.Ok o)
         (Seq.range n) objects.
Proof.
  unfold PrepareTrainData._split_convert_upload.
  destruct (n =? 0); [discriminate |].
  unfold PrepareTrainData.mbind at 1, PrepareTrainData.lift at 1.
  destruct (PrepareTrainData._get_boto_session E); [| discriminate].
  apply upload_loop_Ok.
Qed.

(** C3: for a matrix of N rows and n_parts >= 1, [_split_convert_upload]
    uploads exactly n_parts objects, in order of part number; part i holds the
    rows from i*floor(N/n_parts) (included) to (i+1)*floor(N/n_parts)
    (excluded), the last part the rows up to N; each part starts where the
    previous one ends, and the parts concatenated are the rows of the matrix:
    every row once, in row order.  This is for a run in which the boto session
    is obtained and every upload returns, and for a file name template made of
    literal text and at most one field [{}], as the callers' and the default
    one are. *)
Theorem C3_split_convert_upload_chunks (E : PrepareTrainData.env)
    (sparray : Sparse.matrix spec_float) (bucket_name prefix fname_template : string)
    (n_parts : Z) (w : PrepareTrainData.world) :
  1 <= n_parts ->
  Py.plain_template fname_template = true ->
  (Py.fields fname_template <= 1)%nat ->
  PrepareTrainData._get_boto_session E = Py.Ok tt ->
  (forall k key, PrepareTrainData.upload_fileobj E k bucket_name key = Py.Ok tt) ->
  let N := Sparse.shape0 sparray in
  let chunk_size := N / n_parts in
  let lo := fun i => i * chunk_size in
  let hi := fun i => if i + 1 =? n_parts then N else (i + 1) * chunk_size in
  exists chunks,
    PrepareTrainData._split_convert_upload E sparray bucket_name prefix
      fname_template n_parts w
    = ({| PrepareTrainData.titles := PrepareTrainData.titles w;
          PrepareTrainData.files := PrepareTrainData.files w;
          PrepareTrainData.bucket := PrepareTrainData.bucket w ++ chunks |}, Py.Ok tt)
    /\ List.length chunks = Z.to_nat n_parts
    /\ lo 0 = 0 /\ hi (n_parts - 1) = N
    /\ (forall i, 0 <= i -> i + 1 < n_parts -> lo (i + 1) = hi i)
    /\ (forall i, 0 <= i < n_parts ->
          lo i <= hi i
          /\ exists o name,
               nth_error chunks (Z.to_nat i) = Some o
               /\ PrepareTrainData.s3_bucket o = bucket_name
               /\ Py.format1 fname_template (Py.str_of_int i) = Py.Ok name
               /\ PrepareTrainData.s3_key o = Py.path_join prefix [name]
               /\ Sparse.rows (PrepareTrainData.s3_body o)
                  = Sparse.rows_between (lo i) (hi i) (Sparse.rows sparray))
    /\ List.concat (map (fun o => Sparse.rows (PrepareTrainData.s3_body o)) chunks)
       = Sparse.rows sparray.
Proof.
  intros Hn Hplain Hfields Hsession Hupload N chunk_size lo hi.
  assert (HN : 0 <= N) by (subst N; unfold Sparse.shape0; lia).
  destruct (upload_loop_returns E sparray bucket_name prefix fname_template n_parts
              chunk_size (Seq.range n_parts) Hupload) with (w := w) as [w' Hloop].
  { intros i _. unfold PrepareTrainData.chunk_of.
    destruct (format1_plain fname_template (Py.str_of_int i) Hplain Hfields) as [name ->].
    eexists. reflexivity. }
  assert (Hrun : PrepareTrainData._split_convert_upload E sparray bucket_name prefix
                   fname_template n_parts w = (w', Py.Ok tt)).
  { unfold PrepareTrainData._split_convert_upload.
    destruct (Z.eqb_spec n_parts 0); [lia |].
    unfold PrepareTrainData.mbind at 1, PrepareTrainData.lift at 1.
    rewrite Hsession. exact Hloop. }
  destruct (split_convert_upload_Ok _ _ _ _ _ _ _ _ _ Hrun) as (chunks & -> & Hall).
  exists chunks.
  split; [exact Hrun |]. split; [| split; [| split; [| split; [| split]]]].
  - rewrite <- (Forall2_length Hall). apply range_length.
  - unfold lo. lia.
  - unfold hi. replace (n_parts - 1 + 1) with n_parts by lia.
    now rewrite Z.eqb_refl.
  - intros i Hi0 Hi1. unfold lo, hi.
    destruct (Z.eqb_spec (i + 1) n_parts); [lia | reflexivity].
  - intros i Hi.
    destruct (chunk_bounds N n_parts i HN Hn Hi) as (_ & B1 & _).
    split; [exact B1 |].
    assert (Hnth : nth_error (Seq.range n_parts) (Z.to_nat i) = Some i).
    { unfold Seq.range. rewrite nth_error_map, nth_error_seq.
      destruct (Nat.ltb_spec (Z.to_nat i) (Z.to_nat n_parts)) as [_ | Hge]; [| lia].
      cbn. now rewrite Z2Nat.id by lia. }
    destruct (chunks_nth _ _ _ _ _ _ _ _ Hall _ _ Hnth) as (o & Ho & Hchunk).
    destruct (chunk_of_Ok _ _ _ _ _ _ _ _ Hchunk) as (Hb & Hbody & name & Hname & Hkey).
    exists o, name. repeat (split; [assumption |]).
    rewrite Hbody. now apply part_of_rows.
  - rewrite <- map_map, (chunks_bodies _ _ _ _ _ _ _ _ Hall), map_map.
    now apply parts_cover.
Qed.

(** ** The vectorizer *)

Lemma mem_In (w : string) (l : list string) : Sklearn.mem w l = true <-> In w l.
Proof.
  unfold Sklearn.mem. rewrite existsb_exists. split.
  - intros (x & Hx & Heq). apply String.eqb_eq in Heq. now subst.
  - intros H. exists w. split; [assumption | apply String.eqb_refl].
Qed.

Lemma insert_perm {A : Type} (le : A -> A -> bool) (x : A) (l : list A) :
  Permutation (Seq.insert le x l) (x :: l).
Proof.
  induction l as [| y l IH]; cbn; [reflexivity |].
  destruct (le x y); [reflexivity |].
  rewrite IH. apply perm_swap.
Qed.

Lemma sort_perm {A : Type} (le : A -> A -> bool) (l : list A) :
  Permutation (Seq.sort le l) l.
Proof.
  induction l as [| x l IH]; cbn; [reflexivity |].
  rewrite insert_perm. now constructor.
Qed.

Lemma add_term_NoDup (v : list string) (t : string) :
  NoDup v -> NoDup (Sklearn.add_term v t).
Proof.
  intros Hv. unfold Sklearn.add_term.
  destruct (Sklearn.mem t v) eqn:Hmem; [assumption |].
  apply NoDup_app; [assumption | repeat constructor; intros [] | ].
  intros x Hx [<- | []]. apply mem_In in Hx. congruence.
Qed.

Lemma vocabulary_NoDup (analyzed : list (list string)) (v : list string) :
  NoDup v -> NoDup (fold_left Sklearn.add_terms analyzed v).
Proof.
  revert v. induction analyzed as [| toks rest IH]; intros v Hv; [exact Hv |].
  cbn [fold_left]. apply IH. clear IH. unfold Sklearn.add_terms. revert v Hv.
  induction toks as [| t toks IHt]; intros v Hv; [exact Hv |].
  cbn [fold_left]. apply IHt. now apply add_term_NoDup.
Qed.

Lemma positions_of {A : Type} (l : list A) :
  forall k, map fst (combine (seq k (List.length l)) l) = seq k (List.length l).
Proof.
  induction l as [| x l IH]; intros k; [reflexivity |].
  cbn. now rewrite IH.
Qed.

Lemma picked_positions_length {A : Type} (inds : list nat) (l : list A) (k : nat) :
  (List.length (filter (fun it => existsb (Nat.eqb (fst it)) inds)
                  (combine (seq k (List.length l)) l))
   <= List.length inds)%nat.
Proof.
  rewrite <- (length_map fst). apply NoDup_incl_length.
  - assert (Hseq : NoDup (map fst (combine (seq k (List.length l)) l))).
    { rewrite positions_of. apply seq_NoDup. }
    revert Hseq. generalize (combine (seq k (List.length l)) l). intros pairs.
    induction pairs as [| it pairs IH]; intros Hnd; [constructor |].
    cbn [map] in Hnd. apply NoDup_cons_iff in Hnd. destruct Hnd as [Hit Hnd].
    cbn [filter]. destruct (existsb _ inds); [| now apply IH].
    cbn [map]. constructor; [| now apply IH].
    intros Hin. apply Hit. apply in_map_iff in Hin. destruct Hin as (x & Hx & Hin).
    apply filter_In in Hin. apply in_map_iff. exists x. tauto.
  - intros i Hi. apply in_map_iff in Hi. destruct Hi as (it & <- & Hit).
    apply filter_In in Hit. destruct Hit as [_ Hit]. apply existsb_exists in Hit.
    destruct Hit as (j & Hj & Heq). apply Nat.eqb_eq in Heq. now subst.
Qed.

Lemma picked_positions_sub {A : Type} (keep : nat * A -> bool) (l : list A) :
  forall k,
    incl (map snd (filter keep (combine (seq k (List.length l)) l))) l
    /\ (NoDup l -> NoDup (map snd (filter keep (combine (seq k (List.length l)) l)))).
Proof.
  induction l as [| x l IH]; intros k; [split; [intros y [] | constructor] |].
  destruct (IH (S k)) as [Hincl Hnd].
  cbn [List.length seq combine filter].
  destruct (keep (k, x)); cbn [map snd].
  - split.
    + intros y [<- | Hy]; [now left | right; now apply Hincl].
    + intros Hl. apply NoDup_cons_iff in Hl. destruct Hl as [Hx Hl].
      constructor; [| now apply Hnd]. intros Hin. apply Hx. now apply Hincl.
  - split.
    + intros y Hy. right. now apply Hincl.
    + intros Hl. apply NoDup_cons_iff in Hl. now apply Hnd.
Qed.

Lemma limit_features_spec (argsort : list Z -> list nat) (analyzed : list (list string))
    (vocabulary : list string) (high : spec_float) (low : Z) (limit : nat)
    (kept : list string) :
  NoDup vocabulary ->
  Sklearn._limit_features argsort analyzed vocabulary high low limit = Py.Ok kept ->
  (1 <= List.length kept <= limit)%nat /\ incl kept vocabulary /\ NoDup kept.
Proof.
  intros Hnd. unfold Sklearn._limit_features.
  set (mask := filter _ vocabulary).
  assert (Hmask : NoDup mask) by (subst mask; now apply NoDup_filter).
  assert (Hincl : incl mask vocabulary)
    by (subst mask; intros x Hx; now apply filter_In in Hx).
  destruct (Nat.ltb_spec limit (List.length mask)) as [Hlt | Hge].
  - set (inds := firstn limit _).
    pose proof (picked_positions_length inds mask 0) as Hlen.
    assert (Hch : (List.length inds <= limit)%nat)
      by (subst inds; rewrite length_firstn; lia).
    destruct (picked_positions_sub (fun it => existsb (Nat.eqb (fst it)) inds) mask 0)
      as [Hsub Hsubnd].
    rewrite <- (length_map snd) in Hlen.
    destruct (map snd _) as [| t kept'] eqn:Hk; [discriminate |].
    intros [= <-]. split; [cbn in *; lia |]. split.
    + intros x Hx. apply Hincl, Hsub, Hx.
    + now apply Hsubnd.
  - destruct mask as [| t mask'] eqn:Hk; [discriminate |].
    intros [= <-]. split; [cbn in *; lia |]. split; assumption.
Qed.

Section FitTransform.
Variable lower : string -> string.
Variable tokenizer : string -> list string.
Variable stop_words : list string.
Variable max_features : nat.
Variable max_df : spec_float.
Variable min_df : Z.
Variable argsort : list Z -> list nat.

Let fit :=
  Sklearn.fit_transform lower tokenizer stop_words max_features max_df min_df argsort.
Let analyze := Sklearn.analyze lower tokenizer stop_words.

(** What [fit_transform] returns when it returns: one row per document, in
    the order of the documents, each the counts of the kept terms in that
    document; at least one and at most [max_features] columns. *)
Lemma fit_transform_spec (docs vocab : list string) (X : Sparse.matrix nat) :
  fit docs = Py.Ok (vocab, X) ->
  Sparse.rows X = map (fun d => Sklearn.bag vocab (analyze d)) docs
  /\ Sparse.n_cols X = List.length vocab
  /\ (1 <= List.length vocab <= max_features)%nat
  /\ NoDup vocab.
Proof.
  subst fit analyze. unfold Sklearn.fit_transform, Sklearn._count_vocab.
  pose proof (vocabulary_NoDup (map (Sklearn.analyze lower tokenizer stop_words) docs) []
                (NoDup_nil _)) as Hnd.
  destruct (fold_left _ _ _) as [| t v] eqn:Hv; [discriminate |].
  destruct (Float64.ltb _ _); [discriminate |].
  destruct (Sklearn._limit_features _ _ _ _ _ _) as [kept | e] eqn:Hk; [| discriminate].
  intros [= <- <-]. cbn [Sparse.rows Sparse.n_cols].
  apply limit_features_spec in Hk.
  - destruct Hk as (Hlen & _ & Hkn). rewrite map_map. auto.
  - eapply Permutation_NoDup; [symmetry; apply sort_perm | exact Hnd].
Qed.

End FitTransform.

(** Fewer than three documents never pass the document-frequency bounds
    [max_df=0.95], [min_df=2]. *)
Lemma fit_transform_small_corpus (E : PrepareTrainData.env) (docs : list string) :
  (List.length docs <= 2)%nat ->
  exists e, PrepareTrainData.fit_transform E docs = Py.Raise e
            /\ Py.exn_cls e = Py.ValueError.
Proof.
  intros Hlen. unfold PrepareTrainData.fit_transform, Sklearn.fit_transform.
  destruct (Sklearn._count_vocab _) as [v | e] eqn:Hv.
  - destruct docs as [| d1 [| d2 [| d3 docs]]]; cbn [List.length] in *; try lia;
      (eexists; split; [vm_compute; reflexivity | reflexivity]).
  - unfold Sklearn._count_vocab in Hv.
    destruct (fold_left _ _ _); [| discriminate].
    injection Hv as <-. eexists. split; reflexivity.
Qed.

(** C2 (as amended): given N input documents, whenever the vectorizer of
    [PrepareTrainData] returns, its output has exactly N rows, one per
    document and each as long as the fitted vocabulary, and a number of
    columns equal to the size of that vocabulary, which is at least 1 and at
    most VOCAB_SIZE = 2000; for a corpus of fewer than three documents it
    returns nothing and raises ValueError. *)
Theorem C2_vectorizer_output_shape (E : PrepareTrainData.env) (docs : list string) :
  (forall vocab X,
      PrepareTrainData.fit_transform E docs = Py.Ok (vocab, X) ->
      Sparse.shape X = (List.length docs, List.length vocab)
      /\ (1 <= List.length vocab <= PrepareTrainData.VOCAB_SIZE)%nat
      /\ Forall (fun row => List.length row = List.length vocab) (Sparse.rows X))
  /\ ((List.length docs <= 2)%nat ->
      exists e, PrepareTrainData.fit_transform E docs = Py.Raise e
                /\ Py.exn_cls e = Py.ValueError).
Proof.
  split; [| apply fit_transform_small_corpus].
  intros vocab X HX. unfold PrepareTrainData.fit_transform in HX.
  apply fit_transform_spec in HX. destruct HX as (Hrows & Hcols & Hlen & _).
  unfold Sparse.shape. rewrite Hrows, Hcols, length_map.
  split; [reflexivity |]. split; [exact Hlen |].
  apply Forall_forall. intros row Hrow. apply in_map_iff in Hrow.
  destruct Hrow as (d & <- & _). unfold Sklearn.bag. apply length_map.
Qed.

(** C2 as stated fails: three documents in which one term passes the
    document-frequency bounds give a 3x1 matrix, not a 3x2000 one. *)
Lemma C2_counterexample :
  exists vocab X,
    PrepareTrainData.fit_transform
      (Sample.prepare_env (Py.PDict []) (fun l => l)) ["a b"; "a c"; "d"]
    = Py.Ok (vocab, X)
    /\ Sparse.shape X = (3%nat, 1%nat)
    /\ Sparse.shape X <> (3%nat, PrepareTrainData.VOCAB_SIZE).
Proof.
  eexists _, _. split; [vm_compute; reflexivity |].
  split; [reflexivity | discriminate].
Qed.

(** C3 at a matrix of five rows cut in two parts. *)
Lemma C3_split_convert_upload_chunks_witness :
  exists chunks,
    PrepareTrainData._split_convert_upload
      (Sample.prepare_env (Py.PDict []) (fun l => l))
      {| Sparse.rows := [[S754_zero false]; [S754_zero false]; [S754_zero false];
                         [S754_zero false]; [S754_zero false]];
         Sparse.n_cols := 1 |}
      "sagemaker-erecommender" "recommender/train" "train_part{}.pbr" 2
      (Sample.start [])
    = ({| PrepareTrainData.titles := []; PrepareTrainData.files := [];
          PrepareTrainData.bucket := chunks |}, Py.Ok tt)
    /\ List.length chunks = 2%nat.
Proof.
  destruct (C3_split_convert_upload_chunks
              (Sample.prepare_env (Py.PDict []) (fun l => l))
              {| Sparse.rows := [[S754_zero false]; [S754_zero false]; [S754_zero false];
                                 [S754_zero false]; [S754_zero false]];
                 Sparse.n_cols := 1 |}
              "sagemaker-erecommender" "recommender/train" "train_part{}.pbr" 2
              (Sample.start []))
    as (chunks & Hrun & Hlen & _).
  - lia.
  - reflexivity.
  - cbn. lia.
  - reflexivity.
  - reflexivity.
  - exists chunks. split; [exact Hrun | exact Hlen].
Defined.

(** ** [CreateNTMEstimator]: the handler of the [try] block *)

Lemma post_after_prologue (E : CreateNTMEstimator.env) (request_body : string)
    (body : Py.pyval) :
  CreateNTMEstimator._get_profile_role E = Py.Ok tt ->
  CreateNTMEstimator.get_image_uri E = Py.Ok tt ->
  CreateNTMEstimator.json_loads E request_body = Py.Ok body ->
  forall e,
    CreateNTMEstimator.before_deploy_returns E body = Py.Raise e ->
    Py.issubclass (Py.exn_cls e) Py.Exception = true ->
    CreateNTMEstimator.post E request_body = CreateNTMEstimator.handler E None e.
Proof.
  intros Hrole Huri Hjson e Hraise Hexc.
  unfold CreateNTMEstimator.post, CreateNTMEstimator.try_block.
  rewrite Hrole, Huri, Hjson. cbn [Py.bind]. rewrite Hraise, Hexc. reflexivity.
Qed.

(** C6 (as amended): when an Exception is raised in the [try] block of
    [CreateNTMEstimator] before [deploy] has returned, [ntm_predictor] is
    unbound and the handler itself raises, so that no response, and no HTTP
    400 in particular, is produced: it raises UnboundLocalError (a NameError)
    at [ntm_predictor.delete_endpoint()] when the exception caught has at
    least one argument, and IndexError at [e.args[0]] when it has none. *)
Theorem C6_handler_raises_before_deploy (E : CreateNTMEstimator.env)
    (request_body : string) (body : Py.pyval) (e : Py.exn) :
  CreateNTMEstimator._get_profile_role E = Py.Ok tt ->
  CreateNTMEstimator.get_image_uri E = Py.Ok tt ->
  CreateNTMEstimator.json_loads E request_body = Py.Ok body ->
  CreateNTMEstimator.before_deploy_returns E body = Py.Raise e ->
  Py.issubclass (Py.exn_cls e) Py.Exception = true ->
  (forall r, CreateNTMEstimator.post E request_body <> Py.Ok r)
  /\ (Py.exn_args e <> [] ->
      exists e', CreateNTMEstimator.post E request_body = Py.Raise e'
                 /\ Py.exn_cls e' = Py.UnboundLocalError
                 /\ Py.issubclass (Py.exn_cls e') Py.NameError = true)
  /\ (Py.exn_args e = [] ->
      exists e', CreateNTMEstimator.post E request_body = Py.Raise e'
                 /\ Py.exn_cls e' = Py.IndexError).
Proof.
  intros Hrole Huri Hjson Hraise Hexc.
  rewrite (post_after_prologue E request_body body Hrole Huri Hjson e Hraise Hexc).
  unfold CreateNTMEstimator.handler.
  destruct (Py.exn_args e) as [| a args]; cbn [Py.bind Py.raise].
  - split; [discriminate |]. split; [congruence |].
    intros _. eexists. split; [reflexivity | reflexivity].
  - split; [discriminate |]. split; [| discriminate].
    intros _. eexists. split; [reflexivity |]. split; reflexivity.
Qed.

(** C6 at a run in which the session cannot be created. *)
Lemma C6_handler_raises_before_deploy_witness :
  exists e',
    CreateNTMEstimator.post
      (Sample.estimator_env
         (Py.Raise (Py.Exn Py.ClientError [Py.PStr "AccessDenied"]))
         (Py.Ok tt) (Py.Ok (Py.PDict [("endpoint", Py.PStr "ntm-endpoint")]))) ""
    = Py.Raise e'
    /\ Py.exn_cls e' = Py.UnboundLocalError.
Proof.
  destruct (C6_handler_raises_before_deploy
              (Sample.estimator_env
                 (Py.Raise (Py.Exn Py.ClientError [Py.PStr "AccessDenied"]))
                 (Py.Ok tt) (Py.Ok (Py.PDict [("endpoint", Py.PStr "ntm-endpoint")])))
              "" Sample.estimator_body
              (Py.Exn Py.ClientError [Py.PStr "AccessDenied"]))
    as (_ & Hargs & _); try reflexivity.
  destruct Hargs as (e' & Hpost & Hcls & _); [discriminate |].
  exists e'. split; [exact Hpost | exact Hcls].
Defined.

(** C6 as stated fails where the exception caught has no argument: the
    training job raising [MemoryError()] makes the handler raise IndexError,
    which is not a NameError. *)
Lemma C6_counterexample :
  CreateNTMEstimator.before_deploy_returns
    (Sample.estimator_env (Py.Ok tt) (Py.Raise (Py.Exn Py.MemoryError []))
       (Py.Ok (Py.PDict [("endpoint", Py.PStr "ntm-endpoint")])))
    Sample.estimator_body
  = Py.Raise (Py.Exn Py.MemoryError [])
  /\ Py.issubclass Py.MemoryError Py.Exception = true
  /\ exists e',
      CreateNTMEstimator.post
        (Sample.estimator_env (Py.Ok tt) (Py.Raise (Py.Exn Py.MemoryError []))
           (Py.Ok (Py.PDict [("endpoint", Py.PStr "ntm-endpoint")]))) ""
      = Py.Raise e'
      /\ Py.exn_cls e' = Py.IndexError
      /\ Py.issubclass (Py.exn_cls e') Py.NameError = false.
Proof.
  split; [reflexivity |]. split; [reflexivity |].
  eexists. split; [reflexivity |]. split; reflexivity.
Qed.

(** ** [DownloadTitles]: the download loop *)

Lemma download_post_unfold (E : DownloadTitles.env) (request_body : string) :
  DownloadTitles.post E request_body
  = (keys <- DownloadTitles.request_keys E request_body ;;
     errors <- DownloadTitles.download_loop E 0 keys [] ;;
     Py.Ok {| Rest.data :=
                Py.PDict [("status", Py.PStr "OK");
                          ("duration", Py.PFloat (DownloadTitles.duration E));
                          ("errors", Py.PInt (Z.of_nat (List.length errors)))];
              Rest.status := Rest.HTTP_200_OK |})%py.
Proof.
  unfold DownloadTitles.post, DownloadTitles.request_keys.
  repeat match goal with
         | |- context [Py.bind ?m _] =>
             lazymatch m with
             | Py.bind _ _ => fail
             | _ => destruct m; cbn [Py.bind]; try reflexivity
             end
         end.
Qed.

Lemma download_loop_ok (E : DownloadTitles.env) (keys : list Py.pyval) :
  forall (i0 : nat) (errors : list Py.pyval),
    (forall i key, nth_error keys i = Some key ->
                   DownloadTitles.raised_other E (i0 + i) key = false) ->
    DownloadTitles.download_loop E i0 keys errors
    = Py.Ok (errors
             ++ map snd (filter (fun ik => DownloadTitles.raised_ValueError E (fst ik) (snd ik))
                                (DownloadTitles.numbered i0 keys))).
Proof.
  induction keys as [| key rest IH]; intros i0 errors Hno.
  - cbn. now rewrite app_nil_r.
  - pose proof (Hno 0%nat key eq_refl) as H0. rewrite Nat.add_0_r in H0.
    assert (Hrest : forall i k, nth_error rest i = Some k ->
                                DownloadTitles.raised_other E (S i0 + i) k = false).
    { intros i k Hi. replace (S i0 + i)%nat with (i0 + S i)%nat by lia.
      now apply Hno. }
    unfold DownloadTitles.numbered. cbn [DownloadTitles.download_loop List.length seq combine filter fst snd].
    unfold DownloadTitles.raised_other in H0.
    unfold DownloadTitles.raised_ValueError at 1.
    destruct (DownloadTitles.download_file E i0 key) as [[] | e].
    + now apply IH.
    + apply negb_false_iff in H0. rewrite H0.
      rewrite (IH (S i0) (errors ++ [key]) Hrest).
      cbn [map snd]. now rewrite <- app_assoc.
Qed.

Lemma download_loop_raise (E : DownloadTitles.env) (keys : list Py.pyval) :
  forall (i0 : nat) (errors : list Py.pyval) (i : nat) (key : Py.pyval) (e : Py.exn),
    nth_error keys i = Some key ->
    DownloadTitles.download_file E (i0 + i) key = Py.Raise e ->
    Py.issubclass (Py.exn_cls e) Py.ValueError = false ->
    (forall j key', (j < i)%nat -> nth_error keys j = Some key' ->
                    DownloadTitles.raised_other E (i0 + j) key' = false) ->
    DownloadTitles.download_loop E i0 keys errors = Py.Raise e.
Proof.
  induction keys as [| k rest IH]; intros i0 errors i key e Hnth Hdl Hcls Hbefore.
  - destruct i; discriminate.
  - destruct i as [| i]; cbn [nth_error] in Hnth.
    + injection Hnth as ->. rewrite Nat.add_0_r in Hdl.
      cbn [DownloadTitles.download_loop]. now rewrite Hdl, Hcls.
    + pose proof (Hbefore 0%nat k ltac:(lia) eq_refl) as H0.
      rewrite Nat.add_0_r in H0. unfold DownloadTitles.raised_other in H0.
      assert (Hrest : forall j key', (j < i)%nat -> nth_error rest j = Some key' ->
                        DownloadTitles.raised_other E (S i0 + j) key' = false).
      { intros j key' Hj Hk. replace (S i0 + j)%nat with (i0 + S j)%nat by lia.
        apply Hbefore; [lia | exact Hk]. }
      replace (i0 + S i)%nat with (S i0 + i)%nat in Hdl by lia.
      cbn [DownloadTitles.download_loop].
      destruct (DownloadTitles.download_file E i0 k) as [[] | e0].
      * eapply IH; eassumption.
      * apply negb_false_iff in H0. rewrite H0. eapply IH; eassumption.
Qed.

Lemma download_loop_Ok_inv (E : DownloadTitles.env) (keys : list Py.pyval) :
  forall (i0 : nat) (errors out : list Py.pyval),
    DownloadTitles.download_loop E i0 keys errors = Py.Ok out ->
    forall i key, nth_error keys i = Some key ->
                  DownloadTitles.raised_other E (i0 + i) key = false.
Proof.
  induction keys as [| k rest IH]; intros i0 errors out Hrun i key Hnth.
  - destruct i; discriminate.
  - cbn [DownloadTitles.download_loop] in Hrun.
    destruct i as [| i]; cbn [nth_error] in Hnth.
    + injection Hnth as ->. rewrite Nat.add_0_r. unfold DownloadTitles.raised_other.
      destruct (DownloadTitles.download_file E i0 key) as [[] | e]; [reflexivity |].
      destruct (Py.issubclass (Py.exn_cls e) Py.ValueError); [reflexivity | discriminate].
    + replace (i0 + S i)%nat with (S i0 + i)%nat by lia.
      destruct (DownloadTitles.download_file E i0 k) as [[] | e].
      * eapply IH; eassumption.
      * destruct (Py.issubclass (Py.exn_cls e) Py.ValueError); [| discriminate].
        eapply IH; eassumption.
Qed.

(** ** Which endpoints answer with which status *)

(** Case analysis on every step of a handler that ended with a response. *)
Ltac bind_cases H :=
  repeat match type of H with
         | Py.bind ?m _ = _ => destruct m eqn:?; cbn [Py.bind] in H
         | Py.Raise _ = Py.Ok _ => discriminate H
         | (_, Py.Raise _) = (_, Py.Ok _) => discriminate H
         | context [match ?m with Py.Ok _ => _ | Py.Raise _ => _ end] =>
             destruct m eqn:?
         | context [match ?m with (_, _) => _ end] => destruct m eqn:?
         | context [if ?b then _ else _] => destruct b eqn:?
         end.

Lemma download_titles_status (E : DownloadTitles.env) (request_body : string)
    (r : Rest.Response) :
  DownloadTitles.post E request_body = Py.Ok r ->
  Rest.status r = Rest.HTTP_200_OK
  /\ Py.getitem (Rest.data r) "status" = Py.Ok (Py.PStr "OK").
Proof.
  unfold DownloadTitles.post. intros H. bind_cases H.
  injection H as <-. split; reflexivity.
Qed.

Lemma map_title_information_status (E : MapTitleInformation.env)
    (request_body : string) (db db' : Db.table) (r : Rest.Response) :
  MapTitleInformation.post E request_body db = (db', Py.Ok r) ->
  Rest.status r = Rest.HTTP_200_OK.
Proof.
  unfold MapTitleInformation.post. intros H. bind_cases H.
  all: injection H as _ <-; reflexivity.
Qed.

Lemma get_text_json_files_status (E : GetTextJSONFiles.env)
    (request_body : string) (db db' : Db.table) (r : Rest.Response) :
  GetTextJSONFiles.post E request_body db = (db', Py.Ok r) ->
  Rest.status r = Rest.HTTP_200_OK.
Proof.
  unfold GetTextJSONFiles.post. intros H. bind_cases H.
  all: injection H as _ <-; reflexivity.
Qed.

Lemma get_predictor_information_status (json_loads : string -> Py.res Py.pyval)
    (request_body : string) (r : Rest.Response) :
  GetPredictorInformation.post json_loads request_body = Py.Ok r ->
  Rest.status r = Rest.HTTP_200_OK.
Proof.
  unfold GetPredictorInformation.post. intros H. bind_cases H.
  injection H as <-. reflexivity.
Qed.

(** A computation over the stores ends with a value only if each of its
    steps does. *)
Lemma mbind_Ok {A B : Type} (m : PrepareTrainData.M A)
    (k : A -> PrepareTrainData.M B) (w w' : PrepareTrainData.world) (b : B) :
  PrepareTrainData.mbind m k w = (w', Py.Ok b) ->
  exists a w1, m w = (w1, Py.Ok a) /\ k a w1 = (w', Py.Ok b).
Proof.
  unfold PrepareTrainData.mbind. destruct (m w) as [w1 [a | e]]; intros H.
  - now exists a, w1.
  - discriminate.
Qed.

Lemma prepare_train_data_response (E : PrepareTrainData.env) (request_body : string)
    (w w' : PrepareTrainData.world) (r : Rest.Response) :
  PrepareTrainData.post E request_body w = (w', Py.Ok r) ->
  r = PrepareTrainData.response E.
Proof.
  unfold PrepareTrainData.post. intros H.
  repeat (apply mbind_Ok in H; destruct H as (? & ? & _ & H)).
  unfold PrepareTrainData.ret in H. now injection H as _ <-.
Qed.

Lemma create_estimator_400 (E : CreateNTMEstimator.env) (request_body : string)
    (body predictor : Py.pyval) (e : Py.exn) (a : Py.pyval) (args : list Py.pyval) :
  CreateNTMEstimator._get_profile_role E = Py.Ok tt ->
  CreateNTMEstimator.get_image_uri E = Py.Ok tt ->
  CreateNTMEstimator.json_loads E request_body = Py.Ok body ->
  CreateNTMEstimator.before_deploy_returns E body = Py.Ok predictor ->
  Py.getitem predictor "endpoint" = Py.Raise e ->
  Py.issubclass (Py.exn_cls e) Py.Exception = true ->
  Py.exn_args e = a :: args ->
  CreateNTMEstimator.delete_endpoint E = Py.Ok tt ->
  CreateNTMEstimator.post E request_body
  = Py.Ok {| Rest.data := Py.PDict [("status", Py.PStr "ERROR");
                                    ("error", Py.PStr (CreateNTMEstimator.str E a))];
             Rest.status := Rest.HTTP_400_BAD_REQUEST |}.
Proof.
  intros Hrole Huri Hjson Hdeploy Hend Hexc Hargs Hdel.
  unfold CreateNTMEstimator.post, CreateNTMEstimator.try_block.
  rewrite Hrole, Huri, Hjson. cbn [Py.bind]. rewrite Hdeploy, Hend, Hexc.
  unfold CreateNTMEstimator.handler. rewrite Hargs. cbn [Py.bind].
  rewrite Hdel. reflexivity.
Qed.

Lemma prepare_train_data_vectorizer_error (E : PrepareTrainData.env)
    (request_body : string) (w : PrepareTrainData.world)
    (body book_limit list_keys theme_filter : Py.pyval)
    (queryset : list Db.Title) (e : Py.exn) :
  PrepareTrainData.json_loads E request_body = Py.Ok body ->
  Py.get body "book_limit" (Py.PInt 0) = Py.Ok book_limit ->
  Py.get body "list_keys" (Py.PList []) = Py.Ok list_keys ->
  Py.get body "theme" Py.PNone = Py.Ok theme_filter ->
  PrepareTrainData._get_title_queryset book_limit list_keys theme_filter w
  = (w, Py.Ok queryset) ->
  PrepareTrainData.fit_transform E (PrepareTrainData._get_titles_text queryset)
  = Py.Raise e ->
  PrepareTrainData.post E request_body w = (w, Py.Raise e).
Proof.
  intros Hjson Hbl Hlk Htf Hq Hfit. unfold PrepareTrainData.post.
  unfold PrepareTrainData.mbind at 1, PrepareTrainData.lift at 1. rewrite Hjson.
  unfold PrepareTrainData.mbind at 1, PrepareTrainData.lift at 1. rewrite Hbl.
  unfold PrepareTrainData.mbind at 1, PrepareTrainData.lift at 1. rewrite Hlk.
  unfold PrepareTrainData.mbind at 1, PrepareTrainData.lift at 1. rewrite Htf.
  unfold PrepareTrainData.mbind at 1. rewrite Hq.
  unfold PrepareTrainData.mbind at 1, PrepareTrainData.lift at 1. rewrite Hfit.
  reflexivity.
Qed.

(** C1 (as amended): errors are not caught broadly.  Whatever
    [DownloadTitles], [MapTitleInformation], [GetTextJSONFiles],
    [PrepareTrainData] and [GetPredictorInformation] answer has status 200,
    never 400, and an error such as one raised by [json.loads] (or, in
    [PrepareTrainData], by the vectorizer) leaves the handler as it was
    raised.  [DownloadTitles] catches one kind of error, a ValueError raised
    by a download: the key is counted in "errors" and the answer is still
    200; any other error of a download leaves the handler.
    [CreateNTMEstimator] is the one endpoint that answers 400, with status
    "ERROR" and the text of the error's first argument: it does so for an
    Exception that carries an argument and is raised in its [try] block once
    [deploy] has returned, [delete_endpoint] returning; an error of
    [json.loads], before the [try] block, leaves the handler. *)
Theorem C1_errors_and_http_400 :
  (forall E request_body r,
      DownloadTitles.post E request_body = Py.Ok r -> Rest.status r = Rest.HTTP_200_OK)
  /\ (forall E request_body db db' r,
      MapTitleInformation.post E request_body db = (db', Py.Ok r) ->
      Rest.status r = Rest.HTTP_200_OK)
  /\ (forall E request_body db db' r,
      GetTextJSONFiles.post E request_body db = (db', Py.Ok r) ->
      Rest.status r = Rest.HTTP_200_OK)
  /\ (forall E request_body w w' r,
      PrepareTrainData.post E request_body w = (w', Py.Ok r) ->
      Rest.status r = Rest.HTTP_200_OK)
  /\ (forall json_loads request_body r,
      GetPredictorInformation.post json_loads request_body = Py.Ok r ->
      Rest.status r = Rest.HTTP_200_OK)
  /\ (forall E request_body e,
      DownloadTitles.json_loads E request_body = Py.Raise e ->
      DownloadTitles.post E request_body = Py.Raise e)
  /\ (forall E request_body keys,
      DownloadTitles.request_keys E request_body = Py.Ok keys ->
      (forall i key, nth_error keys i = Some key ->
                     DownloadTitles.raised_other E i key = false) ->
      DownloadTitles.post E request_body
      = Py.Ok {| Rest.data :=
                   Py.PDict [("status", Py.PStr "OK");
                             ("duration", Py.PFloat (DownloadTitles.duration E));
                             ("errors",
                              Py.PInt (Z.of_nat (DownloadTitles.count_ValueError E keys)))];
                 Rest.status := Rest.HTTP_200_OK |})
  /\ (forall E request_body keys i key e,
      DownloadTitles.request_keys E request_body = Py.Ok keys ->
      nth_error keys i = Some key ->
      DownloadTitles.download_file E i key = Py.Raise e ->
      Py.issubclass (Py.exn_cls e) Py.ValueError = false ->
      (forall j key', (j < i)%nat -> nth_error keys j = Some key' ->
                      DownloadTitles.raised_other E j key' = false) ->
      DownloadTitles.post E request_body = Py.Raise e)
  /\ (forall E request_body db e,
      MapTitleInformation.json_loads E request_body = Py.Raise e ->
      MapTitleInformation.post E request_body db = (db, Py.Raise e))
  /\ (forall E request_body db e,
      GetTextJSONFiles.json_loads E request_body = Py.Raise e ->
      GetTextJSONFiles.post E request_body db = (db, Py.Raise e))
  /\ (forall E request_body w e,
      PrepareTrainData.json_loads E request_body = Py.Raise e ->
      PrepareTrainData.post E request_body w = (w, Py.Raise e))
  /\ (forall json_loads request_body e,
      json_loads request_body = Py.Raise e ->
      GetPredictorInformation.post json_loads request_body = Py.Raise e)
  /\ (forall E request_body e,
      CreateNTMEstimator._get_profile_role E = Py.Ok tt ->
      CreateNTMEstimator.get_image_uri E = Py.Ok tt ->
      CreateNTMEstimator.json_loads E request_body = Py.Raise e ->
      CreateNTMEstimator.post E request_body = Py.Raise e)
  /\ (forall E request_body w body book_limit list_keys theme_filter queryset e,
      PrepareTrainData.json_loads E request_body = Py.Ok body ->
      Py.get body "book_limit" (Py.PInt 0) = Py.Ok book_limit ->
      Py.get body "list_keys" (Py.PList []) = Py.Ok list_keys ->
      Py.get body "theme" Py.PNone = Py.Ok theme_filter ->
      PrepareTrainData._get_title_queryset book_limit list_keys theme_filter w
      = (w, Py.Ok queryset) ->
      PrepareTrainData.fit_transform E (PrepareTrainData._get_titles_text queryset)
      = Py.Raise e ->
      PrepareTrainData.post E request_body w = (w, Py.Raise e))
  /\ (forall E request_body body predictor e a args,
      CreateNTMEstimator._get_profile_role E = Py.Ok tt ->
      CreateNTMEstimator.get_image_uri E = Py.Ok tt ->
      CreateNTMEstimator.json_loads E request_body = Py.Ok body ->
      CreateNTMEstimator.before_deploy_returns E body = Py.Ok predictor ->
      Py.getitem predictor "endpoint" = Py.Raise e ->
      Py.issubclass (Py.exn_cls e) Py.Exception = true ->
      Py.exn_args e = a :: args ->
      CreateNTMEstimator.delete_endpoint E = Py.Ok tt ->
      CreateNTMEstimator.post E request_body
      = Py.Ok {| Rest.data := Py.PDict [("status", Py.PStr "ERROR");
                                        ("error", Py.PStr (CreateNTMEstimator.str E a))];
                 Rest.status := Rest.HTTP_400_BAD_REQUEST |}).
Proof.
  repeat match goal with |- _ /\ _ => split end.
  - intros E rb r H. now apply download_titles_status in H.
  - intros E rb db db' r H. now apply map_title_information_status in H.
  - intros E rb db db' r H. now apply get_text_json_files_status in H.
  - intros E rb w w' r H. apply prepare_train_data_response in H. now subst r.
  - intros jl rb r H. now apply get_predictor_information_status in H.
  - intros E rb e H. unfold DownloadTitles.post. now rewrite H.
  - intros E rb keys Hkeys Hno. rewrite download_post_unfold, Hkeys. cbn [Py.bind].
    rewrite (download_loop_ok E keys 0 [] Hno). cbn [Py.bind app].
    unfold DownloadTitles.count_ValueError. now rewrite length_map.
  - intros E rb keys i key e Hkeys Hnth Hdl Hcls Hbefore.
    rewrite download_post_unfold, Hkeys. cbn [Py.bind].
    now rewrite (download_loop_raise E keys 0 [] i key e Hnth Hdl Hcls Hbefore).
  - intros E rb db e H. unfold MapTitleInformation.post. now rewrite H.
  - intros E rb db e H. unfold GetTextJSONFiles.post. now rewrite H.
  - intros E rb w e H. unfold PrepareTrainData.post.
    unfold PrepareTrainData.mbind at 1, PrepareTrainData.lift at 1. now rewrite H.
  - intros jl rb e H. unfold GetPredictorInformation.post. now rewrite H.
  - intros E rb e H1 H2 H3. unfold CreateNTMEstimator.post. now rewrite H1, H2, H3.
  - intros. eapply prepare_train_data_vectorizer_error; eassumption.
  - intros. eapply create_estimator_400; eassumption.
Qed.

(** C1 as stated fails: in [DownloadTitles] a download that fails with
    OSError is not caught, and the endpoint returns no response; one that
    fails with ValueError is caught, and the answer is HTTP 200. *)
Lemma C1_counterexample :
  DownloadTitles.post
    (Sample.download_env (Sample.download_body [Py.PStr "k1"])
       (fun _ _ => Py.Raise (Py.Exn Py.OSError [Py.PStr "No space left on device"]))) ""
  = Py.Raise (Py.Exn Py.OSError [Py.PStr "No space left on device"])
  /\ exists r,
      DownloadTitles.post
        (Sample.download_env (Sample.download_body [Py.PStr "k1"])
           (fun _ _ => Py.Raise (Py.Exn Py.ValueError [Py.PStr "no such key"]))) ""
      = Py.Ok r
      /\ Rest.status r = 200
      /\ Rest.status r <> Rest.HTTP_400_BAD_REQUEST.
Proof.
  split; [reflexivity |].
  eexists. split; [reflexivity |]. split; [reflexivity | discriminate].
Qed.

(** The one way to an HTTP 400: the predictor deployed has no "endpoint"
    entry, the KeyError is caught with [ntm_predictor] bound, the endpoint is
    deleted and the error's argument is echoed. *)
Example create_estimator_answers_400 :
  CreateNTMEstimator.post
    (Sample.estimator_env (Py.Ok tt) (Py.Ok tt)
       (Py.Ok (Py.PDict [("endpoint_name", Py.PStr "ntm-endpoint")]))) ""
  = Py.Ok {| Rest.data := Py.PDict [("status", Py.PStr "ERROR");
                                    ("error", Py.PStr "endpoint")];
             Rest.status := 400 |}.
Proof. reflexivity. Qed.

(** A table with a single title with text: the vectorizer raises ValueError
    and [PrepareTrainData] returns no response; nothing has been written. *)
Example prepare_train_data_single_title :
  PrepareTrainData.post (Sample.prepare_env (Py.PDict []) (fun l => l)) ""
    (Sample.start [Sample.title 1 "t1" "a b"])
  = (Sample.start [Sample.title 1 "t1" "a b"],
     Py.Raise (Py.Exn Py.ValueError
                 [Py.PStr "max_df corresponds to < documents than min_df"])).
Proof. vm_compute. reflexivity. Qed.

(** ** [PrepareTrainData]: what its steps leave in place *)

Lemma files_grow_mbind {A B : Type} (m : PrepareTrainData.M A)
    (k : A -> PrepareTrainData.M B) :
  files_grow m -> (forall a, files_grow (k a)) -> files_grow (PrepareTrainData.mbind m k).
Proof.
  intros Hm Hk w w' r. unfold PrepareTrainData.mbind.
  destruct (m w) as [w1 [a | e]] eqn:Hmw; intros H.
  - apply Hm in Hmw. destruct Hmw as [more1 H1].
    apply Hk in H. destruct H as [more2 H2].
    exists (more1 ++ more2). rewrite H2, H1. now rewrite app_assoc.
  - injection H as <- _. eapply Hm. exact Hmw.
Qed.

Lemma titles_kept_mbind {A B : Type} (m : PrepareTrainData.M A)
    (k : A -> PrepareTrainData.M B) :
  titles_kept m -> (forall a, titles_kept (k a)) -> titles_kept (PrepareTrainData.mbind m k).
Proof.
  intros Hm Hk w w' r. unfold PrepareTrainData.mbind.
  destruct (m w) as [w1 [a | e]] eqn:Hmw; intros H.
  - apply Hm in Hmw. apply Hk in H. congruence.
  - injection H as <- _. eapply Hm. exact Hmw.
Qed.

Lemma files_grow_lift {A : Type} (r : Py.res A) : files_grow (PrepareTrainData.lift r).
Proof. intros w w' r' [= <- _]. exists []. now rewrite app_nil_r. Qed.

Lemma titles_kept_lift {A : Type} (r : Py.res A) : titles_kept (PrepareTrainData.lift r).
Proof. now intros w w' r' [= <- _]. Qed.

Lemma files_grow_ret {A : Type} (a : A) : files_grow (PrepareTrainData.ret a).
Proof. intros w w' r' [= <- _]. exists []. now rewrite app_nil_r. Qed.

Lemma titles_kept_ret {A : Type} (a : A) : titles_kept (PrepareTrainData.ret a).
Proof. now intros w w' r' [= <- _]. Qed.

Lemma files_grow_write_file (outcome : Py.res unit) (path : string)
    (f : PrepareTrainData.file) :
  files_grow (PrepareTrainData.write_file outcome path f).
Proof.
  intros w w' r. unfold PrepareTrainData.write_file.
  destruct outcome; intros [= <- _]; [now exists [(path, f)] |].
  exists []. now rewrite app_nil_r.
Qed.

Lemma titles_kept_write_file (outcome : Py.res unit) (path : string)
    (f : PrepareTrainData.file) :
  titles_kept (PrepareTrainData.write_file outcome path f).
Proof.
  intros w w' r. unfold PrepareTrainData.write_file.
  now destruct outcome; intros [= <- _].
Qed.

Lemma files_grow_savetxt (E : PrepareTrainData.env) (path : string)
    (f : PrepareTrainData.file) :
  files_grow (PrepareTrainData.savetxt E path f).
Proof. intros w w' r. unfold PrepareTrainData.savetxt. apply files_grow_write_file. Qed.

Lemma titles_kept_savetxt (E : PrepareTrainData.env) (path : string)
    (f : PrepareTrainData.file) :
  titles_kept (PrepareTrainData.savetxt E path f).
Proof. intros w w' r. unfold PrepareTrainData.savetxt. apply titles_kept_write_file. Qed.

Lemma files_grow_dump (E : PrepareTrainData.env) (path : string)
    (f : PrepareTrainData.file) :
  files_grow (PrepareTrainData.dump E path f).
Proof. apply files_grow_write_file. Qed.

Lemma titles_kept_dump (E : PrepareTrainData.env) (path : string)
    (f : PrepareTrainData.file) :
  titles_kept (PrepareTrainData.dump E path f).
Proof. apply titles_kept_write_file. Qed.

(** A write that returned is the last entry of the log. *)
Lemma write_file_Ok (outcome : Py.res unit) (path : string) (f : PrepareTrainData.file)
    (w w' : PrepareTrainData.world) (u : unit) :
  PrepareTrainData.write_file outcome path f w = (w', Py.Ok u) ->
  w' = {| PrepareTrainData.titles := PrepareTrainData.titles w;
          PrepareTrainData.files := PrepareTrainData.files w ++ [(path, f)];
          PrepareTrainData.bucket := PrepareTrainData.bucket w |}.
Proof.
  unfold PrepareTrainData.write_file. destruct outcome; [| discriminate].
  now intros [= <-].
Qed.

Lemma files_grow_save_title (t : Db.Title) : files_grow (PrepareTrainData.save_title t).
Proof. intros w w' r' [= <- _]. exists []. cbn. now rewrite app_nil_r. Qed.

Lemma files_grow_upload (E : PrepareTrainData.env) (o : PrepareTrainData.s3_object) :
  files_grow (PrepareTrainData.upload E o).
Proof.
  intros w w' r. unfold PrepareTrainData.upload.
  destruct (PrepareTrainData.upload_fileobj E _ _ _); intros [= <- _];
    exists []; cbn; now rewrite app_nil_r.
Qed.

Lemma titles_kept_upload (E : PrepareTrainData.env) (o : PrepareTrainData.s3_object) :
  titles_kept (PrepareTrainData.upload E o).
Proof.
  intros w w' r. unfold PrepareTrainData.upload.
  now destruct (PrepareTrainData.upload_fileobj E _ _ _); intros [= <- _].
Qed.

Lemma files_grow_map_loop (E : PrepareTrainData.env) (vectors : Sparse.matrix nat)
    (queryset : list Db.Title) (item_counter : Z) :
  files_grow (PrepareTrainData.map_loop E vectors item_counter queryset).
Proof.
  revert item_counter. induction queryset as [| item rest IH]; intros item_counter.
  - apply files_grow_ret.
  - cbn [PrepareTrainData.map_loop].
    apply files_grow_mbind; [apply files_grow_lift | intros row].
    apply files_grow_mbind; [apply files_grow_savetxt | intros _].
    apply files_grow_mbind; [apply files_grow_lift | intros name].
    apply files_grow_mbind; [apply files_grow_save_title | intros _].
    apply IH.
Qed.

Lemma files_grow_upload_loop (E : PrepareTrainData.env)
    (sparray : Sparse.matrix spec_float) (b p t : string)
    (n c : Z) (indices : list Z) :
  files_grow (PrepareTrainData.upload_loop E sparray b p t n c indices).
Proof.
  induction indices as [| i rest IH]; [apply files_grow_ret |].
  cbn [PrepareTrainData.upload_loop].
  apply files_grow_mbind; [apply files_grow_lift | intros o].
  apply files_grow_mbind; [apply files_grow_upload | intros _; apply IH].
Qed.

Lemma titles_kept_upload_loop (E : PrepareTrainData.env)
    (sparray : Sparse.matrix spec_float) (b p t : string)
    (n c : Z) (indices : list Z) :
  titles_kept (PrepareTrainData.upload_loop E sparray b p t n c indices).
Proof.
  induction indices as [| i rest IH]; [apply titles_kept_ret |].
  cbn [PrepareTrainData.upload_loop].
  apply titles_kept_mbind; [apply titles_kept_lift | intros o].
  apply titles_kept_mbind; [apply titles_kept_upload | intros _; apply IH].
Qed.

Lemma files_grow_split_convert_upload (E : PrepareTrainData.env)
    (sparray : Sparse.matrix spec_float) (b p t : string) (n : Z) :
  files_grow (PrepareTrainData._split_convert_upload E sparray b p t n).
Proof.
  unfold PrepareTrainData._split_convert_upload.
  destruct (n =? 0); [apply files_grow_lift |].
  apply files_grow_mbind; [apply files_grow_lift | intros _; apply files_grow_upload_loop].
Qed.

Lemma titles_kept_split_convert_upload (E : PrepareTrainData.env)
    (sparray : Sparse.matrix spec_float) (b p t : string) (n : Z) :
  titles_kept (PrepareTrainData._split_convert_upload E sparray b p t n).
Proof.
  unfold PrepareTrainData._split_convert_upload.
  destruct (n =? 0); [apply titles_kept_lift |].
  apply titles_kept_mbind; [apply titles_kept_lift | intros _; apply titles_kept_upload_loop].
Qed.

Create HintDb stores discriminated.
#[local] Hint Resolve files_grow_lift files_grow_ret files_grow_write_file
  files_grow_savetxt files_grow_dump
  files_grow_save_title files_grow_upload files_grow_map_loop
  files_grow_upload_loop files_grow_split_convert_upload
  titles_kept_lift titles_kept_ret titles_kept_write_file titles_kept_savetxt
  titles_kept_dump titles_kept_upload titles_kept_upload_loop
  titles_kept_split_convert_upload : stores.

(** The steps of [post] that follow the writing of the file [path]. *)
Lemma file_stays {A : Type} (m : PrepareTrainData.M A) (path : string)
    (f : PrepareTrainData.file) (w w' : PrepareTrainData.world) (r : Py.res A) :
  files_grow m -> m w = (w', r) ->
  In (path, f) (PrepareTrainData.files w) -> In (path, f) (PrepareTrainData.files w').
Proof.
  intros Hm Hrun Hin. destruct (Hm w w' r Hrun) as [more ->].
  apply in_or_app. now left.
Qed.

(** C10: on success the response of [PrepareTrainData] has status 200 and
    echoes the derived locations: the three S3 paths under
    s3://sagemaker-erecommender/recommender, and for [vectors_path],
    [vocab_list], [index] and [new_index] the paths under the configured book
    path of the four files the handler has written. *)
Theorem C10_response_echoes_paths (E : PrepareTrainData.env) (request_body : string)
    (w w' : PrepareTrainData.world) (r : Rest.Response) :
  PrepareTrainData.post E request_body w = (w', Py.Ok r) ->
  Rest.status r = Rest.HTTP_200_OK
  /\ Py.getitem (Rest.data r) "status" = Py.Ok (Py.PStr "Ok")
  /\ (exists paths,
        Py.getitem (Rest.data r) "paths" = Py.Ok paths
        /\ Py.getitem paths "s3_train_data"
           = Py.Ok (Py.PStr "s3://sagemaker-erecommender/recommender/train")
        /\ Py.getitem paths "s3_val_data"
           = Py.Ok (Py.PStr "s3://sagemaker-erecommender/recommender/val")
        /\ Py.getitem paths "output_path"
           = Py.Ok (Py.PStr "s3://sagemaker-erecommender/recommender/output"))
  /\ Py.getitem (Rest.data r) "vectors_path"
     = Py.Ok (Py.PStr (PrepareTrainData.BOOK_PATH E ++ "/vectors.joblib"))
  /\ Py.getitem (Rest.data r) "vocab_list"
     = Py.Ok (Py.PStr (PrepareTrainData.BOOK_PATH E ++ "/vocab_list.csv"))
  /\ Py.getitem (Rest.data r) "index"
     = Py.Ok (Py.PStr (PrepareTrainData.BOOK_PATH E ++ "/index.csv"))
  /\ Py.getitem (Rest.data r) "new_index"
     = Py.Ok (Py.PStr (PrepareTrainData.BOOK_PATH E ++ "/new_index.csv"))
  /\ (forall path,
        In path [PrepareTrainData.BOOK_PATH E ++ "/vectors.joblib";
                 PrepareTrainData.BOOK_PATH E ++ "/vocab_list.csv";
                 PrepareTrainData.BOOK_PATH E ++ "/index.csv";
                 PrepareTrainData.BOOK_PATH E ++ "/new_index.csv"]%string ->
        In path (map fst (PrepareTrainData.files w'))).
Proof.
  intros Hpost.
  pose proof (prepare_train_data_response E request_body w w' r Hpost) as ->.
  split; [reflexivity |]. split; [reflexivity |].
  split; [eexists; split; [reflexivity |]; repeat split |].
  do 4 (split; [reflexivity |]).
  unfold PrepareTrainData.post in Hpost.
  apply mbind_Ok in Hpost. destruct Hpost as (body & w1 & _ & Hpost).
  apply mbind_Ok in Hpost. destruct Hpost as (book_limit & w2 & _ & Hpost).
  apply mbind_Ok in Hpost. destruct Hpost as (list_keys & w3 & _ & Hpost).
  apply mbind_Ok in Hpost. destruct Hpost as (theme_filter & w4 & _ & Hpost).
  apply mbind_Ok in Hpost. destruct Hpost as (queryset & w5 & _ & Hpost).
  apply mbind_Ok in Hpost. destruct Hpost as (fitted & w6 & _ & Hpost).
  apply mbind_Ok in Hpost. destruct Hpost as ([] & w7 & Hvocab & Hpost).
  apply mbind_Ok in Hpost. destruct Hpost as ([] & w8 & Hindex & Hpost).
  apply mbind_Ok in Hpost. destruct Hpost as ([] & w9 & Hnew & Hpost).
  apply mbind_Ok in Hpost. destruct Hpost as (vectors & w10 & Htake & Hpost).
  apply mbind_Ok in Hpost. destruct Hpost as ([] & w11 & Hjoblib & Hpost).
  apply write_file_Ok in Hvocab. apply write_file_Ok in Hindex.
  apply write_file_Ok in Hnew. injection Htake as <- _.
  apply write_file_Ok in Hjoblib. subst w7 w8 w9 w11.
  cbn [PrepareTrainData.titles PrepareTrainData.files PrepareTrainData.bucket] in Hpost.
  intros path Hpath. apply in_map_iff.
  assert (Hrest : forall f,
             In (path, f) (PrepareTrainData.files
                             {| PrepareTrainData.titles := PrepareTrainData.titles w6;
                                PrepareTrainData.files :=
                                  ((PrepareTrainData.files w6
                                    ++ [((PrepareTrainData.BOOK_PATH E ++ "/vocab_list.csv")%string,
                                         PrepareTrainData.FStrings (fst fitted))])
                                   ++ [((PrepareTrainData.BOOK_PATH E ++ "/index.csv")%string,
                                        PrepareTrainData.FInts (Seq.range (Sparse.shape0 (snd fitted))))])
                                  ++ [((PrepareTrainData.BOOK_PATH E ++ "/new_index.csv")%string,
                                       PrepareTrainData.FInts
                                         (PrepareTrainData.permutation E
                                            (Seq.range (Sparse.shape0 (snd fitted)))))];
                                PrepareTrainData.bucket := PrepareTrainData.bucket w6 |}
                           ++ [((PrepareTrainData.BOOK_PATH E ++ "/vectors.joblib")%string,
                                PrepareTrainData.FMatrix vectors)]) ->
             exists x, fst x = path /\ In x (PrepareTrainData.files w')).
  { intros f Hin. exists (path, f). split; [reflexivity |].
    eapply file_stays; [| exact Hpost | exact Hin].
    repeat (apply files_grow_mbind; [| intros ?]);
      try apply files_grow_map_loop; auto with stores. }
  cbn [PrepareTrainData.files] in Hrest.
  destruct Hpath as [<- | [<- | [<- | [<- | []]]]]; eapply Hrest;
    rewrite !in_app_iff; cbn [In]; eauto 10.
Qed.

(** C10 at a run over three titles with text. *)
Lemma C10_response_echoes_paths_witness :
  exists w' r,
    PrepareTrainData.post (Sample.prepare_env (Py.PDict []) (@rev Z)) ""
      (Sample.start Sample.library)
    = (w', Py.Ok r)
    /\ Py.getitem (Rest.data r) "vectors_path" = Py.Ok (Py.PStr "/books/vectors.joblib")
    /\ Py.getitem (Rest.data r) "new_index" = Py.Ok (Py.PStr "/books/new_index.csv").
Proof.
  destruct (PrepareTrainData.post (Sample.prepare_env (Py.PDict []) (@rev Z)) ""
              (Sample.start Sample.library)) as [w' [r | e]] eqn:Hrun.
  - exists w', r. split; [reflexivity |].
    destruct (C10_response_echoes_paths _ _ _ _ _ Hrun)
      as (_ & _ & _ & Hvectors & _ & _ & Hnew & _).
    split; [exact Hvectors | exact Hnew].
  - vm_compute in Hrun. discriminate Hrun.
Defined.

(** ** [DownloadTitles]: what the answer counts *)

(** C9 (as amended): [DownloadTitles] answers only with HTTP 200 and status
    "OK", and it answers exactly when the request is read, the service is
    built and every download returns or raises ValueError; its "errors" field
    is then the number of keys of [list_keys] whose download raised
    ValueError.  A key whose download raises any other exception is not
    counted: that exception leaves the handler, which returns no response, as
    does an error raised before the loop. *)
Theorem C9_download_titles_counts_value_errors (E : DownloadTitles.env)
    (request_body : string) :
  (forall r,
      DownloadTitles.post E request_body = Py.Ok r ->
      Rest.status r = Rest.HTTP_200_OK
      /\ Py.getitem (Rest.data r) "status" = Py.Ok (Py.PStr "OK")
      /\ exists keys,
          DownloadTitles.request_keys E request_body = Py.Ok keys
          /\ (forall i key, nth_error keys i = Some key ->
                            DownloadTitles.raised_other E i key = false)
          /\ Py.getitem (Rest.data r) "errors"
             = Py.Ok (Py.PInt (Z.of_nat (DownloadTitles.count_ValueError E keys))))
  /\ (forall keys,
      DownloadTitles.request_keys E request_body = Py.Ok keys ->
      (forall i key, nth_error keys i = Some key ->
                     DownloadTitles.raised_other E i key = false) ->
      DownloadTitles.post E request_body
      = Py.Ok {| Rest.data :=
                   Py.PDict [("status", Py.PStr "OK");
                             ("duration", Py.PFloat (DownloadTitles.duration E));
                             ("errors",
                              Py.PInt (Z.of_nat (DownloadTitles.count_ValueError E keys)))];
                 Rest.status := Rest.HTTP_200_OK |})
  /\ (forall keys i key e,
      DownloadTitles.request_keys E request_body = Py.Ok keys ->
      nth_error keys i = Some key ->
      DownloadTitles.download_file E i key = Py.Raise e ->
      Py.issubclass (Py.exn_cls e) Py.ValueError = false ->
      (forall j key', (j < i)%nat -> nth_error keys j = Some key' ->
                      DownloadTitles.raised_other E j key' = false) ->
      DownloadTitles.post E request_body = Py.Raise e)
  /\ (forall e,
      DownloadTitles.request_keys E request_body = Py.Raise e ->
      DownloadTitles.post E request_body = Py.Raise e).
Proof.
  rewrite download_post_unfold.
  assert (Hok : forall keys,
             (forall i key, nth_error keys i = Some key ->
                            DownloadTitles.raised_other E i key = false) ->
             DownloadTitles.download_loop E 0 keys []
             = Py.Ok (map snd (filter (fun ik => DownloadTitles.raised_ValueError E (fst ik) (snd ik))
                                      (DownloadTitles.numbered 0 keys)))).
  { intros keys Hno. now rewrite (download_loop_ok E keys 0 [] Hno). }
  split; [| split; [| split]].
  - intros r Hpost.
    destruct (DownloadTitles.request_keys E request_body) as [keys |] eqn:Hkeys;
      [| discriminate].
    cbn [Py.bind] in Hpost.
    destruct (DownloadTitles.download_loop E 0 keys []) as [errors |] eqn:Hloop;
      [| discriminate].
    pose proof (download_loop_Ok_inv E keys 0 [] errors Hloop) as Hno.
    cbn [Nat.add] in Hno. rewrite (Hok keys Hno) in Hloop. injection Hloop as <-.
    cbn [Py.bind] in Hpost. injection Hpost as <-.
    split; [reflexivity |]. split; [reflexivity |].
    exists keys. split; [reflexivity |]. split; [exact Hno |].
    cbn. unfold DownloadTitles.count_ValueError. now rewrite length_map.
  - intros keys -> Hno. cbn [Py.bind]. rewrite (Hok keys Hno). cbn [Py.bind].
    unfold DownloadTitles.count_ValueError. now rewrite length_map.
  - intros keys i key e -> Hnth Hdl Hcls Hbefore. cbn [Py.bind].
    now rewrite (download_loop_raise E keys 0 [] i key e Hnth Hdl Hcls Hbefore).
  - intros e ->. reflexivity.
Qed.

(** C9 as stated fails: a request whose body has no "list_keys" is not
    answered with HTTP 200; the KeyError leaves the handler. *)
Lemma C9_counterexample :
  DownloadTitles.post
    (Sample.download_env
       (Py.PDict [("profile_name", Py.PStr "prod"); ("bucket_name", Py.PStr "books");
                  ("region_name", Py.PStr "us-east-1")])
       (fun _ _ => Py.Ok tt)) ""
  = Py.Raise (Py.Exn Py.KeyError [Py.PStr "list_keys"])
  /\ forall r,
      DownloadTitles.post
        (Sample.download_env
           (Py.PDict [("profile_name", Py.PStr "prod"); ("bucket_name", Py.PStr "books");
                      ("region_name", Py.PStr "us-east-1")])
           (fun _ _ => Py.Ok tt)) ""
      <> Py.Ok r.
Proof.
  split; [reflexivity | discriminate].
Qed.

(** Three keys, the second of which is missing: one error is reported. *)
Example download_titles_one_missing_key :
  exists r,
    DownloadTitles.post
      (Sample.download_env
         (Sample.download_body [Py.PStr "k1"; Py.PStr "k2"; Py.PStr "k3"])
         (fun i _ => if Nat.eqb i 1
                     then Py.Raise (Py.Exn Py.ValueError [Py.PStr "no such key"])
                     else Py.Ok tt)) ""
    = Py.Ok r
    /\ Py.getitem (Rest.data r) "errors" = Py.Ok (Py.PInt 1).
Proof.
  eexists. split; reflexivity.
Qed.

(** ** [MapTitleInformation]: identifiers stay unique *)

Lemma float_eqb_refl (x : spec_float) : Py.float_eqb x x = true.
Proof.
  destruct x as [s | s | | s m e]; cbn;
    rewrite ?Bool.eqb_reflx, ?Pos.eqb_refl, ?Z.eqb_refl; reflexivity.
Qed.

Lemma pyval_eqb_refl : forall a : Py.pyval, Py.pyval_eqb a a = true.
Proof.
  fix IH 1. intros [| b | n | x | s | l | d]; cbn.
  - reflexivity.
  - apply Bool.eqb_reflx.
  - apply Z.eqb_refl.
  - apply float_eqb_refl.
  - apply String.eqb_refl.
  - induction l as [| v l IHl]; [reflexivity |]. now rewrite IH, IHl.
  - induction d as [| [k v] d IHd]; [reflexivity |].
    now rewrite String.eqb_refl, IH, IHd.
Qed.

Lemma exists_identifier_In (v : Py.pyval) (db : Db.table) :
  In v (map Db.identifier db) -> MapTitleInformation.exists_identifier v db = true.
Proof.
  intros Hin. apply in_map_iff in Hin. destruct Hin as (t & <- & Ht).
  unfold MapTitleInformation.exists_identifier. apply existsb_exists.
  exists t. split; [exact Ht | apply pyval_eqb_refl].
Qed.

Lemma create_identifiers (i p t n : Py.pyval) (db : Db.table) :
  map Db.identifier (Db.create i p t n db) = map Db.identifier db ++ [i].
Proof. unfold Db.create. now rewrite map_app. Qed.

(** What [_create_title_from_service] does to the table: nothing, or one new
    Title under an identifier no stored Title has. *)
Lemma create_title_from_service_cases (title : Py.pyval) (db : Db.table) :
  fst (MapTitleInformation._create_title_from_service title db) = db
  \/ exists i p t n,
      fst (MapTitleInformation._create_title_from_service title db) = Db.create i p t n db
      /\ MapTitleInformation.exists_identifier i db = false.
Proof.
  unfold MapTitleInformation._create_title_from_service.
  destruct (Py.get title "sync_key" Py.PNone) as [sync_key |] eqn:Hkey; [| now left].
  destruct (MapTitleInformation.exists_identifier sync_key db) eqn:Hex; [now left |].
  destruct (Py.get title "theme" Py.PNone) as [th |]; cbn [Py.bind]; [| now left].
  match goal with
  | |- context [Py.bind ?m _] => destruct m as [theme |]; cbn [Py.bind]; [| now left]
  end.
  destruct (Py.get title "publisher" Py.PNone) as [pub |]; cbn [Py.bind]; [| now left].
  destruct (Py.getitem pub "name") as [pub_name |]; cbn [Py.bind]; [| now left].
  destruct (Py.get title "title_name" Py.PNone) as [title_name |]; cbn [Py.bind];
    [| now left].
  right. exists sync_key, pub_name, theme, title_name. split; [reflexivity | exact Hex].
Qed.

Lemma create_title_from_service_NoDup (title : Py.pyval) (db : Db.table) :
  NoDup (map Db.identifier db) ->
  NoDup (map Db.identifier (fst (MapTitleInformation._create_title_from_service title db))).
Proof.
  intros Hnd.
  destruct (create_title_from_service_cases title db) as [-> | (i & p & t & n & -> & Hex)];
    [exact Hnd |].
  rewrite create_identifiers. apply NoDup_app; [exact Hnd | repeat constructor; intros [] |].
  intros x Hx [<- | []]. apply exists_identifier_In in Hx. congruence.
Qed.

Lemma service_loop_NoDup (E : MapTitleInformation.env) (keys : list Py.pyval) :
  forall (i : nat) (db : Db.table),
    NoDup (map Db.identifier db) ->
    NoDup (map Db.identifier (fst (MapTitleInformation.service_loop E i keys db))).
Proof.
  induction keys as [| key rest IH]; intros i db Hnd; [exact Hnd |].
  cbn [MapTitleInformation.service_loop].
  destruct (MapTitleInformation.get_title E i key) as [title |]; [| exact Hnd].
  destruct (Py.truthy title); [| now apply IH].
  pose proof (create_title_from_service_NoDup title db Hnd) as Hnd'.
  destruct (MapTitleInformation._create_title_from_service title db) as [db' [[] | e]];
    cbn [fst] in Hnd'; [now apply IH | exact Hnd'].
Qed.

Lemma service_loop_appends (E : MapTitleInformation.env) (keys : list Py.pyval) :
  forall (i : nat) (db : Db.table),
    exists created, fst (MapTitleInformation.service_loop E i keys db) = db ++ created.
Proof.
  induction keys as [| key rest IH]; intros i db.
  - exists []. cbn. now rewrite app_nil_r.
  - cbn [MapTitleInformation.service_loop].
    destruct (MapTitleInformation.get_title E i key) as [title |];
      [| exists []; cbn; now rewrite app_nil_r].
    destruct (Py.truthy title); [| apply IH].
    destruct (create_title_from_service_cases title db) as [H | (a & p & t & n & H & _)];
      destruct (MapTitleInformation._create_title_from_service title db) as [db' [[] | e]];
      cbn [fst] in H; subst db'.
    + apply IH.
    + exists []. cbn. now rewrite app_nil_r.
    + destruct (IH (S i) (Db.create a p t n db)) as [created Hc].
      unfold Db.create in Hc. rewrite <- app_assoc in Hc. eexists. exact Hc.
    + unfold Db.create. eexists. reflexivity.
Qed.

(** C7: [MapTitleInformation] never creates a duplicate Title.  For a title
    dict returned by the content service, if a Title whose identifier is the
    dict's [sync_key] is stored, no Title is created and the table is
    unchanged; when the stored identifiers are pairwise distinct they are so
    after [_create_title_from_service] and after the whole request, which
    only appends to the table. *)
Theorem C7_map_title_information_keeps_identifiers_unique
    (E : MapTitleInformation.env) (request_body : string) (db : Db.table) :
  NoDup (map Db.identifier db) ->
  (forall title sync_key,
      Py.get title "sync_key" Py.PNone = Py.Ok sync_key ->
      In sync_key (map Db.identifier db) ->
      MapTitleInformation._create_title_from_service title db = (db, Py.Ok tt))
  /\ (forall title,
      NoDup (map Db.identifier
               (fst (MapTitleInformation._create_title_from_service title db))))
  /\ NoDup (map Db.identifier (fst (MapTitleInformation.post E request_body db)))
  /\ exists created, fst (MapTitleInformation.post E request_body db) = db ++ created.
Proof.
  intros Hnd. split; [| split; [| split]].
  - intros title sync_key Hkey Hin.
    unfold MapTitleInformation._create_title_from_service.
    now rewrite Hkey, (exists_identifier_In sync_key db Hin).
  - intros title. now apply create_title_from_service_NoDup.
  - unfold MapTitleInformation.post.
    destruct (Py.bind (MapTitleInformation.json_loads E request_body) _)
      as [[[body has_service] list_keys] |]; [| exact Hnd].
    destruct (Py.truthy has_service).
    + destruct (Py.bind (MapTitleInformation.get_service E) _) as [keys |]; [| exact Hnd].
      pose proof (service_loop_NoDup E keys 0 db Hnd) as Hloop.
      destruct (MapTitleInformation.service_loop E 0 keys db) as [db' [[] | e]];
        exact Hloop.
    + destruct (Py.bind (Py.getitem body "titles") _); exact Hnd.
  - unfold MapTitleInformation.post.
    destruct (Py.bind (MapTitleInformation.json_loads E request_body) _)
      as [[[body has_service] list_keys] |];
      [| exists []; cbn; now rewrite app_nil_r].
    destruct (Py.truthy has_service).
    + destruct (Py.bind (MapTitleInformation.get_service E) _) as [keys |];
        [| exists []; cbn; now rewrite app_nil_r].
      destruct (service_loop_appends E keys 0 db) as [created Hc].
      exists created.
      destruct (MapTitleInformation.service_loop E 0 keys db) as [db' [[] | e]];
        exact Hc.
    + exists []. destruct (Py.bind (Py.getitem body "titles") _); cbn;
        now rewrite app_nil_r.
Qed.

(** C7 at a request naming a stored title once and a new title twice: the
    new title is created once. *)
Lemma C7_map_title_information_keeps_identifiers_unique_witness :
  NoDup (map Db.identifier
           (fst (MapTitleInformation.post
                   (Sample.map_env
                      (Py.PDict [("has_service", Py.PBool true);
                                 ("list_keys",
                                  Py.PList [Py.PStr "t1"; Py.PStr "t9"; Py.PStr "t9"])]))
                   "" Sample.library)))
  /\ map Db.identifier
       (fst (MapTitleInformation.post
               (Sample.map_env
                  (Py.PDict [("has_service", Py.PBool true);
                             ("list_keys",
                              Py.PList [Py.PStr "t1"; Py.PStr "t9"; Py.PStr "t9"])]))
               "" Sample.library))
     = [Py.PStr "t1"; Py.PStr "t2"; Py.PStr "t3"; Py.PStr "t4"; Py.PStr "t9"].
Proof.
  split; [| reflexivity].
  apply (C7_map_title_information_keeps_identifiers_unique
           (Sample.map_env
              (Py.PDict [("has_service", Py.PBool true);
                         ("list_keys",
                          Py.PList [Py.PStr "t1"; Py.PStr "t9"; Py.PStr "t9"])]))
           "" Sample.library).
  cbn. repeat (constructor; [cbn; intuition discriminate |]). constructor.
Defined.

(** ** [GetTextJSONFiles]: only empty texts are filled *)

Lemma text_only_changed_refl (t : Db.Title) : GetTextJSONFiles.text_only_changed t t.
Proof. unfold GetTextJSONFiles.text_only_changed. tauto. Qed.

Lemma text_only_changed_pks (db0 db : Db.table) :
  Forall2 GetTextJSONFiles.text_only_changed db0 db -> map Db.pk db = map Db.pk db0.
Proof.
  induction 1 as [| x y l l' Hxy _ IH]; [reflexivity |].
  cbn. destruct Hxy as (Hpk & _). now rewrite Hpk, IH.
Qed.

Lemma has_pk_In (k : Z) (db : Db.table) :
  Db.has_pk k db = true <-> In k (map Db.pk db).
Proof.
  unfold Db.has_pk. rewrite existsb_exists, in_map_iff. split.
  - intros (r & Hr & Heq). apply Z.eqb_eq in Heq. now exists r.
  - intros (r & Heq & Hr). exists r. split; [exact Hr | now apply Z.eqb_eq].
Qed.

Lemma update_row_frame (title : Db.Title) (merged_text : string) (db0 db : Db.table) :
  Forall2 GetTextJSONFiles.text_only_changed db0 db ->
  NoDup (map Db.pk db0) ->
  In title db0 ->
  Db.complete_text title = "" ->
  Forall2 GetTextJSONFiles.text_only_changed db0
    (Db.update_row (Db.set_complete_text title merged_text) db).
Proof.
  intros HR. induction HR as [| x y l l' Hxy Hll IH]; intros Hnd Hin Htext.
  - constructor.
  - cbn [Db.update_row Db.set_complete_text Db.pk].
    assert (Hpk : Db.pk y = Db.pk x) by apply Hxy.
    cbn [map] in Hnd. apply NoDup_cons_iff in Hnd. destruct Hnd as [Hx Hnd].
    destruct (Z.eqb_spec (Db.pk y) (Db.pk title)) as [Heq | Hne].
    + assert (title = x) as ->.
      { destruct Hin as [<- | Hin]; [reflexivity |].
        exfalso. apply Hx. rewrite <- Hpk, Heq. now apply in_map. }
      constructor; [| exact Hll].
      unfold GetTextJSONFiles.text_only_changed. cbn.
      repeat split; try reflexivity. intros Hnon. congruence.
    + constructor; [exact Hxy |]. apply IH; [exact Hnd | | exact Htext].
      destruct Hin as [<- | Hin]; [congruence | exact Hin].
Qed.

Lemma save_frame (title : Db.Title) (merged_text : string) (db0 db : Db.table) :
  Forall2 GetTextJSONFiles.text_only_changed db0 db ->
  NoDup (map Db.pk db0) ->
  In title db0 ->
  Db.complete_text title = "" ->
  Forall2 GetTextJSONFiles.text_only_changed db0
    (Db.save (Db.set_complete_text title merged_text) db).
Proof.
  intros HR Hnd Hin Htext. unfold Db.save.
  replace (Db.has_pk (Db.pk (Db.set_complete_text title merged_text)) db) with true.
  - now apply update_row_frame.
  - symmetry. apply has_pk_In. rewrite (text_only_changed_pks db0 db HR).
    cbn [Db.set_complete_text Db.pk]. now apply in_map.
Qed.

Lemma text_loop_frame (E : GetTextJSONFiles.env) (file_path : Py.pyval)
    (db0 : Db.table) (queryset : list Db.Title) :
  NoDup (map Db.pk db0) ->
  (forall t, In t queryset -> In t db0 /\ Db.complete_text t = "") ->
  forall (i : nat) (db : Db.table),
    Forall2 GetTextJSONFiles.text_only_changed db0 db ->
    Forall2 GetTextJSONFiles.text_only_changed db0
      (fst (GetTextJSONFiles.text_loop E file_path i queryset db)).
Proof.
  intros Hnd. induction queryset as [| title rest IH]; intros Hqs i db HR; [exact HR |].
  cbn [GetTextJSONFiles.text_loop].
  destruct (GetTextJSONFiles.process_json_file E i _) as [merged_text |]; [| exact HR].
  apply IH.
  - intros t Ht. apply Hqs. now right.
  - destruct (Hqs title (or_introl eq_refl)) as [Hin Htext].
    now apply save_frame.
Qed.

(** C8: [GetTextJSONFiles] with [process_all] false (primary keys being
    distinct) changes nothing but [complete_text], and that only of titles
    whose [complete_text] is empty: title by title, the table after the
    request holds the same Titles with the same key, identifier, publisher,
    theme, name and vector file, and every Title that had text is unchanged;
    none is created or removed. *)
Theorem C8_get_text_fills_only_empty_texts (E : GetTextJSONFiles.env)
    (request_body : string) (db : Db.table) :
  NoDup (map Db.pk db) ->
  (forall body flag,
      GetTextJSONFiles.json_loads E request_body = Py.Ok body ->
      Py.get body "process_all" (Py.PBool false) = Py.Ok flag ->
      Py.truthy flag = false) ->
  Forall2 GetTextJSONFiles.text_only_changed db
    (fst (GetTextJSONFiles.post E request_body db)).
Proof.
  intros Hnd Hflag.
  assert (Hrefl : Forall2 GetTextJSONFiles.text_only_changed db db).
  { clear. induction db; constructor; [apply text_only_changed_refl | assumption]. }
  unfold GetTextJSONFiles.post.
  destruct (GetTextJSONFiles.json_loads E request_body) as [body |] eqn:Hjson;
    cbn [Py.bind]; [| exact Hrefl].
  destruct (Py.get body "file_path" _) as [file_path |]; cbn [Py.bind]; [| exact Hrefl].
  destruct (Py.get body "process_all" _) as [flag |] eqn:Hget; cbn [Py.bind];
    [| exact Hrefl].
  destruct (GetTextJSONFiles.MapTitleTextJSONFiles E _) as [[] |]; cbn [Py.bind];
    [| exact Hrefl].
  rewrite (Hflag body flag eq_refl Hget).
  pose proof (text_loop_frame E file_path db
                (filter (fun t => String.eqb (Db.complete_text t) "") db) Hnd) as Hloop.
  specialize (Hloop (fun t Ht => match proj1 (filter_In _ _ _) Ht with
                                 | conj Hin Heq => conj Hin (proj1 (String.eqb_eq _ _) Heq)
                                 end) 0%nat db Hrefl).
  destruct (GetTextJSONFiles.text_loop E file_path 0 _ db) as [db' [[] | e]]; exact Hloop.
Qed.

(** C8 at the sample table: the one title without text is filled, the three
    others are as they were. *)
Lemma C8_get_text_fills_only_empty_texts_witness :
  Forall2 GetTextJSONFiles.text_only_changed Sample.library
    (fst (GetTextJSONFiles.post (Sample.text_env (Py.PDict [])) "" Sample.library))
  /\ map Db.complete_text
       (fst (GetTextJSONFiles.post (Sample.text_env (Py.PDict [])) "" Sample.library))
     = ["d"; "a c"; "a b"; "texto de /books/t4"].
Proof.
  split; [| reflexivity].
  apply (C8_get_text_fills_only_empty_texts (Sample.text_env (Py.PDict [])) ""
           Sample.library).
  - cbn. repeat (constructor; [cbn; intuition discriminate |]). constructor.
  - intros body flag Hbody Hflag. injection Hbody as <-. injection Hflag as <-.
    reflexivity.
Defined.

(** ** [PrepareTrainData]: which vector each title receives *)

Lemma lookup_update_row_same (t : Db.Title) (db : Db.table) :
  Db.has_pk (Db.pk t) db = true ->
  Db.lookup (Db.pk t) (Db.update_row t db) = Some t.
Proof.
  unfold Db.lookup, Db.has_pk. induction db as [| r db IH]; [discriminate |].
  cbn [existsb Db.update_row]. destruct (Z.eqb_spec (Db.pk r) (Db.pk t)) as [Heq | Hne].
  - intros _. cbn [find]. now rewrite Z.eqb_refl.
  - cbn [orb find]. intros H. destruct (Z.eqb_spec (Db.pk r) (Db.pk t)); [contradiction |].
    now apply IH.
Qed.

Lemma lookup_save_same (t : Db.Title) (db : Db.table) :
  Db.lookup (Db.pk t) (Db.save t db) = Some t.
Proof.
  unfold Db.save. destruct (Db.has_pk (Db.pk t) db) eqn:Hhas.
  - now apply lookup_update_row_same.
  - unfold Db.lookup, Db.has_pk in *. induction db as [| r db IH].
    + cbn. now rewrite Z.eqb_refl.
    + cbn [existsb] in Hhas. apply orb_false_iff in Hhas. destruct Hhas as [Hr Hdb].
      cbn [app find]. rewrite Hr. now apply IH.
Qed.

Lemma lookup_save_other (k : Z) (t : Db.Title) (db : Db.table) :
  k <> Db.pk t -> Db.lookup k (Db.save t db) = Db.lookup k db.
Proof.
  intros Hk. unfold Db.save, Db.lookup. destruct (Db.has_pk (Db.pk t) db).
  - induction db as [| r db IH]; [reflexivity |].
    cbn [Db.update_row]. destruct (Z.eqb_spec (Db.pk r) (Db.pk t)) as [Heq | Hne].
    + cbn [find]. destruct (Z.eqb_spec (Db.pk t) k); [congruence |].
      destruct (Z.eqb_spec (Db.pk r) k); [congruence | reflexivity].
    + cbn [find]. now rewrite IH.
  - induction db as [| r db IH].
    + cbn. destruct (Z.eqb_spec (Db.pk t) k); [congruence | reflexivity].
    + cbn [app find]. now rewrite IH.
Qed.

Lemma row_at_nth {A : Type} (m : Sparse.matrix A) (i : nat) :
  (i < List.length (Sparse.rows m))%nat ->
  Sparse.row_at m (Z.of_nat i) = Py.Ok (nth i (Sparse.rows m) []).
Proof.
  intros Hi. unfold Sparse.row_at, Sparse.shape0.
  destruct (Z.ltb_spec (Z.of_nat i) 0); [lia |].
  destruct (Z.ltb_spec (Z.of_nat i) 0); [lia |].
  destruct (Z.leb_spec (Z.of_nat (List.length (Sparse.rows m))) (Z.of_nat i)); [lia |].
  cbn [orb]. rewrite Nat2Z.id.
  now rewrite (nth_error_nth' (Sparse.rows m) [] Hi).
Qed.

Lemma take_rows_in_range {A : Type} (m : Sparse.matrix A) (idx : list Z) :
  Forall (fun i => 0 <= i < Sparse.shape0 m) idx ->
  Sparse.take_rows m idx
  = Py.Ok {| Sparse.rows := map (fun i => nth (Z.to_nat i) (Sparse.rows m) []) idx;
             Sparse.n_cols := Sparse.n_cols m |}.
Proof.
  intros Hidx. unfold Sparse.take_rows.
  assert (H : Sparse.rows_at m idx
              = Py.Ok (map (fun i => nth (Z.to_nat i) (Sparse.rows m) []) idx)).
  { induction Hidx as [| i idx Hi _ IH]; [reflexivity |].
    cbn [Sparse.rows_at map]. rewrite IH.
    rewrite <- (Z2Nat.id i) at 1 by lia.
    rewrite row_at_nth by (unfold Sparse.shape0 in Hi; lia). reflexivity. }
  now rewrite H.
Qed.

Lemma map_loop_lookup (E : PrepareTrainData.env) (vectors : Sparse.matrix nat)
    (queryset : list Db.Title) :
  NoDup (map Db.pk queryset) ->
  (forall n path, PrepareTrainData.np_savetxt E n path = Py.Ok tt) ->
  (forall i item, exists name, PrepareTrainData.vector_file_save E i item = Py.Ok name) ->
  forall (c : nat) (w : PrepareTrainData.world),
    (c + List.length queryset <= List.length (Sparse.rows vectors))%nat ->
    exists w',
      PrepareTrainData.map_loop E vectors (Z.of_nat c) queryset w = (w', Py.Ok tt)
      /\ (forall i item,
             nth_error queryset i = Some item ->
             exists name,
               PrepareTrainData.vector_file_save E (c + i) item = Py.Ok name
               /\ Db.lookup (Db.pk item) (PrepareTrainData.titles w')
                  = Some (Db.set_vector_file item
                            (name, nth (c + i) (Sparse.rows vectors) [])))
      /\ (forall k, ~ In k (map Db.pk queryset) ->
                    Db.lookup k (PrepareTrainData.titles w')
                    = Db.lookup k (PrepareTrainData.titles w)).
Proof.
  intros Hnd Hwrite Hsave.
  induction queryset as [| item rest IH]; intros c w Hlen.
  - exists w. split; [reflexivity |]. split; [| reflexivity].
    intros [| i] item H; discriminate.
  - cbn [map] in Hnd. apply NoDup_cons_iff in Hnd. destruct Hnd as [Hitem Hnd].
    cbn [List.length] in Hlen.
    cbn [PrepareTrainData.map_loop].
    unfold PrepareTrainData.mbind at 1, PrepareTrainData.lift at 1.
    rewrite row_at_nth by lia.
    unfold PrepareTrainData.mbind at 1, PrepareTrainData.savetxt at 1,
      PrepareTrainData.write_file at 1.
    rewrite Hwrite.
    unfold PrepareTrainData.mbind at 1, PrepareTrainData.lift at 1.
    rewrite Nat2Z.id. destruct (Hsave c item) as [name Hname]. rewrite Hname.
    unfold PrepareTrainData.mbind at 1, PrepareTrainData.save_title at 1.
    cbn [PrepareTrainData.titles PrepareTrainData.files PrepareTrainData.bucket].
    set (row := nth c (Sparse.rows vectors) []).
    set (w2 := {| PrepareTrainData.titles := _; PrepareTrainData.files := _;
                  PrepareTrainData.bucket := _ |}).
    replace (Z.of_nat c + 1) with (Z.of_nat (S c)) by lia.
    destruct (IH Hnd (S c) w2 ltac:(lia)) as (w' & Hrun & Hin & Hout).
    exists w'. split; [exact Hrun |]. split.
    + intros [| i] it Hnth; cbn [nth_error] in Hnth.
      * injection Hnth as <-. exists name. rewrite Nat.add_0_r.
        split; [exact Hname |]. rewrite (Hout (Db.pk item) Hitem).
        subst w2. cbn [PrepareTrainData.titles].
        apply (lookup_save_same (Db.set_vector_file item (name, row))).
      * replace (c + S i)%nat with (S c + i)%nat by lia. now apply Hin.
    + intros k Hk. cbn [map In] in Hk.
      rewrite Hout by tauto. subst w2. cbn [PrepareTrainData.titles].
      apply lookup_save_other. cbn. intros ->. tauto.
Qed.

Lemma distinct_keys_filter (keep : Db.Title -> bool) (db : list Db.Title) :
  NoDup (map Db.pk db) -> NoDup (map Db.pk (filter keep db)).
Proof.
  induction db as [| t db IH]; intros Hdb; [exact Hdb |].
  cbn [map] in Hdb. apply NoDup_cons_iff in Hdb. destruct Hdb as [Ht Hdb].
  cbn [filter]. destruct (keep t); [| now apply IH].
  cbn [map]. constructor; [| now apply IH].
  intros Hin. apply Ht. apply in_map_iff in Hin. destruct Hin as (u & Hu & Hin).
  apply filter_In in Hin. rewrite <- Hu. apply in_map. tauto.
Qed.

Lemma distinct_keys_firstn (k : nat) (db : list Db.Title) :
  NoDup (map Db.pk db) -> NoDup (map Db.pk (firstn k db)).
Proof.
  intros Hdb. rewrite <- (firstn_skipn k db), map_app in Hdb.
  now apply NoDup_app_remove_r in Hdb.
Qed.

Lemma In_firstn {A : Type} (k : nat) (l : list A) (x : A) :
  In x (firstn k l) -> In x l.
Proof.
  intros Hx. rewrite <- (firstn_skipn k l). apply in_or_app. now left.
Qed.

Lemma filter_all {A : Type} (p : A -> bool) (l : list A) :
  Forall (fun x => p x = true) l -> filter p l = l.
Proof.
  induction 1 as [| x l Hx _ IH]; [reflexivity |].
  cbn. now rewrite Hx, IH.
Qed.

Lemma Forall_filter_true {A : Type} (p : A -> bool) (l : list A) :
  Forall (fun x => p x = true) (filter p l).
Proof. apply Forall_forall. intros x Hx. now apply filter_In in Hx. Qed.

(** The queryset of [_get_title_queryset]: rows of the table that have text,
    under distinct primary keys; the table is only read. *)
Lemma get_title_queryset_spec (book_limit list_keys theme_filter : Py.pyval)
    (w w1 : PrepareTrainData.world) (queryset : list Db.Title) :
  PrepareTrainData._get_title_queryset book_limit list_keys theme_filter w
  = (w1, Py.Ok queryset) ->
  w1 = w
  /\ Forall (fun t => PrepareTrainData.has_text t = true) queryset
  /\ incl queryset (PrepareTrainData.titles w)
  /\ (NoDup (map Db.pk (PrepareTrainData.titles w)) -> NoDup (map Db.pk queryset)).
Proof.
  unfold PrepareTrainData._get_title_queryset. intros H.
  apply mbind_Ok in H. destruct H as (n & w2 & Hn & H).
  injection Hn as <- _.
  apply mbind_Ok in H. destruct H as (selected & w3 & Hsel & H).
  assert (Hselected : w3 = w /\ exists p, selected = filter p (PrepareTrainData.titles w)).
  { destruct (0 <? n).
    - apply mbind_Ok in Hsel. destruct Hsel as (keys & w4 & Hkeys & Hsel).
      injection Hkeys as <- _. injection Hsel as <- <-. split; [reflexivity |].
      eexists. reflexivity.
    - destruct (Py.truthy theme_filter).
      + injection Hsel as <- <-. split; [reflexivity |]. eexists. reflexivity.
      + injection Hsel as <- <-. split; [reflexivity |].
        exists (fun _ => true). symmetry. apply filter_all.
        apply Forall_forall. reflexivity. }
  destruct Hselected as (-> & p & ->). clear Hsel.
  set (ordered := Db.order_by_desc_pk _) in H.
  assert (Hperm : Permutation ordered
                    (filter PrepareTrainData.has_text (filter p (PrepareTrainData.titles w))))
    by apply sort_perm.
  assert (Htext : Forall (fun t => PrepareTrainData.has_text t = true) ordered).
  { eapply Permutation_Forall; [symmetry; exact Hperm | apply Forall_filter_true]. }
  assert (Hincl : incl ordered (PrepareTrainData.titles w)).
  { intros t Ht. eapply Permutation_in in Ht; [| exact Hperm].
    apply filter_In in Ht. destruct Ht as [Ht _]. now apply filter_In in Ht. }
  assert (Hnd : NoDup (map Db.pk (PrepareTrainData.titles w)) -> NoDup (map Db.pk ordered)).
  { intros Hw. eapply Permutation_NoDup; [apply Permutation_map; symmetry; exact Hperm |].
    now do 2 apply distinct_keys_filter. }
  clearbody ordered.
  apply mbind_Ok in H. destruct H as (limited & w5 & Hlim & H).
  injection Hlim as <- _.
  destruct limited.
  - apply mbind_Ok in H. destruct H as (k & w6 & Hk & H).
    injection Hk as <- _. injection H as <- <-.
    split; [reflexivity |]. split.
    { apply Forall_forall. intros t Ht. apply In_firstn in Ht.
      revert t Ht. now apply Forall_forall. }
    split.
    + intros t Ht. apply Hincl. eapply In_firstn. exact Ht.
    + intros Hw. apply distinct_keys_firstn. now apply Hnd.
  - injection H as <- <-. tauto.
Qed.

(** C5 (as amended): in [PrepareTrainData], for every queryset and every
    shuffle [new_index] (a permutation of the row numbers), in a run in which
    the writes to the book folder and the saves of the vector files return,
    the vector file attached to the title at position k of the queryset holds
    row k of the permuted matrix (the one dumped to vectors.joblib), that is
    row [new_index[k]] of the vectorizer's output: the bag-of-words vector
    computed from the text of the title at position [new_index[k]]; it is
    stored under the name the storage returned.  The title at position
    [new_index[k]] is the title itself exactly when [new_index[k] = k], and
    then the vector is that of its own text. *)
Theorem C5_vector_files_follow_the_shuffle (E : PrepareTrainData.env)
    (request_body : string) (w : PrepareTrainData.world)
    (body book_limit list_keys theme_filter : Py.pyval)
    (queryset : list Db.Title) (vocab : list string) (X : Sparse.matrix nat) :
  NoDup (map Db.pk (PrepareTrainData.titles w)) ->
  PrepareTrainData.json_loads E request_body = Py.Ok body ->
  Py.get body "book_limit" (Py.PInt 0) = Py.Ok book_limit ->
  Py.get body "list_keys" (Py.PList []) = Py.Ok list_keys ->
  Py.get body "theme" Py.PNone = Py.Ok theme_filter ->
  PrepareTrainData._get_title_queryset book_limit list_keys theme_filter w
  = (w, Py.Ok queryset) ->
  PrepareTrainData.fit_transform E (PrepareTrainData._get_titles_text queryset)
  = Py.Ok (vocab, X) ->
  Permutation (PrepareTrainData.permutation E (Seq.range (Sparse.shape0 X)))
              (Seq.range (Sparse.shape0 X)) ->
  (forall n path, PrepareTrainData.np_savetxt E n path = Py.Ok tt) ->
  (forall path, PrepareTrainData.joblib_dump E path = Py.Ok tt) ->
  (forall i item, exists name, PrepareTrainData.vector_file_save E i item = Py.Ok name) ->
  let new_index := PrepareTrainData.permutation E (Seq.range (Sparse.shape0 X)) in
  let vector_of := fun t : Db.Title =>
    Sklearn.bag vocab
      (Sklearn.analyze (PrepareTrainData.lower E) (PrepareTrainData.LTokenizer E)
         (PrepareTrainData.spanish_words E) (Db.complete_text t)) in
  let after := fst (PrepareTrainData.post E request_body w) in
  exists shuffled,
    Sparse.take_rows X new_index = Py.Ok shuffled
    /\ In ((PrepareTrainData.BOOK_PATH E ++ "/vectors.joblib")%string,
           PrepareTrainData.FMatrix shuffled) (PrepareTrainData.files after)
    /\ forall k item,
        nth_error queryset k = Some item ->
        exists j source name stored,
          nth_error new_index k = Some (Z.of_nat j)
          /\ nth_error queryset j = Some source
          /\ nth_error (Sparse.rows X) j = Some (vector_of source)
          /\ nth_error (Sparse.rows shuffled) k = Some (vector_of source)
          /\ PrepareTrainData.vector_file_save E k item = Py.Ok name
          /\ Db.lookup (Db.pk item) (PrepareTrainData.titles after) = Some stored
          /\ Db.vector_file stored = Some (name, vector_of source)
          /\ stored = Db.set_vector_file item (name, vector_of source)
          /\ (source = item <-> j = k)
          /\ (j = k -> Db.vector_file stored = Some (name, vector_of item)).
Proof.
  intros Hpk Hjson Hbl Hlk Htf Hq Hfit Hperm Hwrite Hdump Hsave new_index vector_of after.
  destruct (get_title_queryset_spec _ _ _ _ _ _ Hq) as (_ & Htext & _ & Hnd).
  specialize (Hnd Hpk).
  assert (Htexts : PrepareTrainData._get_titles_text queryset = map Db.complete_text queryset).
  { unfold PrepareTrainData._get_titles_text. now rewrite filter_all. }
  pose proof Hfit as Hspec. unfold PrepareTrainData.fit_transform in Hspec.
  apply fit_transform_spec in Hspec. destruct Hspec as (Hrows & _).
  rewrite Htexts, map_map in Hrows. fold vector_of in Hrows.
  assert (HN : Sparse.shape0 X = Z.of_nat (List.length queryset)).
  { unfold Sparse.shape0. now rewrite Hrows, length_map. }
  assert (Hrange : Forall (fun i => 0 <= i < Sparse.shape0 X) new_index).
  { apply Forall_forall. intros i Hi. apply range_in.
    eapply Permutation_in; [exact Hperm | exact Hi]. }
  assert (Hlen : List.length new_index = List.length queryset).
  { subst new_index. rewrite (Permutation_length Hperm), range_length. lia. }
  pose proof (take_rows_in_range X new_index Hrange) as Htake.
  set (shuffled := {| Sparse.rows := _; Sparse.n_cols := _ |}) in Htake.
  exists shuffled. split; [exact Htake |].
  (* the run, step by step *)
  assert (Hrun : exists w1 rest,
             PrepareTrainData.post E request_body w = rest w1
             /\ titles_kept rest /\ files_grow rest
             /\ In ((PrepareTrainData.BOOK_PATH E ++ "/vectors.joblib")%string,
                    PrepareTrainData.FMatrix shuffled) (PrepareTrainData.files w1)
             /\ forall i item,
                 nth_error queryset i = Some item ->
                 exists name,
                   PrepareTrainData.vector_file_save E i item = Py.Ok name
                   /\ Db.lookup (Db.pk item) (PrepareTrainData.titles w1)
                      = Some (Db.set_vector_file item
                                (name, nth i (Sparse.rows shuffled) []))).
  { unfold PrepareTrainData.post.
    unfold PrepareTrainData.mbind at 1, PrepareTrainData.lift at 1. rewrite Hjson.
    unfold PrepareTrainData.mbind at 1, PrepareTrainData.lift at 1. rewrite Hbl.
    unfold PrepareTrainData.mbind at 1, PrepareTrainData.lift at 1. rewrite Hlk.
    unfold PrepareTrainData.mbind at 1, PrepareTrainData.lift at 1. rewrite Htf.
    unfold PrepareTrainData.mbind at 1. rewrite Hq.
    unfold PrepareTrainData.mbind at 1, PrepareTrainData.lift at 1. rewrite Hfit.
    cbn [fst snd].
    unfold PrepareTrainData.mbind at 1, PrepareTrainData.savetxt at 1,
      PrepareTrainData.write_file at 1. rewrite Hwrite.
    unfold PrepareTrainData.mbind at 1, PrepareTrainData.savetxt at 1,
      PrepareTrainData.write_file at 1. rewrite Hwrite.
    unfold PrepareTrainData.mbind at 1, PrepareTrainData.savetxt at 1,
      PrepareTrainData.write_file at 1. rewrite Hwrite.
    unfold PrepareTrainData.mbind at 1, PrepareTrainData.lift at 1.
    fold new_index. rewrite Htake.
    unfold PrepareTrainData.mbind at 1, PrepareTrainData.dump at 1,
      PrepareTrainData.write_file at 1. rewrite Hdump.
    cbn [PrepareTrainData.titles PrepareTrainData.files PrepareTrainData.bucket].
    unfold PrepareTrainData.mbind at 1, PrepareTrainData._map_vectors_titles at 1.
    match goal with
    | |- context [PrepareTrainData.map_loop E shuffled 0 queryset ?w0] =>
        destruct (map_loop_lookup E shuffled queryset Hnd Hwrite Hsave 0 w0)
          as (w1 & Hloop & Hin & _);
          [subst shuffled; cbn [Sparse.rows]; rewrite length_map; lia |];
          pose proof (files_grow_map_loop E shuffled queryset 0 w0 w1 (Py.Ok tt) Hloop)
            as [more Hfiles]
    end.
    change (Z.of_nat 0) with 0 in Hloop. rewrite Hloop.
    eexists w1, _. split; [reflexivity |]. split; [| split; [| split]].
    - repeat (apply titles_kept_mbind; [| intros ?]); auto with stores.
    - repeat (apply files_grow_mbind; [| intros ?]); auto with stores.
    - rewrite Hfiles. cbn [PrepareTrainData.files]. rewrite !in_app_iff. cbn [In]. tauto.
    - exact Hin. }
  destruct Hrun as (w1 & rest & Hpost & Hkept & Hgrow & Hjoblib & Hlookup).
  assert (Htitles : PrepareTrainData.titles after = PrepareTrainData.titles w1).
  { subst after. rewrite Hpost. destruct (rest w1) as [wf rf] eqn:Hrest.
    now apply Hkept in Hrest. }
  assert (Hfiles : In ((PrepareTrainData.BOOK_PATH E ++ "/vectors.joblib")%string,
                       PrepareTrainData.FMatrix shuffled) (PrepareTrainData.files after)).
  { subst after. rewrite Hpost. destruct (rest w1) as [wf rf] eqn:Hrest.
    eapply file_stays; [exact Hgrow | exact Hrest | exact Hjoblib]. }
  split; [exact Hfiles |].
  intros k item Hk.
  assert (Hklt : (k < List.length queryset)%nat)
    by (apply nth_error_Some; congruence).
  destruct (nth_error new_index k) as [i |] eqn:Hi;
    [| apply nth_error_None in Hi; lia].
  assert (Hi_range : 0 <= i < Sparse.shape0 X).
  { eapply Forall_forall in Hrange; [exact Hrange |]. eapply nth_error_In. exact Hi. }
  set (j := Z.to_nat i).
  assert (Hj : (j < List.length queryset)%nat) by (subst j; lia).
  destruct (nth_error queryset j) as [source |] eqn:Hsource;
    [| apply nth_error_None in Hsource; lia].
  assert (HXj : nth_error (Sparse.rows X) j = Some (vector_of source)).
  { rewrite Hrows, nth_error_map, Hsource. reflexivity. }
  assert (Hshuf : nth_error (Sparse.rows shuffled) k = Some (vector_of source)).
  { subst shuffled. cbn [Sparse.rows]. rewrite nth_error_map, Hi. cbn [option_map].
    fold j. f_equal. eapply nth_error_nth in HXj. exact HXj. }
  destruct (Hlookup k item Hk) as (name & Hname & Hstored).
  assert (Hrow : nth k (Sparse.rows shuffled) [] = vector_of source)
    by (eapply nth_error_nth in Hshuf; exact Hshuf).
  rewrite Hrow in Hstored.
  assert (Hiff : source = item <-> j = k).
  { split.
    - intros ->. apply NoDup_map_inv in Hnd.
      apply (proj1 (NoDup_nth_error queryset) Hnd); [exact Hj | congruence].
    - intros ->. congruence. }
  exists j, source, name, (Db.set_vector_file item (name, vector_of source)).
  split; [f_equal; subst j; lia |].
  split; [exact Hsource |]. split; [exact HXj |]. split; [exact Hshuf |].
  split; [exact Hname |]. split; [now rewrite Htitles |].
  split; [reflexivity |]. split; [reflexivity |]. split; [exact Hiff |].
  intros Hjk. apply Hiff in Hjk. now subst source.
Qed.

(** C5 at the sample table, shuffled by reversal: the queryset is t3, t2, t1
    and the title t3, whose own text "a b" has vector [1], receives the
    vector [0] of the text "d" of t1. *)
Lemma C5_vector_files_follow_the_shuffle_witness :
  exists stored,
    Db.lookup 3
      (PrepareTrainData.titles
         (fst (PrepareTrainData.post (Sample.prepare_env (Py.PDict []) (@rev Z)) ""
                 (Sample.start Sample.library))))
    = Some stored
    /\ Db.vector_file stored = Some ("vector_file.csv", [0%nat]).
Proof.
  destruct (C5_vector_files_follow_the_shuffle
              (Sample.prepare_env (Py.PDict []) (@rev Z)) ""
              (Sample.start Sample.library)
              (Py.PDict []) (Py.PInt 0) (Py.PList []) Py.PNone
              [Sample.title 3 "t3" "a b"; Sample.title 2 "t2" "a c"; Sample.title 1 "t1" "d"]
              ["a"]
              {| Sparse.rows := [[1]; [1]; [0]]%nat; Sparse.n_cols := 1 |})
    as (shuffled & _ & _ & H).
  - cbn. repeat (constructor; [cbn; intuition discriminate |]). constructor.
  - reflexivity.
  - reflexivity.
  - reflexivity.
  - reflexivity.
  - vm_compute. reflexivity.
  - vm_compute. reflexivity.
  - apply Permutation_sym, Permutation_rev.
  - reflexivity.
  - reflexivity.
  - intros i item. eexists. reflexivity.
  - destruct (H 0%nat (Sample.title 3 "t3" "a b") eq_refl)
      as (j & source & name & stored & Hj & Hsource & _ & _ & Hname & Hlookup & Hvector & _).
    change (Some 2 = Some (Z.of_nat j)) in Hj. injection Hj as Hj.
    assert (j = 2%nat) as -> by lia.
    injection Hsource as <-. injection Hname as <-.
    exists stored. split; [exact Hlookup | exact Hvector].
Defined.

(** C5 as stated fails in its last part: with the first two row numbers
    swapped, the title t3 at position 0 has [new_index[0] = 1], and yet the
    vector it receives, that of the text "a c" of t2, is the vector [1]
    computed from its own text "a b". *)
Lemma C5_counterexample :
  PrepareTrainData.permutation (Sample.prepare_env (Py.PDict []) Sample.swap_first_two)
    (Seq.range 3) = [1; 0; 2]
  /\ PrepareTrainData.fit_transform
       (Sample.prepare_env (Py.PDict []) Sample.swap_first_two) ["a b"; "a c"; "d"]
     = Py.Ok (["a"], {| Sparse.rows := [[1]; [1]; [0]]%nat; Sparse.n_cols := 1 |})
  /\ (exists stored,
        Db.lookup 3
          (PrepareTrainData.titles
             (fst (PrepareTrainData.post
                     (Sample.prepare_env (Py.PDict []) Sample.swap_first_two) ""
                     (Sample.start Sample.library))))
        = Some stored
        /\ Db.vector_file stored
           = Some ("vector_file.csv",
                   Sklearn.bag ["a"]
                     (Sklearn.analyze (fun s => s) Sample.split_blanks ["de"; "la"] "a b")))
  /\ ~ (forall k item stored,
          nth_error [Sample.title 3 "t3" "a b"; Sample.title 2 "t2" "a c";
                     Sample.title 1 "t1" "d"] k = Some item ->
          Db.lookup (Db.pk item)
            (PrepareTrainData.titles
               (fst (PrepareTrainData.post
                       (Sample.prepare_env (Py.PDict []) Sample.swap_first_two) ""
                       (Sample.start Sample.library))))
          = Some stored ->
          Db.vector_file stored
          = Some ("vector_file.csv",
                  Sklearn.bag ["a"]
                    (Sklearn.analyze (fun s => s) Sample.split_blanks ["de"; "la"]
                       (Db.complete_text item))) ->
          nth_error [1; 0; 2] k = Some (Z.of_nat k)).
Proof.
  split; [reflexivity |]. split; [vm_compute; reflexivity |]. split.
  - eexists. split; [vm_compute; reflexivity | vm_compute; reflexivity].
  - intros H.
    specialize (H 0%nat (Sample.title 3 "t3" "a b")
                  (Db.set_vector_file (Sample.title 3 "t3" "a b") ("vector_file.csv", [1%nat]))
                  eq_refl).
    discriminate H; vm_compute; reflexivity.
Qed.

(** * Further properties *)

(** ** [MapTitleInformation]: the two branches of [post] *)

(** X1: The branch without service creates nothing: an empty "titles" list is
    answered with HTTP 200, and a list with at least one item raises
    NotImplementedError at its first item; the table is as it was. *)
Theorem bulk_branch_is_not_implemented (E : MapTitleInformation.env)
    (request_body : string) (db : Db.table) (body has_service : Py.pyval) :
  MapTitleInformation.json_loads E request_body = Py.Ok body ->
  Py.getitem body "has_service" = Py.Ok has_service ->
  Py.truthy has_service = false ->
  fst (MapTitleInformation.post E request_body db) = db
  /\ forall titles items,
      Py.getitem body "titles" = Py.Ok titles ->
      Py.iter titles = Py.Ok items ->
      MapTitleInformation.post E request_body db
      = (db, match items with
             | [] => Py.Ok MapTitleInformation.ok_response
             | _ :: _ => Py.raise Py.NotImplementedError "Method not implemented yet"
             end).
Proof.
  intros Hjson Hservice Hfalse. unfold MapTitleInformation.post.
  rewrite Hjson. cbn [Py.bind]. rewrite Hservice. cbn [Py.bind].
  assert (Hget : exists v, Py.get body "list_keys" Py.PNone = Py.Ok v).
  { destruct body; try discriminate. eexists. reflexivity. }
  destruct Hget as [list_keys ->]. cbn [Py.bind]. rewrite Hfalse. split.
  - destruct (Py.bind (Py.getitem body "titles") _); reflexivity.
  - intros titles items -> . cbn [Py.bind]. intros ->. cbn [Py.bind].
    destruct items; reflexivity.
Qed.

Lemma bulk_branch_is_not_implemented_witness :
  MapTitleInformation.post
    (Sample.map_env (Py.PDict [("has_service", Py.PBool false);
                               ("titles", Py.PList [Sample.service_title "t9"])]))
    "" Sample.library
  = (Sample.library, Py.raise Py.NotImplementedError "Method not implemented yet").
Proof.
  apply (proj2 (bulk_branch_is_not_implemented
                  (Sample.map_env (Py.PDict [("has_service", Py.PBool false);
                                             ("titles", Py.PList [Sample.service_title "t9"])]))
                  "" Sample.library
                  (Py.PDict [("has_service", Py.PBool false);
                             ("titles", Py.PList [Sample.service_title "t9"])])
                  (Py.PBool false) eq_refl eq_refl eq_refl)
           (Py.PList [Sample.service_title "t9"]) [Sample.service_title "t9"]
           eq_refl eq_refl).
Defined.

Lemma exists_identifier_app (v : Py.pyval) (db more : Db.table) :
  MapTitleInformation.exists_identifier v db = true ->
  MapTitleInformation.exists_identifier v (db ++ more) = true.
Proof.
  unfold MapTitleInformation.exists_identifier. rewrite existsb_app.
  intros ->. reflexivity.
Qed.

(** After [_create_title_from_service] has returned, the dict's [sync_key]
    is a stored identifier. *)
Lemma create_title_from_service_stores (title sync_key : Py.pyval) (db db1 : Db.table) :
  MapTitleInformation._create_title_from_service title db = (db1, Py.Ok tt) ->
  Py.get title "sync_key" Py.PNone = Py.Ok sync_key ->
  MapTitleInformation.exists_identifier sync_key db1 = true.
Proof.
  unfold MapTitleInformation._create_title_from_service. intros Hrun Hkey.
  rewrite Hkey in Hrun.
  destruct (MapTitleInformation.exists_identifier sync_key db) eqn:Hex.
  - now injection Hrun as <-.
  - destruct (Py.get title "theme" Py.PNone) as [th |]; cbn [Py.bind] in Hrun;
      [| discriminate].
    match type of Hrun with
    | context [Py.bind ?m _] => destruct m as [theme |]; cbn [Py.bind] in Hrun;
                                  [| discriminate]
    end.
    destruct (Py.get title "publisher" Py.PNone) as [pub |]; cbn [Py.bind] in Hrun;
      [| discriminate].
    destruct (Py.getitem pub "name") as [pub_name |]; cbn [Py.bind] in Hrun;
      [| discriminate].
    destruct (Py.get title "title_name" Py.PNone) as [title_name |];
      cbn [Py.bind] in Hrun; [| discriminate].
    injection Hrun as <-. unfold Db.create, MapTitleInformation.exists_identifier.
    rewrite existsb_app. cbn. now rewrite pyval_eqb_refl, orb_true_r.
Qed.

Lemma create_title_from_service_Ok_dict (title : Py.pyval) (db db1 : Db.table) :
  MapTitleInformation._create_title_from_service title db = (db1, Py.Ok tt) ->
  exists sync_key, Py.get title "sync_key" Py.PNone = Py.Ok sync_key.
Proof.
  unfold MapTitleInformation._create_title_from_service.
  destruct (Py.get title "sync_key" Py.PNone) as [sync_key |]; [| discriminate].
  intros _. now exists sync_key.
Qed.

Lemma service_loop_grows (E : MapTitleInformation.env) (keys : list Py.pyval)
    (i : nat) (db db' : Db.table) (r : Py.res unit) (v : Py.pyval) :
  MapTitleInformation.service_loop E i keys db = (db', r) ->
  MapTitleInformation.exists_identifier v db = true ->
  MapTitleInformation.exists_identifier v db' = true.
Proof.
  intros Hrun Hv. destruct (service_loop_appends E keys i db) as [created Hc].
  rewrite Hrun in Hc. cbn [fst] in Hc. subst db'. now apply exists_identifier_app.
Qed.

Lemma create_grows (title : Py.pyval) (db db1 : Db.table) (r : Py.res unit) (v : Py.pyval) :
  MapTitleInformation._create_title_from_service title db = (db1, r) ->
  MapTitleInformation.exists_identifier v db = true ->
  MapTitleInformation.exists_identifier v db1 = true.
Proof.
  intros Hrun Hv.
  destruct (create_title_from_service_cases title db) as [H | (a & p & t & n & H & _)];
    rewrite Hrun in H; cbn [fst] in H; subst db1; [exact Hv |].
  unfold Db.create. now apply exists_identifier_app.
Qed.

(** Replaying the keys over a table that holds every identifier of the first
    run's result creates nothing. *)
Lemma service_loop_replay (E : MapTitleInformation.env) (keys : list Py.pyval) :
  forall (i : nat) (db db' big : Db.table),
    MapTitleInformation.service_loop E i keys db = (db', Py.Ok tt) ->
    (forall v, MapTitleInformation.exists_identifier v db' = true ->
               MapTitleInformation.exists_identifier v big = true) ->
    MapTitleInformation.service_loop E i keys big = (big, Py.Ok tt).
Proof.
  induction keys as [| key rest IH]; intros i db db' big Hrun Hbig; [reflexivity |].
  cbn [MapTitleInformation.service_loop] in *.
  destruct (MapTitleInformation.get_title E i key) as [title |]; [| discriminate].
  destruct (Py.truthy title); [| eapply IH; eassumption].
  destruct (MapTitleInformation._create_title_from_service title db)
    as [db1 [[] | e]] eqn:Hcreate; [| discriminate].
  destruct (create_title_from_service_Ok_dict title db db1 Hcreate) as [sync_key Hkey].
  pose proof (create_title_from_service_stores title sync_key db db1 Hcreate Hkey) as Hs.
  pose proof (service_loop_grows E rest (S i) db1 db' (Py.Ok tt) sync_key Hrun Hs) as Hs'.
  unfold MapTitleInformation._create_title_from_service at 1.
  rewrite Hkey, (Hbig sync_key Hs'). eapply IH; eassumption.
Qed.

Lemma service_loop_result_unit (E : MapTitleInformation.env) (keys : list Py.pyval)
    (i : nat) (db db' : Db.table) (u : unit) :
  MapTitleInformation.service_loop E i keys db = (db', Py.Ok u) ->
  MapTitleInformation.service_loop E i keys db = (db', Py.Ok tt).
Proof. now destruct u. Qed.

(** X2: A request that was answered can be sent again: when the service answers
    as it did, the second time nothing is created and the answer is the same.  (Each title the service returned is
    stored under its [sync_key] after the first request.) *)
Theorem map_title_information_is_idempotent (E : MapTitleInformation.env)
    (request_body : string) (db db' : Db.table) (r : Rest.Response) :
  MapTitleInformation.post E request_body db = (db', Py.Ok r) ->
  MapTitleInformation.post E request_body db' = (db', Py.Ok r).
Proof.
  unfold MapTitleInformation.post.
  destruct (Py.bind (MapTitleInformation.json_loads E request_body) _)
    as [[[body has_service] list_keys] |]; [| discriminate].
  destruct (Py.truthy has_service).
  - destruct (Py.bind (MapTitleInformation.get_service E) _) as [keys |]; [| discriminate].
    destruct (MapTitleInformation.service_loop E 0 keys db) as [db1 [u | e]] eqn:Hloop;
      [| discriminate].
    intros [= <- <-]. apply service_loop_result_unit in Hloop.
    now rewrite (service_loop_replay E keys 0 db db1 db1 Hloop (fun v H => H)).
  - destruct (Py.bind (Py.getitem body "titles") _); [| discriminate].
    now intros [= <- <-].
Qed.

Lemma map_title_information_is_idempotent_witness :
  exists db' r,
    MapTitleInformation.post
      (Sample.map_env (Py.PDict [("has_service", Py.PBool true);
                                 ("list_keys", Py.PList [Py.PStr "t1"; Py.PStr "t9"])]))
      "" Sample.library = (db', Py.Ok r)
    /\ List.length db' = 5%nat
    /\ MapTitleInformation.post
         (Sample.map_env (Py.PDict [("has_service", Py.PBool true);
                                    ("list_keys", Py.PList [Py.PStr "t1"; Py.PStr "t9"])]))
         "" db' = (db', Py.Ok r).
Proof.
  eexists _, _. split; [reflexivity |]. split; [reflexivity |].
  apply (map_title_information_is_idempotent
           (Sample.map_env (Py.PDict [("has_service", Py.PBool true);
                                      ("list_keys", Py.PList [Py.PStr "t1"; Py.PStr "t9"])]))
           "" Sample.library).
  reflexivity.
Defined.





(** ** [MapTitleInformation]: every title the service returned is stored *)

Lemma service_loop_visits (E : MapTitleInformation.env) (keys : list Py.pyval) :
  forall (i0 : nat) (db db' : Db.table),
    MapTitleInformation.service_loop E i0 keys db = (db', Py.Ok tt) ->
    forall i key title,
      nth_error keys i = Some key ->
      MapTitleInformation.get_title E (i0 + i) key = Py.Ok title ->
      Py.truthy title = true ->
      exists sync_key,
        Py.get title "sync_key" Py.PNone = Py.Ok sync_key
        /\ MapTitleInformation.exists_identifier sync_key db' = true.
Proof.
  induction keys as [| k rest IH]; intros i0 db db' Hrun i key title Hnth Hcall Htruthy.
  - destruct i; discriminate.
  - cbn [MapTitleInformation.service_loop] in Hrun.
    destruct i as [| i]; cbn [nth_error] in Hnth.
    + injection Hnth as ->. rewrite Nat.add_0_r in Hcall. rewrite Hcall, Htruthy in Hrun.
      destruct (MapTitleInformation._create_title_from_service title db)
        as [db1 [[] | e]] eqn:Hcreate; [| discriminate].
      destruct (create_title_from_service_Ok_dict title db db1 Hcreate) as [sync_key Hkey].
      exists sync_key. split; [exact Hkey |].
      eapply service_loop_grows; [exact Hrun |].
      eapply create_title_from_service_stores; eassumption.
    + replace (i0 + S i)%nat with (S i0 + i)%nat in Hcall by lia.
      destruct (MapTitleInformation.get_title E i0 k) as [t0 |]; [| discriminate].
      destruct (Py.truthy t0).
      * destruct (MapTitleInformation._create_title_from_service t0 db)
          as [db1 [[] | e]]; [| discriminate].
        eapply IH; eassumption.
      * eapply IH; eassumption.
Qed.

(** X4: After an answered request of the service branch, every non-empty
    title the service returned for a key of [list_keys] is a dictionary, and
    a Title whose identifier is [title.get("sync_key")], the value of that
    key or None when the title has no such key, is in the table. *)
Theorem map_title_information_stores_every_returned_title
    (E : MapTitleInformation.env) (request_body : string) (db db' : Db.table)
    (body has_service list_keys : Py.pyval) (keys : list Py.pyval) (r : Rest.Response) :
  MapTitleInformation.json_loads E request_body = Py.Ok body ->
  Py.getitem body "has_service" = Py.Ok has_service ->
  Py.truthy has_service = true ->
  Py.get body "list_keys" Py.PNone = Py.Ok list_keys ->
  Py.iter list_keys = Py.Ok keys ->
  MapTitleInformation.post E request_body db = (db', Py.Ok r) ->
  forall i key title,
    nth_error keys i = Some key ->
    MapTitleInformation.get_title E i key = Py.Ok title ->
    Py.truthy title = true ->
    exists fields row,
      title = Py.PDict fields
      /\ In row db'
      /\ Py.pyval_eqb (Db.identifier row)
           (match Py.assoc "sync_key" fields with
            | Some sync_key => sync_key
            | None => Py.PNone
            end) = true.
Proof.
  intros Hjson Hservice Htruthy Hkeys Hiter Hpost i key title Hnth Hcall Htitle.
  unfold MapTitleInformation.post in Hpost.
  rewrite Hjson in Hpost. cbn [Py.bind] in Hpost.
  rewrite Hservice in Hpost. cbn [Py.bind] in Hpost.
  rewrite Hkeys in Hpost. cbn [Py.bind] in Hpost. rewrite Htruthy in Hpost.
  destruct (MapTitleInformation.get_service E) as [[] |]; [| discriminate].
  cbn [Py.bind] in Hpost. rewrite Hiter in Hpost.
  destruct (MapTitleInformation.service_loop E 0 keys db) as [db1 [[] | e]] eqn:Hloop;
    [| discriminate].
  injection Hpost as <- _.
  destruct (service_loop_visits E keys 0 db db1 Hloop i key title Hnth Hcall Htitle)
    as (sync_key & Hkey & Hstored).
  unfold MapTitleInformation.exists_identifier in Hstored.
  apply existsb_exists in Hstored. destruct Hstored as (row & Hrow & Heq).
  destruct title as [| | | | | | fields]; try discriminate Hkey.
  injection Hkey as <-. exists fields, row. auto.
Qed.

Lemma map_title_information_stores_every_returned_title_witness :
  exists row,
    In row (fst (MapTitleInformation.post
                   (Sample.map_env (Py.PDict [("has_service", Py.PBool true);
                                              ("list_keys", Py.PList [Py.PStr "t1"; Py.PStr "t9"])]))
                   "" Sample.library))
    /\ Py.pyval_eqb (Db.identifier row) (Py.PStr "t9") = true.
Proof.
  edestruct (map_title_information_stores_every_returned_title
               (Sample.map_env (Py.PDict [("has_service", Py.PBool true);
                                          ("list_keys", Py.PList [Py.PStr "t1"; Py.PStr "t9"])]))
               "" Sample.library)
    with (i := 1%nat) (key := Py.PStr "t9") (title := Sample.service_title "t9")
    as (fields & row & Hfields & Hrow & Heq);
    [ reflexivity | reflexivity | reflexivity | reflexivity | reflexivity
    | vm_compute; reflexivity | reflexivity | reflexivity | reflexivity | ].
  injection Hfields as <-. exists row. split; [exact Hrow | exact Heq].
Defined.

(** ** [GetTextJSONFiles]: what a request stores *)

Lemma distinct_keys_injective (db : list Db.Title) (t u : Db.Title) :
  NoDup (map Db.pk db) -> In t db -> In u db -> Db.pk t = Db.pk u -> t = u.
Proof.
  induction db as [| r db IH]; intros Hnd Ht Hu Hpk; [contradiction |].
  cbn [map] in Hnd. apply NoDup_cons_iff in Hnd. destruct Hnd as [Hr Hnd].
  destruct Ht as [<- | Ht], Hu as [<- | Hu].
  - reflexivity.
  - exfalso. apply Hr. rewrite Hpk. now apply in_map.
  - exfalso. apply Hr. rewrite <- Hpk. now apply in_map.
  - now apply IH.
Qed.

Lemma lookup_stored (db : Db.table) (t : Db.Title) :
  NoDup (map Db.pk db) -> In t db -> Db.lookup (Db.pk t) db = Some t.
Proof.
  unfold Db.lookup. induction db as [| r db IH]; intros Hnd Ht; [contradiction |].
  cbn [find]. destruct (Z.eqb_spec (Db.pk r) (Db.pk t)) as [Heq | Hne].
  - f_equal. apply (distinct_keys_injective (r :: db)); cbn; auto.
  - destruct Ht as [<- | Ht]; [congruence |].
    cbn [map] in Hnd. apply NoDup_cons_iff in Hnd. now apply IH.
Qed.

Lemma text_loop_lookup (E : GetTextJSONFiles.env) (file_path : Py.pyval)
    (queryset : list Db.Title) :
  NoDup (map Db.pk queryset) ->
  forall (i0 : nat) (db db' : Db.table),
    GetTextJSONFiles.text_loop E file_path i0 queryset db = (db', Py.Ok tt) ->
    (forall i t,
        nth_error queryset i = Some t ->
        exists text,
          GetTextJSONFiles.process_json_file E (i0 + i) (text_folder E file_path t)
          = Py.Ok text
          /\ Db.lookup (Db.pk t) db' = Some (Db.set_complete_text t text))
    /\ (forall k, ~ In k (map Db.pk queryset) -> Db.lookup k db' = Db.lookup k db).
Proof.
  induction queryset as [| title rest IH]; intros Hnd i0 db db' Hrun.
  - injection Hrun as <-. split; [| reflexivity]. intros [| i] t H; discriminate.
  - cbn [map] in Hnd. apply NoDup_cons_iff in Hnd. destruct Hnd as [Htitle Hnd].
    cbn [GetTextJSONFiles.text_loop] in Hrun. fold (text_folder E file_path title) in Hrun.
    destruct (GetTextJSONFiles.process_json_file E i0 (text_folder E file_path title))
      as [merged_text |] eqn:Hcall; [| discriminate].
    destruct (IH Hnd (S i0) _ db' Hrun) as [Hin Hout]. split.
    + intros [| i] t Hnth; cbn [nth_error] in Hnth.
      * injection Hnth as <-. exists merged_text. rewrite Nat.add_0_r.
        split; [exact Hcall |]. rewrite (Hout (Db.pk title) Htitle).
        apply (lookup_save_same (Db.set_complete_text title merged_text)).
      * replace (i0 + S i)%nat with (S i0 + i)%nat by lia. now apply Hin.
    + intros k Hk. cbn [map In] in Hk. rewrite Hout by tauto.
      apply lookup_save_other. cbn. intros ->. tauto.
Qed.

Lemma text_loop_stops (E : GetTextJSONFiles.env) (file_path : Py.pyval)
    (queryset : list Db.Title) :
  forall (i0 : nat) (db db' : Db.table) (e : Py.exn),
    GetTextJSONFiles.text_loop E file_path i0 queryset db = (db', Py.Raise e) ->
    exists j t,
      nth_error queryset j = Some t
      /\ GetTextJSONFiles.process_json_file E (i0 + j) (text_folder E file_path t)
         = Py.Raise e
      /\ GetTextJSONFiles.text_loop E file_path i0 (firstn j queryset) db = (db', Py.Ok tt).
Proof.
  induction queryset as [| title rest IH]; intros i0 db db' e Hrun; [discriminate |].
  cbn [GetTextJSONFiles.text_loop] in Hrun. fold (text_folder E file_path title) in Hrun.
  destruct (GetTextJSONFiles.process_json_file E i0 (text_folder E file_path title))
    as [merged_text | e0] eqn:Hcall.
  - destruct (IH (S i0) _ db' e Hrun) as (j & t & Hnth & Hfail & Hprefix).
    exists (S j), t. split; [exact Hnth |]. split.
    + now replace (i0 + S j)%nat with (S i0 + j)%nat by lia.
    + cbn [firstn GetTextJSONFiles.text_loop]. fold (text_folder E file_path title).
      now rewrite Hcall.
  - injection Hrun as <- <-. exists 0%nat, title. rewrite Nat.add_0_r.
    split; [reflexivity |]. split; [exact Hcall | reflexivity].
Qed.

Lemma text_queryset_incl (flag : Py.pyval) (db : Db.table) : incl (text_queryset flag db) db.
Proof.
  unfold text_queryset. destruct (Py.truthy flag); intros t Ht; [exact Ht |].
  now apply filter_In in Ht.
Qed.

Lemma text_queryset_distinct (flag : Py.pyval) (db : Db.table) :
  NoDup (map Db.pk db) -> NoDup (map Db.pk (text_queryset flag db)).
Proof.
  unfold text_queryset. destruct (Py.truthy flag); [auto | apply distinct_keys_filter].
Qed.

Lemma get_text_post_unfold (E : GetTextJSONFiles.env) (request_body : string)
    (db : Db.table) (body file_path flag : Py.pyval) :
  GetTextJSONFiles.json_loads E request_body = Py.Ok body ->
  Py.get body "file_path" (Py.PStr (GetTextJSONFiles.BOOK_PATH E)) = Py.Ok file_path ->
  Py.get body "process_all" (Py.PBool false) = Py.Ok flag ->
  GetTextJSONFiles.post E request_body db
  = match GetTextJSONFiles.MapTitleTextJSONFiles E (GetTextJSONFiles.BOOK_PATH E) with
    | Py.Raise e => (db, Py.Raise e)
    | Py.Ok _ =>
        match GetTextJSONFiles.text_loop E file_path 0 (text_queryset flag db) db with
        | (db', Py.Ok _) => (db', Py.Ok GetTextJSONFiles.ok_response)
        | (db', Py.Raise e) => (db', Py.Raise e)
        end
    end.
Proof.
  intros Hjson Hpath Hflag. unfold GetTextJSONFiles.post, text_queryset.
  rewrite Hjson. cbn [Py.bind]. rewrite Hpath. cbn [Py.bind]. rewrite Hflag. cbn [Py.bind].
  destruct (GetTextJSONFiles.MapTitleTextJSONFiles E _); reflexivity.
Qed.

(** X5: A request that is answered has stored, for the [i]-th title it selects
    (every title when [process_all] is true, the titles without text
    otherwise), the text that the [i]-th call of [process_json_file] returned
    for the folder [file_path/identifier]; the titles it does not select are
    stored as they were. *)
Theorem get_text_stores_the_extracted_texts (E : GetTextJSONFiles.env)
    (request_body : string) (db db' : Db.table) (body file_path flag : Py.pyval)
    (r : Rest.Response) :
  NoDup (map Db.pk db) ->
  GetTextJSONFiles.json_loads E request_body = Py.Ok body ->
  Py.get body "file_path" (Py.PStr (GetTextJSONFiles.BOOK_PATH E)) = Py.Ok file_path ->
  Py.get body "process_all" (Py.PBool false) = Py.Ok flag ->
  GetTextJSONFiles.post E request_body db = (db', Py.Ok r) ->
  (forall i t,
      nth_error (text_queryset flag db) i = Some t ->
      exists text,
        GetTextJSONFiles.process_json_file E i (text_folder E file_path t) = Py.Ok text
        /\ Db.lookup (Db.pk t) db' = Some (Db.set_complete_text t text))
  /\ (forall t, In t db -> ~ In t (text_queryset flag db) ->
                Db.lookup (Db.pk t) db' = Some t).
Proof.
  intros Hnd Hjson Hpath Hflag.
  rewrite (get_text_post_unfold E request_body db body file_path flag Hjson Hpath Hflag).
  destruct (GetTextJSONFiles.MapTitleTextJSONFiles E _) as [[] |]; [| discriminate].
  destruct (GetTextJSONFiles.text_loop E file_path 0 (text_queryset flag db) db)
    as [db1 [[] | e]] eqn:Hloop; [| discriminate].
  intros [= <- _].
  destruct (text_loop_lookup E file_path (text_queryset flag db)
              (text_queryset_distinct flag db Hnd) 0 db db1 Hloop) as [Hin Hout].
  split; [exact Hin |].
  intros t Ht Hnot. rewrite Hout; [now apply lookup_stored |].
  intros Hpk. apply in_map_iff in Hpk. destruct Hpk as (u & Hpk & Hu).
  apply Hnot. replace t with u; [exact Hu |].
  apply (distinct_keys_injective db); auto. now apply text_queryset_incl in Hu.
Qed.

Lemma get_text_stores_the_extracted_texts_witness :
  exists text,
    GetTextJSONFiles.process_json_file (Sample.text_env (Py.PDict [])) 0 "/books/t4"
    = Py.Ok text
    /\ Db.lookup 4 (fst (GetTextJSONFiles.post (Sample.text_env (Py.PDict [])) ""
                           Sample.library))
       = Some (Db.set_complete_text (Sample.title 4 "t4" "") text).
Proof.
  edestruct (get_text_stores_the_extracted_texts (Sample.text_env (Py.PDict [])) ""
               Sample.library)
    with (body := Py.PDict []) (file_path := Py.PStr "/books") (flag := Py.PBool false)
    as [Hin _];
    [ cbn; repeat (constructor; [cbn; intuition discriminate |]); constructor
    | reflexivity | reflexivity | reflexivity | vm_compute; reflexivity | ].
  destruct (Hin 0%nat (Sample.title 4 "t4" "") eq_refl) as (text & Hcall & Hlookup).
  exists text. split; [exact Hcall | exact Hlookup].
Defined.

(** X6: When the extractor raises, the request raises the same exception at the
    first folder that failed; the texts extracted before it are stored, and
    every other title (the one that failed, the later ones, those not
    selected) is stored as it was. *)
Theorem get_text_failure_keeps_earlier_texts (E : GetTextJSONFiles.env)
    (request_body : string) (db db' : Db.table) (body file_path flag : Py.pyval)
    (e : Py.exn) :
  NoDup (map Db.pk db) ->
  GetTextJSONFiles.json_loads E request_body = Py.Ok body ->
  Py.get body "file_path" (Py.PStr (GetTextJSONFiles.BOOK_PATH E)) = Py.Ok file_path ->
  Py.get body "process_all" (Py.PBool false) = Py.Ok flag ->
  GetTextJSONFiles.MapTitleTextJSONFiles E (GetTextJSONFiles.BOOK_PATH E) = Py.Ok tt ->
  GetTextJSONFiles.post E request_body db = (db', Py.Raise e) ->
  exists j t,
    nth_error (text_queryset flag db) j = Some t
    /\ GetTextJSONFiles.process_json_file E j (text_folder E file_path t) = Py.Raise e
    /\ (forall i u,
           (i < j)%nat ->
           nth_error (text_queryset flag db) i = Some u ->
           exists text,
             GetTextJSONFiles.process_json_file E i (text_folder E file_path u)
             = Py.Ok text
             /\ Db.lookup (Db.pk u) db' = Some (Db.set_complete_text u text))
    /\ (forall u, In u db -> ~ In u (firstn j (text_queryset flag db)) ->
                  Db.lookup (Db.pk u) db' = Some u).
Proof.
  intros Hnd Hjson Hpath Hflag Hctor.
  rewrite (get_text_post_unfold E request_body db body file_path flag Hjson Hpath Hflag).
  rewrite Hctor.
  destruct (GetTextJSONFiles.text_loop E file_path 0 (text_queryset flag db) db)
    as [db1 [[] | e1]] eqn:Hloop; [discriminate |].
  intros [= <- <-].
  destruct (text_loop_stops E file_path _ 0 db db1 e1 Hloop)
    as (j & t & Hnth & Hfail & Hprefix).
  pose proof (text_queryset_distinct flag db Hnd) as Hqs.
  destruct (text_loop_lookup E file_path (firstn j (text_queryset flag db))
              (distinct_keys_firstn j _ Hqs) 0 db db1 Hprefix) as [Hin Hout].
  exists j, t. split; [exact Hnth |]. split; [exact Hfail |]. split.
  - intros i u Hi Hu. apply (Hin i u). rewrite nth_error_firstn.
    apply Nat.ltb_lt in Hi. now rewrite Hi.
  - intros u Hu Hnot. rewrite Hout; [now apply lookup_stored |].
    intros Hpk. apply in_map_iff in Hpk. destruct Hpk as (v & Hpk & Hv).
    apply Hnot. replace u with v; [exact Hv |].
    apply (distinct_keys_injective db); auto.
    apply (text_queryset_incl flag). now apply In_firstn in Hv.
Qed.

Lemma get_text_failure_keeps_earlier_texts_witness :
  map Db.complete_text (fst (GetTextJSONFiles.post Runs.failing_text_env "" Sample.library))
  = ["texto de /books/t1"; "texto de /books/t2"; "a b"; ""]
  /\ exists j t,
      nth_error Sample.library j = Some t
      /\ GetTextJSONFiles.process_json_file Runs.failing_text_env j
           (text_folder Runs.failing_text_env (Py.PStr "/books") t)
         = Py.raise Py.OSError "unreadable".
Proof.
  split; [reflexivity |].
  edestruct (get_text_failure_keeps_earlier_texts Runs.failing_text_env ""
               Sample.library)
    with (body := Py.PDict [("process_all", Py.PBool true)])
         (file_path := Py.PStr "/books") (flag := Py.PBool true)
    as (j & t & Hnth & Hfail & _);
    [ cbn; repeat (constructor; [cbn; intuition discriminate |]); constructor
    | reflexivity | reflexivity | reflexivity | reflexivity
    | vm_compute; reflexivity | ].
  exists j, t. split; [exact Hnth | exact Hfail].
Defined.






(** ** [_get_title_queryset]: selection, order and limit *)

Lemma insert_descending (x : Db.Title) (q : list Db.Title) :
  descending_pk q ->
  descending_pk (Seq.insert (fun a b => Db.pk b <=? Db.pk a) x q).
Proof.
  induction q as [| y q IH]; intros Hq; cbn [Seq.insert].
  - cbn. auto.
  - destruct Hq as [Hy Hq]. destruct (Z.leb_spec (Db.pk y) (Db.pk x)) as [Hle | Hlt].
    + cbn [descending_pk]. split; [| split; assumption].
      constructor; [exact Hle |].
      eapply Forall_impl; [| exact Hy]. cbn. intros u Hu. lia.
    + cbn [descending_pk]. split; [| now apply IH].
      eapply Permutation_Forall; [symmetry; apply insert_perm |].
      constructor; [lia | exact Hy].
Qed.

Lemma order_by_desc_pk_descending (q : list Db.Title) :
  descending_pk (Db.order_by_desc_pk q).
Proof.
  unfold Db.order_by_desc_pk, Seq.sort.
  induction q as [| x q IH]; cbn [fold_right]; [exact I | now apply insert_descending].
Qed.

Lemma descending_split (k : nat) (q : list Db.Title) :
  descending_pk q ->
  descending_pk (firstn k q)
  /\ forall t u, In t (skipn k q) -> In u (firstn k q) -> Db.pk t <= Db.pk u.
Proof.
  revert k. induction q as [| x q IH]; intros k Hq.
  - rewrite firstn_nil, skipn_nil. split; [exact I | contradiction].
  - destruct k as [| k]; [split; [exact I | contradiction] |].
    destruct Hq as [Hx Hq]. destruct (IH k Hq) as [Hfirst Hrest].
    cbn [firstn skipn descending_pk]. split.
    + split; [| exact Hfirst]. apply Forall_forall. intros u Hu.
      apply In_firstn in Hu. revert u Hu. now apply Forall_forall.
    + intros t u Ht [<- | Hu]; [| now apply Hrest].
      assert (Hin : In t q) by (rewrite <- (firstn_skipn k q); apply in_or_app; now right).
      revert t Hin Ht. rewrite Forall_forall in Hx. intros t Hin _. now apply Hx.
Qed.

Lemma len_iter (v : Py.pyval) (n : Z) :
  Py.len v = Py.Ok n ->
  exists keys, Py.iter v = Py.Ok keys /\ n = Z.of_nat (List.length keys).
Proof.
  destruct v; try discriminate; cbn; intros [= <-]; eexists; (split; [reflexivity |]).
  - rewrite length_map. f_equal. induction s as [| c s IH]; cbn; congruence.
  - reflexivity.
  - now rewrite length_map.
Qed.

(** X8: The queryset holds the titles of the table that have text and are
    wanted, by descending primary key; a positive [book_limit] keeps the
    first [book_limit] of them, so that a title left out has a primary key
    no larger than any title kept.  The table is only read. *)
Theorem get_title_queryset_selects_orders_limits
    (book_limit list_keys theme_filter : Py.pyval)
    (w w' : PrepareTrainData.world) (queryset : list Db.Title) :
  PrepareTrainData._get_title_queryset book_limit list_keys theme_filter w
  = (w', Py.Ok queryset) ->
  w' = w
  /\ descending_pk queryset
  /\ (forall t, In t queryset ->
                In t (PrepareTrainData.titles w)
                /\ PrepareTrainData.has_text t = true
                /\ wanted list_keys theme_filter t = true)
  /\ (forall k, Py.gt0 book_limit = Py.Ok true -> Py.int_of book_limit = Py.Ok k ->
                (List.length queryset <= Z.to_nat k)%nat)
  /\ (forall t, In t (PrepareTrainData.titles w) ->
                PrepareTrainData.has_text t = true ->
                wanted list_keys theme_filter t = true ->
                In t queryset
                \/ (Py.gt0 book_limit = Py.Ok true
                    /\ Forall (fun u => Db.pk t <= Db.pk u) queryset)).
Proof.
  unfold PrepareTrainData._get_title_queryset. intros H.
  apply mbind_Ok in H. destruct H as (n & w2 & Hn & H).
  injection Hn as <- Hn.
  apply mbind_Ok in H. destruct H as (selected & w3 & Hsel & H).
  assert (Hselected : w3 = w
                      /\ selected = filter (wanted list_keys theme_filter)
                                      (PrepareTrainData.titles w)).
  { destruct (len_iter list_keys n Hn) as (keys & Hkeys & Hlen).
    destruct (Z.ltb_spec 0 n) as [Hpos | Hzero].
    - apply mbind_Ok in Hsel. destruct Hsel as (keys' & w4 & Hkeys' & Hsel).
      unfold PrepareTrainData.lift in Hkeys'. rewrite Hkeys in Hkeys'.
      injection Hkeys' as <- <-. injection Hsel as <- <-. split; [reflexivity |].
      apply filter_ext. intros t. unfold wanted. rewrite Hkeys.
      destruct keys; [cbn in Hlen; lia | reflexivity].
    - assert (keys = []) as -> by (destruct keys; [reflexivity | cbn in Hlen; lia]).
      assert (Hw : forall t, wanted list_keys theme_filter t
                             = if Py.truthy theme_filter
                               then Py.pyval_eqb (Db.theme t) theme_filter else true)
        by (intros t; unfold wanted; now rewrite Hkeys).
      destruct (Py.truthy theme_filter) eqn:Htheme.
      + injection Hsel as <- <-. split; [reflexivity |].
        apply filter_ext. intros t. now rewrite Hw.
      + injection Hsel as <- <-. split; [reflexivity |].
        symmetry. apply filter_all. apply Forall_forall. intros t _. now rewrite Hw. }
  destruct Hselected as (-> & ->). clear Hsel.
  set (ordered := Db.order_by_desc_pk _) in H.
  assert (Hperm : Permutation ordered
                    (filter PrepareTrainData.has_text
                       (filter (wanted list_keys theme_filter) (PrepareTrainData.titles w))))
    by apply sort_perm.
  assert (Hdesc : descending_pk ordered) by apply order_by_desc_pk_descending.
  assert (Hin : forall t, In t ordered <->
                          In t (PrepareTrainData.titles w)
                          /\ PrepareTrainData.has_text t = true
                          /\ wanted list_keys theme_filter t = true).
  { intros t. split.
    - intros Ht. eapply Permutation_in in Ht; [| exact Hperm].
      apply filter_In in Ht. destruct Ht as [Ht Htext].
      apply filter_In in Ht. tauto.
    - intros (Ht & Htext & Hw). eapply Permutation_in; [symmetry; exact Hperm |].
      apply filter_In. split; [| exact Htext]. apply filter_In. tauto. }
  clearbody ordered.
  apply mbind_Ok in H. destruct H as (limited & w5 & Hlim & H).
  injection Hlim as <- Hlim.
  destruct limited.
  - apply mbind_Ok in H. destruct H as (k & w6 & Hk & H).
    injection Hk as <- Hk. injection H as <- <-.
    destruct (descending_split (Z.to_nat k) ordered Hdesc) as [Hfirst Hrest].
    split; [reflexivity |]. split; [exact Hfirst |]. split; [| split].
    + intros t Ht. apply Hin. eapply In_firstn. exact Ht.
    + intros k' _ Hk'. rewrite Hk in Hk'. injection Hk' as <-.
      rewrite length_firstn. lia.
    + intros t Ht Htext Hw.
      assert (Hord : In t ordered) by (apply Hin; tauto).
      rewrite <- (firstn_skipn (Z.to_nat k) ordered) in Hord.
      apply in_app_or in Hord. destruct Hord as [Hkept | Hleft]; [now left | right].
      split; [exact Hlim |]. apply Forall_forall. intros u Hu. now apply Hrest.
  - injection H as <- <-.
    split; [reflexivity |]. split; [exact Hdesc |]. split; [| split].
    + intros t Ht. now apply Hin.
    + intros k Hk. rewrite Hlim in Hk. discriminate.
    + intros t Ht Htext Hw. left. apply Hin. tauto.
Qed.

Lemma get_title_queryset_selects_orders_limits_witness :
  PrepareTrainData._get_title_queryset (Py.PInt 2) (Py.PList []) Py.PNone
    (Sample.start Sample.library)
  = (Sample.start Sample.library,
     Py.Ok [Sample.title 3 "t3" "a b"; Sample.title 2 "t2" "a c"])
  /\ Forall (fun u => 1 <= Db.pk u) [Sample.title 3 "t3" "a b"; Sample.title 2 "t2" "a c"].
Proof.
  split; [reflexivity |].
  destruct (get_title_queryset_selects_orders_limits (Py.PInt 2) (Py.PList []) Py.PNone
              (Sample.start Sample.library) (Sample.start Sample.library)
              [Sample.title 3 "t3" "a b"; Sample.title 2 "t2" "a c"] eq_refl)
    as (_ & _ & _ & _ & Hleft).
  destruct (Hleft (Sample.title 1 "t1" "d")) as [Hkept | [_ Hsmaller]].
  - cbn. tauto.
  - reflexivity.
  - reflexivity.
  - exfalso. cbn in Hkept. destruct Hkept as [Heq | [Heq | []]]; discriminate Heq.
  - exact Hsmaller.
Defined.

(** ** [PrepareTrainData]: what a request uploads *)

Lemma split_slices_cover {A : Type} (m : Sparse.matrix A) (n : Z) :
  Sparse.rows (Sparse.slice_rows m None (Some n))
  ++ Sparse.rows (Sparse.slice_rows m (Some n) None)
  = Sparse.rows m.
Proof.
  unfold Sparse.slice_rows. cbn [Sparse.rows].
  set (len := Sparse.shape0 m). set (b := Sparse.norm_index len n).
  assert (Hlen : 0 <= len) by (subst len; unfold Sparse.shape0; lia).
  assert (Hb : 0 <= b <= len) by (subst b; unfold Sparse.norm_index; destruct (Z.ltb_spec n 0); lia).
  rewrite Z.sub_0_r. change (Z.to_nat 0) with 0%nat. rewrite skipn_O.
  rewrite (firstn_all2 (n := Z.to_nat (len - b))).
  - apply firstn_skipn.
  - rewrite length_skipn. subst len. unfold Sparse.shape0 in *. lia.
Qed.

Lemma map_loop_bucket (E : PrepareTrainData.env) (vectors : Sparse.matrix nat)
    (queryset : list Db.Title) :
  forall (c : Z) (w w' : PrepareTrainData.world) (r : Py.res unit),
    PrepareTrainData.map_loop E vectors c queryset w = (w', r) ->
    PrepareTrainData.bucket w' = PrepareTrainData.bucket w.
Proof.
  induction queryset as [| item rest IH]; intros c w w' r H.
  - now injection H as <- _.
  - cbn [PrepareTrainData.map_loop] in H.
    unfold PrepareTrainData.mbind at 1, PrepareTrainData.lift at 1 in H.
    destruct (Sparse.row_at vectors c); [| now injection H as <- _].
    unfold PrepareTrainData.mbind at 1, PrepareTrainData.savetxt at 1,
      PrepareTrainData.write_file at 1 in H.
    destruct (PrepareTrainData.np_savetxt E _ _); [| now injection H as <- _].
    unfold PrepareTrainData.mbind at 1, PrepareTrainData.lift at 1 in H.
    cbn [PrepareTrainData.titles PrepareTrainData.files PrepareTrainData.bucket] in H.
    destruct (PrepareTrainData.vector_file_save E _ _); [| now injection H as <- _].
    unfold PrepareTrainData.mbind at 1, PrepareTrainData.save_title at 1 in H.
    apply IH in H. exact H.
Qed.

(** The keys and the bucket of the objects of the loop, for file names that
    are known. *)
Lemma chunks_keys (sparray : Sparse.matrix spec_float) (b p t : string) (n c : Z)
    (indices : list Z) (objects : list PrepareTrainData.s3_object) :
  Forall2 (fun i o => PrepareTrainData.chunk_of sparray b p t n c i = Py.Ok o)
    indices objects ->
  forall names,
    map (fun i => Py.format1 t (Py.str_of_int i)) indices = map Py.Ok names ->
    map PrepareTrainData.s3_key objects = map (fun name => Py.path_join p [name]) names
    /\ Forall (fun o => PrepareTrainData.s3_bucket o = b) objects.
Proof.
  induction 1 as [| i o indices objects Ho _ IH]; intros names Hnames.
  - destruct names; [| discriminate]. split; [reflexivity | constructor].
  - destruct names as [| name names]; [discriminate |].
    cbn [map] in Hnames. injection Hnames as Hname Hnames.
    destruct (IH names Hnames) as [Hkeys Hbucket].
    destruct (chunk_of_Ok _ _ _ _ _ _ _ _ Ho) as (Hb & _ & name' & Hname' & Hkey).
    rewrite Hname in Hname'. injection Hname' as <-.
    split; [cbn [map]; now rewrite Hkey, Hkeys | now constructor].
Qed.

Lemma lift_Ok {A : Type} (m : Py.res A) (w w' : PrepareTrainData.world) (a : A) :
  PrepareTrainData.lift m w = (w', Py.Ok a) -> w' = w /\ m = Py.Ok a.
Proof. unfold PrepareTrainData.lift. now intros [= <- ->]. Qed.

(** X9: An answered request has put nine objects in the bucket
    [sagemaker-erecommender], after those that were there: the eight parts of
    the training rows and the one part of the validation rows, under the keys
    [recommender/train/train_part0.pbr] to [train_part7.pbr] and
    [recommender/val/val_part0.pbr].  Read in that order, the parts hold the
    rows of the matrix dumped to [vectors.joblib], as [float32], each row
    once. *)
Theorem prepare_train_data_uploads_every_row_once (E : PrepareTrainData.env)
    (request_body : string) (w w' : PrepareTrainData.world) (r : Rest.Response) :
  PrepareTrainData.post E request_body w = (w', Py.Ok r) ->
  exists shuffled objects,
    In ((PrepareTrainData.BOOK_PATH E ++ "/vectors.joblib")%string,
        PrepareTrainData.FMatrix shuffled) (PrepareTrainData.files w')
    /\ PrepareTrainData.bucket w' = PrepareTrainData.bucket w ++ objects
    /\ map PrepareTrainData.s3_key objects
       = ["recommender/train/train_part0.pbr"; "recommender/train/train_part1.pbr";
          "recommender/train/train_part2.pbr"; "recommender/train/train_part3.pbr";
          "recommender/train/train_part4.pbr"; "recommender/train/train_part5.pbr";
          "recommender/train/train_part6.pbr"; "recommender/train/train_part7.pbr";
          "recommender/val/val_part0.pbr"]
    /\ Forall (fun o => PrepareTrainData.s3_bucket o = "sagemaker-erecommender") objects
    /\ List.concat (map (fun o => Sparse.rows (PrepareTrainData.s3_body o)) objects)
       = map (map Float64.float32_of_count) (Sparse.rows shuffled).
Proof.
  unfold PrepareTrainData.post. intros H.
  apply mbind_Ok in H. destruct H as (body & w1 & H1 & H).
  apply lift_Ok in H1. destruct H1 as [-> _].
  apply mbind_Ok in H. destruct H as (book_limit & w1 & H1 & H).
  apply lift_Ok in H1. destruct H1 as [-> _].
  apply mbind_Ok in H. destruct H as (list_keys & w1 & H1 & H).
  apply lift_Ok in H1. destruct H1 as [-> _].
  apply mbind_Ok in H. destruct H as (theme_filter & w1 & H1 & H).
  apply lift_Ok in H1. destruct H1 as [-> _].
  apply mbind_Ok in H. destruct H as (queryset & w1 & H1 & H).
  apply get_title_queryset_spec in H1. destruct H1 as [-> _].
  apply mbind_Ok in H. destruct H as (fitted & w1 & H1 & H).
  apply lift_Ok in H1. destruct H1 as [-> _].
  apply mbind_Ok in H. destruct H as ([] & w1 & H1 & H). apply write_file_Ok in H1. subst w1.
  apply mbind_Ok in H. destruct H as ([] & w1 & H1 & H). apply write_file_Ok in H1. subst w1.
  apply mbind_Ok in H. destruct H as ([] & w1 & H1 & H). apply write_file_Ok in H1. subst w1.
  apply mbind_Ok in H. destruct H as (shuffled & w1 & H1 & H).
  apply lift_Ok in H1. destruct H1 as [-> _].
  apply mbind_Ok in H. destruct H as ([] & w1 & H1 & H). apply write_file_Ok in H1. subst w1.
  apply mbind_Ok in H. destruct H as ([] & w1 & Hloop & H).
  pose proof (map_loop_bucket _ _ _ _ _ _ _ Hloop) as Hbucket.
  pose proof (files_grow_map_loop _ _ _ _ _ _ _ Hloop) as [more Hfiles].
  cbn [PrepareTrainData.bucket PrepareTrainData.files] in Hbucket, Hfiles.
  apply mbind_Ok in H. destruct H as ([train val] & w2 & H1 & H).
  apply lift_Ok in H1. destruct H1 as [-> Hsplit]. cbn [fst snd] in H.
  apply mbind_Ok in H. destruct H as (u1 & w2 & Htrain & H).
  apply split_convert_upload_Ok in Htrain. destruct Htrain as (parts & -> & Hparts).
  apply mbind_Ok in H. destruct H as (u2 & w3 & Hval & H).
  apply split_convert_upload_Ok in Hval. destruct Hval as (rest & -> & Hrest).
  injection H as <- _.
  cbn [PrepareTrainData.bucket PrepareTrainData.files PrepareTrainData.titles].
  unfold PrepareTrainData.train_val_split in Hsplit.
  destruct (PrepareTrainData.n_train _) as [n |]; [| discriminate].
  cbn [Py.bind] in Hsplit. injection Hsplit as <- <-.
  destruct (chunks_keys _ _ _ _ _ _ _ _ Hparts
              ["train_part0.pbr"; "train_part1.pbr"; "train_part2.pbr"; "train_part3.pbr";
               "train_part4.pbr"; "train_part5.pbr"; "train_part6.pbr"; "train_part7.pbr"]
              eq_refl) as [Hkeys1 Hbucket1].
  destruct (chunks_keys _ _ _ _ _ _ _ _ Hrest ["val_part0.pbr"] eq_refl)
    as [Hkeys2 Hbucket2].
  exists shuffled, (parts ++ rest). split; [| split; [| split; [| split]]].
  - rewrite Hfiles, !in_app_iff. cbn [In]. tauto.
  - rewrite Hbucket, <- app_assoc. reflexivity.
  - rewrite map_app, Hkeys1, Hkeys2. reflexivity.
  - apply Forall_app. split; assumption.
  - rewrite map_app, concat_app.
    rewrite <- (map_map PrepareTrainData.s3_body (fun m => Sparse.rows m) parts),
      <- (map_map PrepareTrainData.s3_body (fun m => Sparse.rows m) rest).
    rewrite (chunks_bodies _ _ _ _ _ _ _ _ Hparts), (chunks_bodies _ _ _ _ _ _ _ _ Hrest).
    rewrite !map_map, !parts_cover by lia.
    rewrite split_slices_cover. reflexivity.
Qed.
Lemma prepare_train_data_uploads_every_row_once_witness :
  exists objects,
    PrepareTrainData.bucket
      (fst (PrepareTrainData.post (Sample.prepare_env (Py.PDict []) (@rev Z)) ""
              (Sample.start Sample.library)))
    = objects
    /\ List.length objects = 9%nat
    /\ List.concat (map (fun o => Sparse.rows (PrepareTrainData.s3_body o)) objects)
       = map (map Float64.float32_of_count) [[0]; [1]; [1]]%nat.
Proof.
  destruct (prepare_train_data_uploads_every_row_once
              (Sample.prepare_env (Py.PDict []) (@rev Z)) ""
              (Sample.start Sample.library)
              (fst (PrepareTrainData.post (Sample.prepare_env (Py.PDict []) (@rev Z)) ""
                      (Sample.start Sample.library)))
              (PrepareTrainData.response (Sample.prepare_env (Py.PDict []) (@rev Z))))
    as (shuffled & objects & _ & Hbucket & Hkeys & _ & _).
  - vm_compute. reflexivity.
  - exists objects. split; [exact Hbucket |]. split.
    + rewrite <- (length_map PrepareTrainData.s3_key), Hkeys. reflexivity.
    + cbn [PrepareTrainData.bucket Sample.start app] in Hbucket. subst objects.
      vm_compute. reflexivity.
Defined.

(** ** [PrepareTrainData]: what a request may change *)

(** [_get_title_queryset] only reads, however it ends. *)
Lemma get_title_queryset_reads_only (book_limit list_keys theme_filter : Py.pyval)
    (w w' : PrepareTrainData.world) (r : Py.res (list Db.Title)) :
  PrepareTrainData._get_title_queryset book_limit list_keys theme_filter w = (w', r) ->
  w' = w.
Proof.
  unfold PrepareTrainData._get_title_queryset, PrepareTrainData.mbind,
    PrepareTrainData.lift, PrepareTrainData.gets, PrepareTrainData.ret.
  destruct (Py.len list_keys) as [n |]; [| now intros [= <- _]].
  destruct (0 <? n).
  - destruct (Py.iter list_keys); [| now intros [= <- _]].
    destruct (Py.gt0 book_limit) as [[] |]; [| now intros [= <- _] | now intros [= <- _]].
    destruct (Py.int_of book_limit); now intros [= <- _].
  - destruct (Py.truthy theme_filter);
      (destruct (Py.gt0 book_limit) as [[] |]; [| now intros [= <- _] | now intros [= <- _]]);
      destruct (Py.int_of book_limit); now intros [= <- _].
Qed.

Lemma vector_only_changed_refl (t : Db.Title) : vector_only_changed t t.
Proof. unfold vector_only_changed. tauto. Qed.

Lemma vector_only_changed_pks (db0 db : Db.table) :
  Forall2 vector_only_changed db0 db -> map Db.pk db = map Db.pk db0.
Proof.
  induction 1 as [| x y l l' Hxy _ IH]; [reflexivity |].
  cbn. destruct Hxy as (Hpk & _). now rewrite Hpk, IH.
Qed.

Lemma vector_only_changed_all_refl (db : Db.table) : Forall2 vector_only_changed db db.
Proof. induction db; constructor; [apply vector_only_changed_refl | assumption]. Qed.

Lemma update_row_vector_frame (item : Db.Title) (f : string * list nat)
    (db0 db : Db.table) :
  Forall2 vector_only_changed db0 db ->
  NoDup (map Db.pk db0) ->
  In item db0 ->
  PrepareTrainData.has_text item = true ->
  Forall2 vector_only_changed db0 (Db.update_row (Db.set_vector_file item f) db).
Proof.
  intros HR. induction HR as [| x y l l' Hxy Hll IH]; intros Hnd Hin Htext.
  - constructor.
  - cbn [Db.update_row Db.set_vector_file Db.pk].
    assert (Hpk : Db.pk y = Db.pk x) by apply Hxy.
    cbn [map] in Hnd. apply NoDup_cons_iff in Hnd. destruct Hnd as [Hx Hnd].
    destruct (Z.eqb_spec (Db.pk y) (Db.pk item)) as [Heq | Hne].
    + assert (item = x) as ->.
      { destruct Hin as [<- | Hin]; [reflexivity |].
        exfalso. apply Hx. rewrite <- Hpk, Heq. now apply in_map. }
      constructor; [| exact Hll].
      unfold vector_only_changed. cbn.
      repeat split; try reflexivity. intros Hnone. congruence.
    + constructor; [exact Hxy |]. apply IH; [exact Hnd | | exact Htext].
      destruct Hin as [<- | Hin]; [congruence | exact Hin].
Qed.

Lemma map_loop_vector_frame (E : PrepareTrainData.env) (vectors : Sparse.matrix nat)
    (db0 : Db.table) (queryset : list Db.Title) :
  NoDup (map Db.pk db0) ->
  (forall t, In t queryset -> In t db0 /\ PrepareTrainData.has_text t = true) ->
  forall (c : Z) (w w' : PrepareTrainData.world) (r : Py.res unit),
    Forall2 vector_only_changed db0 (PrepareTrainData.titles w) ->
    PrepareTrainData.map_loop E vectors c queryset w = (w', r) ->
    Forall2 vector_only_changed db0 (PrepareTrainData.titles w').
Proof.
  intros Hnd. induction queryset as [| item rest IH]; intros Hqs c w w' r HR H.
  - now injection H as <- _.
  - cbn [PrepareTrainData.map_loop] in H.
    unfold PrepareTrainData.mbind at 1, PrepareTrainData.lift at 1 in H.
    destruct (Sparse.row_at vectors c) as [row |]; [| now injection H as <- _].
    unfold PrepareTrainData.mbind at 1, PrepareTrainData.savetxt at 1,
      PrepareTrainData.write_file at 1 in H.
    destruct (PrepareTrainData.np_savetxt E _ _); [| now injection H as <- _].
    unfold PrepareTrainData.mbind at 1, PrepareTrainData.lift at 1 in H.
    cbn [PrepareTrainData.titles PrepareTrainData.files PrepareTrainData.bucket] in H.
    destruct (PrepareTrainData.vector_file_save E _ _) as [name |];
      [| now injection H as <- _].
    unfold PrepareTrainData.mbind at 1, PrepareTrainData.save_title at 1 in H.
    eapply IH; [| | exact H].
    + intros t Ht. apply Hqs. now right.
    + cbn [PrepareTrainData.titles].
      destruct (Hqs item (or_introl eq_refl)) as [Hin Htext].
      unfold Db.save.
      replace (Db.has_pk (Db.pk (Db.set_vector_file item (name, row)))
                 (PrepareTrainData.titles w)) with true.
      * now apply update_row_vector_frame.
      * symmetry. apply has_pk_In. rewrite (vector_only_changed_pks db0 _ HR).
        cbn [Db.set_vector_file Db.pk]. now apply in_map.
Qed.

(** X10: However a request ends, with an answer or with an exception raised
    at any of its steps, the table holds the same titles in the same order,
    each with the key, identifier, publisher, theme, name and text it had; a
    title without text is left as it was in every field.  Only the
    [vector_file] of a title that has text can differ. *)
Theorem prepare_train_data_touches_vector_files_only (E : PrepareTrainData.env)
    (request_body : string) (w : PrepareTrainData.world) :
  NoDup (map Db.pk (PrepareTrainData.titles w)) ->
  Forall2 vector_only_changed (PrepareTrainData.titles w)
    (PrepareTrainData.titles (fst (PrepareTrainData.post E request_body w))).
Proof.
  intros Hnd.
  pose proof (vector_only_changed_all_refl (PrepareTrainData.titles w)) as Hsame.
  unfold PrepareTrainData.post.
  unfold PrepareTrainData.mbind at 1, PrepareTrainData.lift at 1.
  destruct (PrepareTrainData.json_loads E request_body) as [body |]; [| exact Hsame].
  unfold PrepareTrainData.mbind at 1, PrepareTrainData.lift at 1.
  destruct (Py.get body "book_limit" _) as [book_limit |]; [| exact Hsame].
  unfold PrepareTrainData.mbind at 1, PrepareTrainData.lift at 1.
  destruct (Py.get body "list_keys" _) as [list_keys |]; [| exact Hsame].
  unfold PrepareTrainData.mbind at 1, PrepareTrainData.lift at 1.
  destruct (Py.get body "theme" _) as [theme_filter |]; [| exact Hsame].
  unfold PrepareTrainData.mbind at 1.
  destruct (PrepareTrainData._get_title_queryset book_limit list_keys theme_filter w)
    as [w1 [queryset | e]] eqn:Hq.
  2: { apply get_title_queryset_reads_only in Hq. subst w1. exact Hsame. }
  apply get_title_queryset_spec in Hq. destruct Hq as (-> & Htext & Hincl & _).
  unfold PrepareTrainData.mbind at 1, PrepareTrainData.lift at 1.
  destruct (PrepareTrainData.fit_transform E _) as [fitted |]; [| exact Hsame].
  unfold PrepareTrainData.mbind at 1, PrepareTrainData.savetxt at 1,
    PrepareTrainData.write_file at 1.
  destruct (PrepareTrainData.np_savetxt E _ _); [| exact Hsame].
  unfold PrepareTrainData.mbind at 1, PrepareTrainData.savetxt at 1,
    PrepareTrainData.write_file at 1.
  destruct (PrepareTrainData.np_savetxt E _ _); [| exact Hsame].
  unfold PrepareTrainData.mbind at 1, PrepareTrainData.savetxt at 1,
    PrepareTrainData.write_file at 1.
  destruct (PrepareTrainData.np_savetxt E _ _); [| exact Hsame].
  unfold PrepareTrainData.mbind at 1, PrepareTrainData.lift at 1.
  destruct (Sparse.take_rows _ _) as [shuffled |]; [| exact Hsame].
  unfold PrepareTrainData.mbind at 1, PrepareTrainData.dump at 1,
    PrepareTrainData.write_file at 1.
  destruct (PrepareTrainData.joblib_dump E _); [| exact Hsame].
  cbn [PrepareTrainData.titles PrepareTrainData.files PrepareTrainData.bucket].
  unfold PrepareTrainData.mbind at 1, PrepareTrainData._map_vectors_titles at 1.
  match goal with
  | |- context [PrepareTrainData.map_loop E shuffled 0 queryset ?w0] =>
      pose proof (fun w' r =>
                    map_loop_vector_frame E shuffled (PrepareTrainData.titles w) queryset
                      Hnd (fun t Ht => conj (Hincl t Ht)
                                            (proj1 (Forall_forall _ _) Htext t Ht))
                      0 w0 w' r Hsame) as Hloop;
        destruct (PrepareTrainData.map_loop E shuffled 0 queryset w0) as [wb [[] | e]]
  end.
  - specialize (Hloop wb (Py.Ok tt) eq_refl).
    match goal with
    | |- context [fst (?rest wb)] =>
        assert (Hkept : titles_kept rest)
          by (repeat (apply titles_kept_mbind; [| intros ?]); auto with stores);
          destruct (rest wb) as [wf rf] eqn:Hrest
    end.
    apply Hkept in Hrest. cbn [fst]. now rewrite Hrest.
  - exact (Hloop wb (Py.Raise e) eq_refl).
Qed.

Lemma prepare_train_data_touches_vector_files_only_witness :
  Forall2 vector_only_changed Sample.library
    (PrepareTrainData.titles
       (fst (PrepareTrainData.post (Sample.prepare_env (Py.PDict []) (@rev Z)) ""
               (Sample.start Sample.library))))
  /\ map Db.vector_file
       (PrepareTrainData.titles
          (fst (PrepareTrainData.post (Sample.prepare_env (Py.PDict []) (@rev Z)) ""
                  (Sample.start Sample.library))))
     = [Some ("vector_file.csv", [1%nat]); Some ("vector_file.csv", [1%nat]);
        Some ("vector_file.csv", [0%nat]); None].
Proof.
  split; [| reflexivity].
  apply (prepare_train_data_touches_vector_files_only
           (Sample.prepare_env (Py.PDict []) (@rev Z)) "" (Sample.start Sample.library)).
  cbn. repeat (constructor; [cbn; intuition discriminate |]). constructor.
Defined.

(** ** [PrepareTrainData]: when a request is answered *)

(** [_split_convert_upload] returns when the session is obtained, the file
    names can be formatted and the uploads return. *)
Lemma split_convert_upload_runs (E : PrepareTrainData.env)
    (sparray : Sparse.matrix spec_float) (b p t : string) (n : Z)
    (w : PrepareTrainData.world) :
  n <> 0 ->
  Py.plain_template t = true ->
  (Py.fields t <= 1)%nat ->
  PrepareTrainData._get_boto_session E = Py.Ok tt ->
  (forall k key, PrepareTrainData.upload_fileobj E k b key = Py.Ok tt) ->
  exists objects,
    PrepareTrainData._split_convert_upload E sparray b p t n w
    = ({| PrepareTrainData.titles := PrepareTrainData.titles w;
          PrepareTrainData.files := PrepareTrainData.files w;
          PrepareTrainData.bucket := PrepareTrainData.bucket w ++ objects |}, Py.Ok tt)
    /\ Forall2 (fun i o => PrepareTrainData.chunk_of sparray b p t n
                             (Sparse.shape0 sparray / n) i = Py.Ok o)
         (Seq.range n) objects.
Proof.
  intros Hn Hplain Hfields Hsession Hupload.
  destruct (upload_loop_returns E sparray b p t n (Sparse.shape0 sparray / n)
              (Seq.range n) Hupload) with (w := w) as [w' Hloop].
  { intros i _. unfold PrepareTrainData.chunk_of.
    destruct (format1_plain t (Py.str_of_int i) Hplain Hfields) as [name ->].
    eexists. reflexivity. }
  assert (Hrun : PrepareTrainData._split_convert_upload E sparray b p t n w
                 = (w', Py.Ok tt)).
  { unfold PrepareTrainData._split_convert_upload.
    destruct (Z.eqb_spec n 0); [contradiction |].
    unfold PrepareTrainData.mbind at 1, PrepareTrainData.lift at 1.
    rewrite Hsession. exact Hloop. }
  destruct (split_convert_upload_Ok _ _ _ _ _ _ _ _ _ Hrun) as (objects & -> & Hall).
  exists objects. split; [exact Hrun | exact Hall].
Qed.



(** ** [_split_convert_upload]: fewer rows than parts *)

(** X12: With fewer rows than parts the part size is zero: every part but the
    last is uploaded empty, and the last part holds all the rows.  This is
    for a run in which the session is obtained and the uploads return, and
    for a file name template of literal text and at most one field [{}]. *)
Theorem split_convert_upload_with_fewer_rows_than_parts (E : PrepareTrainData.env)
    (sparray : Sparse.matrix spec_float) (bucket_name prefix fname_template : string)
    (n_parts : Z) (w : PrepareTrainData.world) :
  Sparse.shape0 sparray < n_parts ->
  Py.plain_template fname_template = true ->
  (Py.fields fname_template <= 1)%nat ->
  PrepareTrainData._get_boto_session E = Py.Ok tt ->
  (forall k key, PrepareTrainData.upload_fileobj E k bucket_name key = Py.Ok tt) ->
  exists objects,
    PrepareTrainData._split_convert_upload E sparray bucket_name prefix
      fname_template n_parts w
    = ({| PrepareTrainData.titles := PrepareTrainData.titles w;
          PrepareTrainData.files := PrepareTrainData.files w;
          PrepareTrainData.bucket := PrepareTrainData.bucket w ++ objects |}, Py.Ok tt)
    /\ List.length objects = Z.to_nat n_parts
    /\ forall i o,
        nth_error objects i = Some o ->
        Sparse.rows (PrepareTrainData.s3_body o)
        = if Z.of_nat i + 1 =? n_parts then Sparse.rows sparray else [].
Proof.
  intros Hfew Hplain Hfields Hsession Hupload.
  assert (HN : 0 <= Sparse.shape0 sparray) by (unfold Sparse.shape0; lia).
  assert (Hsize : Sparse.shape0 sparray / n_parts = 0) by (apply Z.div_small; lia).
  destruct (split_convert_upload_runs E sparray bucket_name prefix fname_template
              n_parts w) as (objects & Hrun & Hall); try assumption; [lia |].
  exists objects. split; [exact Hrun |]. split.
  - rewrite <- (Forall2_length Hall). apply range_length.
  - intros i o Ho.
    assert (Hbodies := chunks_bodies _ _ _ _ _ _ _ _ Hall).
    assert (Hbody : nth_error (map PrepareTrainData.s3_body objects) i
                    = Some (PrepareTrainData.s3_body o))
      by (rewrite nth_error_map, Ho; reflexivity).
    rewrite Hbodies in Hbody. unfold Seq.range in Hbody.
    rewrite map_map, nth_error_map, nth_error_seq in Hbody.
    destruct (Nat.ltb_spec i (Z.to_nat n_parts)); [| discriminate].
    cbn [option_map Nat.add] in Hbody. injection Hbody as <-.
    rewrite part_of_rows by lia. rewrite Hsize, !Z.mul_0_r.
    unfold Sparse.rows_between.
    destruct (Z.of_nat i + 1 =? n_parts); [| reflexivity].
    rewrite Z.sub_0_r. cbn [Z.to_nat skipn].
    apply firstn_all2. unfold Sparse.shape0. lia.
Qed.

Lemma split_convert_upload_with_fewer_rows_than_parts_witness :
  map (fun o => List.length (Sparse.rows (PrepareTrainData.s3_body o)))
    (PrepareTrainData.bucket
       (fst (PrepareTrainData._split_convert_upload
               (Sample.prepare_env (Py.PDict []) (@rev Z))
               {| Sparse.rows := [[S754_zero false]; [S754_zero false]]; Sparse.n_cols := 1 |}
               "b" "p" "part{}" 3 (Sample.start []))))
  = [0; 0; 2]%nat.
Proof.
  destruct (split_convert_upload_with_fewer_rows_than_parts
              (Sample.prepare_env (Py.PDict []) (@rev Z))
              {| Sparse.rows := [[S754_zero false]; [S754_zero false]]; Sparse.n_cols := 1 |}
              "b" "p" "part{}" 3 (Sample.start []))
    as (objects & Hrun & Hlen & Hrows).
  - reflexivity.
  - reflexivity.
  - cbn. lia.
  - reflexivity.
  - reflexivity.
  - rewrite Hrun. cbn [fst PrepareTrainData.bucket Sample.start app].
    destruct objects as [| o0 [| o1 [| o2 [| o3 rest]]]]; try discriminate Hlen.
    cbn [map]. rewrite (Hrows 0%nat o0 eq_refl), (Hrows 1%nat o1 eq_refl),
      (Hrows 2%nat o2 eq_refl). reflexivity.
Defined.

(** ** [CreateNTMEstimator] after [PrepareTrainData] *)

(** X13: The answer of [PrepareTrainData] is a body that [CreateNTMEstimator]
    accepts: the estimator is created with the output path
    [s3://sagemaker-erecommender/recommender/output], trained on
    [.../recommender/train] and tested on [.../recommender/val]; when these
    calls and the deployment return, the request is answered with status 200,
    the endpoint of the predictor, and the paths and file names of the body
    as they were. *)
Theorem estimator_accepts_the_prepared_paths (P : PrepareTrainData.env)
    (E : CreateNTMEstimator.env) (prepare_body estimator_body : string)
    (w w' : PrepareTrainData.world) (r : Rest.Response) (predictor endpoint : Py.pyval) :
  PrepareTrainData.post P prepare_body w = (w', Py.Ok r) ->
  CreateNTMEstimator._get_profile_role E = Py.Ok tt ->
  CreateNTMEstimator.get_image_uri E = Py.Ok tt ->
  CreateNTMEstimator.json_loads E estimator_body = Py.Ok (Rest.data r) ->
  CreateNTMEstimator.Session E = Py.Ok tt ->
  CreateNTMEstimator.Estimator E
    (Py.PStr "s3://sagemaker-erecommender/recommender/output") = Py.Ok tt ->
  CreateNTMEstimator.set_hyperparameters E = Py.Ok tt ->
  CreateNTMEstimator.s3_input E
    (Py.PStr "s3://sagemaker-erecommender/recommender/train") = Py.Ok tt ->
  CreateNTMEstimator.fit E
    (Py.PStr "s3://sagemaker-erecommender/recommender/val") = Py.Ok tt ->
  CreateNTMEstimator.deploy E = Py.Ok predictor ->
  Py.getitem predictor "endpoint" = Py.Ok endpoint ->
  exists r',
    CreateNTMEstimator.post E estimator_body = Py.Ok r'
    /\ Rest.status r' = Rest.HTTP_200_OK
    /\ Py.getitem (Rest.data r') "status" = Py.Ok (Py.PStr "Ok")
    /\ Py.getitem (Rest.data r') "predictor" = Py.Ok endpoint
    /\ forall key,
        In key ["paths"; "vectors_path"; "vocab_list"; "index"; "new_index"] ->
        Py.getitem (Rest.data r') key = Py.getitem (Rest.data r) key.
Proof.
  intros Hpost Hrole Himage Hjson Hsession Hestimator Hhyper Hinput Hfit Hdeploy Hendpoint.
  apply prepare_train_data_response in Hpost. subst r.
  unfold CreateNTMEstimator.post. rewrite Hrole, Himage, Hjson. cbn [Py.bind].
  unfold CreateNTMEstimator.try_block, CreateNTMEstimator.before_deploy_returns.
  rewrite Hsession. cbn [Py.bind].
  change (Py.getitem (Rest.data (PrepareTrainData.response P)) "paths")
    with (@Py.Ok Py.pyval
            (Py.PDict
               [("s3_train_data", Py.PStr "s3://sagemaker-erecommender/recommender/train");
                ("s3_val_data", Py.PStr "s3://sagemaker-erecommender/recommender/val");
                ("output_path", Py.PStr "s3://sagemaker-erecommender/recommender/output")])).
  cbn [Py.bind].
  change (Py.getitem (Py.PDict _) "output_path")
    with (@Py.Ok Py.pyval (Py.PStr "s3://sagemaker-erecommender/recommender/output")).
  cbn [Py.bind]. rewrite Hestimator. cbn [Py.bind]. rewrite Hhyper. cbn [Py.bind].
  change (Py.getitem (Py.PDict _) "s3_train_data")
    with (@Py.Ok Py.pyval (Py.PStr "s3://sagemaker-erecommender/recommender/train")).
  cbn [Py.bind]. rewrite Hinput. cbn [Py.bind].
  change (Py.getitem (Py.PDict _) "s3_val_data")
    with (@Py.Ok Py.pyval (Py.PStr "s3://sagemaker-erecommender/recommender/val")).
  cbn [Py.bind]. rewrite Hfit. cbn [Py.bind]. rewrite Hdeploy, Hendpoint.
  eexists. split; [reflexivity |]. split; [reflexivity |]. split; [reflexivity |].
  split; [reflexivity |].
  intros key [<- | [<- | [<- | [<- | [<- | []]]]]]; reflexivity.
Qed.

Lemma estimator_accepts_the_prepared_paths_witness :
  exists r',
    CreateNTMEstimator.post PrepareRuns.estimator_after_prepare "" = Py.Ok r'
    /\ Rest.status r' = 200
    /\ Py.getitem (Rest.data r') "predictor" = Py.Ok (Py.PStr "ntm-endpoint").
Proof.
  destruct (estimator_accepts_the_prepared_paths
              (Sample.prepare_env (Py.PDict []) (@rev Z))
              PrepareRuns.estimator_after_prepare "" ""
              (Sample.start Sample.library)
              (fst (PrepareTrainData.post (Sample.prepare_env (Py.PDict []) (@rev Z)) ""
                      (Sample.start Sample.library)))
              (PrepareTrainData.response (Sample.prepare_env (Py.PDict []) (@rev Z)))
              (Py.PDict [("endpoint", Py.PStr "ntm-endpoint")]) (Py.PStr "ntm-endpoint"))
    as (r' & Hpost & Hstatus & _ & Hpredictor & _);
    [ vm_compute; reflexivity | reflexivity .. | ].
  exists r'. split; [exact Hpost |]. split; [exact Hstatus | exact Hpredictor].
Defined.

(** ** [CreateNTMEstimator]: the body is read after the deployment *)




(** ** The vocabulary the vectorizer keeps *)

Lemma mem_true_In (t : string) (l : list string) : Sklearn.mem t l = true -> In t l.
Proof.
  unfold Sklearn.mem. intros H. apply existsb_exists in H.
  destruct H as (x & Hx & Heq). apply String.eqb_eq in Heq. now subst x.
Qed.

Lemma limit_features_keeps_frequent (argsort : list Z -> list nat)
    (analyzed : list (list string))
    (vocabulary : list string) (high : spec_float) (low : Z) (limit : nat)
    (kept : list string) :
  Sklearn._limit_features argsort analyzed vocabulary high low limit = Py.Ok kept ->
  forall t, In t kept ->
    In t vocabulary
    /\ low <= Z.of_nat (Sklearn.document_frequency analyzed t)
    /\ Float64.leb (Float64.of_int (Z.of_nat (Sklearn.document_frequency analyzed t))) high
       = true.
Proof.
  unfold Sklearn._limit_features. set (mask := filter _ vocabulary).
  assert (Hmask : forall t, In t mask ->
            In t vocabulary
            /\ low <= Z.of_nat (Sklearn.document_frequency analyzed t)
            /\ Float64.leb
                 (Float64.of_int (Z.of_nat (Sklearn.document_frequency analyzed t))) high
               = true).
  { intros t Ht. subst mask. apply filter_In in Ht. destruct Ht as [Ht Hkeep].
    apply andb_prop in Hkeep. destruct Hkeep as [Hhigh Hlow].
    apply Z.leb_le in Hlow. auto. }
  clearbody mask.
  destruct (limit <? List.length mask)%nat.
  - match goal with
    | |- context [map snd (filter ?keep ?pairs)] =>
        destruct (picked_positions_sub keep mask 0) as [Hsub _]
    end.
    destruct (map snd _) as [| t0 kept'] eqn:Hk; [discriminate |].
    intros [= <-] t Ht. apply Hmask, Hsub, Ht.
  - destruct mask as [| t0 mask']; [discriminate |].
    intros [= <-] t Ht. now apply Hmask.
Qed.

(** X15: Every term of the fitted vocabulary, that is every column of the matrix
    and every line of [vocab_list.csv], is a token of at least two of the
    documents ([min_df=2]), of at most [0.95] times their number as a float
    ([max_df=0.95]), and is not a stop word. *)
Theorem vocabulary_terms_are_shared_and_not_stop_words (E : PrepareTrainData.env)
    (docs vocab : list string) (X : Sparse.matrix nat) :
  PrepareTrainData.fit_transform E docs = Py.Ok (vocab, X) ->
  let analyzed :=
    map (Sklearn.analyze (PrepareTrainData.lower E) (PrepareTrainData.LTokenizer E)
           (PrepareTrainData.spanish_words E)) docs in
  forall t, In t vocab ->
    (2 <= Sklearn.document_frequency analyzed t <= List.length docs)%nat
    /\ Float64.leb (Float64.of_int (Z.of_nat (Sklearn.document_frequency analyzed t)))
         (Float64.mul Float64.lit_0_95 (Float64.of_int (Z.of_nat (List.length docs))))
       = true
    /\ Sklearn.mem t (PrepareTrainData.spanish_words E) = false
    /\ exists d, In d docs
                 /\ In t (PrepareTrainData.LTokenizer E (PrepareTrainData.lower E d)).
Proof.
  intros H analyzed t Ht.
  unfold PrepareTrainData.fit_transform, Sklearn.fit_transform in H.
  fold analyzed in H.
  destruct (Sklearn._count_vocab analyzed) as [vocabulary |]; [| discriminate].
  destruct (Float64.ltb _ _); [discriminate |].
  destruct (Sklearn._limit_features _ _ _ _ _ _) as [kept |] eqn:Hk; [| discriminate].
  injection H as <- _.
  destruct (limit_features_keeps_frequent _ _ _ _ _ _ _ Hk t Ht) as (_ & Hlow & Hhigh).
  assert (Hdf : (Sklearn.document_frequency analyzed t <= List.length docs)%nat).
  { unfold Sklearn.document_frequency. etransitivity; [apply filter_length_le |].
    subst analyzed. now rewrite length_map. }
  split; [lia |]. split; [exact Hhigh |].
  unfold Sklearn.document_frequency in Hlow.
  destruct (filter (Sklearn.mem t) analyzed) as [| tokens others] eqn:Hdocs;
    [cbn in Hlow; lia |].
  assert (Htokens : In tokens (filter (Sklearn.mem t) analyzed))
    by (rewrite Hdocs; now left).
  apply filter_In in Htokens. destruct Htokens as [Hin Hmem].
  subst analyzed. apply in_map_iff in Hin. destruct Hin as (d & <- & Hd).
  apply mem_true_In in Hmem. unfold Sklearn.analyze in Hmem.
  apply filter_In in Hmem. destruct Hmem as [Htoken Hstop].
  split; [now apply negb_true_iff in Hstop |]. exists d. auto.
Qed.

Lemma vocabulary_terms_are_shared_and_not_stop_words_witness :
  (2 <= Sklearn.document_frequency
          (map (Sklearn.analyze (fun s => s) Sample.split_blanks ["de"; "la"])
               ["a b"; "a c"; "d"]) "a" <= 3)%nat.
Proof.
  destruct (vocabulary_terms_are_shared_and_not_stop_words
              (Sample.prepare_env (Py.PDict []) (@rev Z)) ["a b"; "a c"; "d"] ["a"]
              {| Sparse.rows := [[1]; [1]; [0]]%nat; Sparse.n_cols := 1 |})
    with (t := "a") as (Hdf & _).
  - vm_compute. reflexivity.
  - now left.
  - exact Hdf.
Defined.

(** ** [PrepareTrainData]: too few titles *)

(** X16: A request that selects at most two titles cannot be vectorized with
    [min_df=2] and [max_df=0.95]: it raises ValueError, and the table, the
    book folder and the bucket are as they were. *)
Theorem prepare_train_data_needs_three_titles (E : PrepareTrainData.env)
    (request_body : string) (w w' : PrepareTrainData.world)
    (body book_limit list_keys theme_filter : Py.pyval) (queryset : list Db.Title) :
  PrepareTrainData.json_loads E request_body = Py.Ok body ->
  Py.get body "book_limit" (Py.PInt 0) = Py.Ok book_limit ->
  Py.get body "list_keys" (Py.PList []) = Py.Ok list_keys ->
  Py.get body "theme" Py.PNone = Py.Ok theme_filter ->
  PrepareTrainData._get_title_queryset book_limit list_keys theme_filter w
  = (w', Py.Ok queryset) ->
  (List.length queryset <= 2)%nat ->
  exists e,
    PrepareTrainData.post E request_body w = (w, Py.Raise e)
    /\ Py.exn_cls e = Py.ValueError.
Proof.
  intros Hjson Hbl Hlk Htf Hq Hfew.
  pose proof (get_title_queryset_reads_only _ _ _ _ _ _ Hq) as ->.
  destruct (fit_transform_small_corpus E (PrepareTrainData._get_titles_text queryset))
    as (e & Hfit & Hclass).
  - unfold PrepareTrainData._get_titles_text. rewrite length_map.
    etransitivity; [apply filter_length_le | exact Hfew].
  - exists e. split; [| exact Hclass].
    eapply prepare_train_data_vectorizer_error; eassumption.
Qed.

Lemma prepare_train_data_needs_three_titles_witness :
  exists e,
    PrepareTrainData.post
      (Sample.prepare_env (Py.PDict [("book_limit", Py.PInt 2)]) (@rev Z)) ""
      (Sample.start Sample.library)
    = (Sample.start Sample.library, Py.Raise e)
    /\ Py.exn_cls e = Py.ValueError.
Proof.
  apply (prepare_train_data_needs_three_titles
           (Sample.prepare_env (Py.PDict [("book_limit", Py.PInt 2)]) (@rev Z)) ""
           (Sample.start Sample.library) (Sample.start Sample.library)
           (Py.PDict [("book_limit", Py.PInt 2)]) (Py.PInt 2) (Py.PList []) Py.PNone
           [Sample.title 3 "t3" "a b"; Sample.title 2 "t2" "a c"]);
    [reflexivity | reflexivity | reflexivity | reflexivity | reflexivity | cbn; lia].
Defined.
